(** * RTO tracker: the compliance engine and its calendar arithmetic

    A shallow embedding of [src/lib/date-utils.ts] and
    [src/lib/compliance.ts], together with the part of the ECMAScript
    [Date] object these two files rely on, and of two of their callers:
    the day toggle of [src/components/features/WeekCard.tsx] and the
    figures of the dashboard of [src/routes/__root.tsx].

    Conventions of the embedding:
    - a JavaScript number that the code only ever uses as an integer
      (a year, a week number, a quarter, a count) is a [Z];
    - a [Date] object is its time value, the number of milliseconds since
      1970-01-01T00:00:00Z, as a [Z]; a method that mutates the object
      ([setUTCDate], [setDate]) returns the new time value;
    - the host's time zone is a constant offset [tz] in milliseconds east
      of UTC (no daylight-saving changes); it is a parameter of every
      function that reads or writes local date fields, and [tz = 0] is a
      host that runs in UTC;
    - [TimeClip] is left out, and with it Invalid Date and the
      [RangeError] of [toISOString] on it: the statements about dates
      assume years ([validYear]) and times ([validTimeValue]) inside the
      range of valid dates, where no date of the code is invalid;
    - the [while] loop of [getWeekdays] runs on fuel, and the functions
      that call it return an [option], [None] when the fuel ran out; the
      loop always ends within its fuel ([getWeekdays_total]);
    - a string is a [string]; comparison of strings with [<=] and [>=] is
      the lexicographic order on character codes;
    - [new Date(string)] returns an [option], [None] for a string that
      does not parse to a date ([Date_parse]);
    - the state of a React component is a parameter of its handler, and
      the handler returns what it passes to the storage layer and the new
      state. *)

From stdpp Require Import base numbers list strings gmap sorting.
From Stdlib Require Import ZArith Lia Ascii.

Local Open Scope Z_scope.

(** ** The ECMAScript date algorithms (ECMA-262, section "Date Objects") *)

Module JSDate.

Definition msPerDay : Z := 86400000.

Definition Day (t : Z) : Z := t / msPerDay.

Definition TimeWithinDay (t : Z) : Z := t mod msPerDay.

Definition DaysInYear (y : Z) : Z :=
  if negb (y mod 4 =? 0) then 365
  else if negb (y mod 100 =? 0) then 366
  else if negb (y mod 400 =? 0) then 365
  else 366.

Definition DayFromYear (y : Z) : Z :=
  365 * (y - 1970) + (y - 1969) / 4 - (y - 1901) / 100 + (y - 1601) / 400.

Definition TimeFromYear (y : Z) : Z := msPerDay * DayFromYear y.

(** The largest [y] with [DayFromYear y <= d]: an estimate from the mean
    length of a Gregorian year, corrected by at most one. *)
Definition YearFromDay (d : Z) : Z :=
  let y := 1970 + (400 * d) / 146097 in
  if d <? DayFromYear y then y - 1
  else if DayFromYear (y + 1) <=? d then y + 1
  else y.

Definition YearFromTime (t : Z) : Z := YearFromDay (Day t).

Definition InLeapYear (t : Z) : Z :=
  if DaysInYear (YearFromTime t) =? 366 then 1 else 0.

Definition DayWithinYear (t : Z) : Z := Day t - DayFromYear (YearFromTime t).

Definition MonthFromTime (t : Z) : Z :=
  let d := DayWithinYear t in
  let l := InLeapYear t in
  if d <? 31 then 0
  else if d <? 59 + l then 1
  else if d <? 90 + l then 2
  else if d <? 120 + l then 3
  else if d <? 151 + l then 4
  else if d <? 181 + l then 5
  else if d <? 212 + l then 6
  else if d <? 243 + l then 7
  else if d <? 273 + l then 8
  else if d <? 304 + l then 9
  else if d <? 334 + l then 10
  else 11.

(** Number of days of the year before the first of month [m] (0-based);
    [l] is 1 in a leap year and 0 otherwise. *)
Definition daysBeforeMonth (m l : Z) : Z :=
  match m with
  | 0 => 0
  | 1 => 31
  | 2 => 59 + l
  | 3 => 90 + l
  | 4 => 120 + l
  | 5 => 151 + l
  | 6 => 181 + l
  | 7 => 212 + l
  | 8 => 243 + l
  | 9 => 273 + l
  | 10 => 304 + l
  | _ => 334 + l
  end.

Definition DateFromTime (t : Z) : Z :=
  DayWithinYear t - daysBeforeMonth (MonthFromTime t) (InLeapYear t) + 1.

Definition WeekDay (t : Z) : Z := (Day t + 4) mod 7.

(** [MakeDay]: the day number of the first of month [month mod 12] of
    year [year + floor (month / 12)], plus [date - 1]. *)
Definition MakeDay (year month date : Z) : Z :=
  let ym := year + month / 12 in
  let mn := month mod 12 in
  let l := if DaysInYear ym =? 366 then 1 else 0 in
  DayFromYear ym + daysBeforeMonth mn l + date - 1.

Definition MakeDate (day time : Z) : Z := day * msPerDay + time.

(** Two-digit years given to a [Date] constructor or to [Date.UTC] mean
    19xx. *)
Definition MakeFullYear (year : Z) : Z :=
  if (0 <=? year) && (year <=? 99) then 1900 + year else year.

(** [Date.UTC(year, month, date)] *)
Definition Date_UTC (year month date : Z) : Z :=
  MakeDate (MakeDay (MakeFullYear year) month date) 0.

Definition getUTCFullYear (d : Z) : Z := YearFromTime d.
Definition getUTCMonth (d : Z) : Z := MonthFromTime d.
Definition getUTCDate (d : Z) : Z := DateFromTime d.
Definition getUTCDay (d : Z) : Z := WeekDay d.

Definition setUTCDate (d dt : Z) : Z :=
  MakeDate (MakeDay (YearFromTime d) (MonthFromTime d) dt) (TimeWithinDay d).

Section LocalTime.
(** Offset of local time from UTC, in milliseconds. *)
Context (tz : Z).

Definition LocalTime (t : Z) : Z := t + tz.
Definition UTC (t : Z) : Z := t - tz.

(** [new Date(year, month, date)]: local midnight of that day. *)
Definition Date_new (year month date : Z) : Z :=
  UTC (MakeDate (MakeDay (MakeFullYear year) month date) 0).

Definition getFullYear (d : Z) : Z := YearFromTime (LocalTime d).
Definition getMonth (d : Z) : Z := MonthFromTime (LocalTime d).
Definition getDate (d : Z) : Z := DateFromTime (LocalTime d).
Definition getDay (d : Z) : Z := WeekDay (LocalTime d).

Definition setDate (d dt : Z) : Z :=
  let t := LocalTime d in
  UTC (MakeDate (MakeDay (YearFromTime t) (MonthFromTime t) dt)
         (TimeWithinDay t)).
End LocalTime.

(** Decimal digits and zero-padded numbers, as [toISOString] prints them. *)
Definition digit (n : Z) : ascii :=
  match n with
  | 0 => "0" | 1 => "1" | 2 => "2" | 3 => "3" | 4 => "4"
  | 5 => "5" | 6 => "6" | 7 => "7" | 8 => "8" | _ => "9"
  end%char.

Definition pad2 (n : Z) : string :=
  String (digit (n / 10 mod 10)) (String (digit (n mod 10)) EmptyString).

Definition pad4 (n : Z) : string :=
  String (digit (n / 1000 mod 10)) (String (digit (n / 100 mod 10)) (pad2 n)).

Definition pad6 (n : Z) : string :=
  String (digit (n / 100000 mod 10)) (String (digit (n / 10000 mod 10)) (pad4 n)).

(** Years 0 to 9999 print with four digits, all others with a sign and
    six digits. *)
Definition yearString (y : Z) : string :=
  if (0 <=? y) && (y <=? 9999) then pad4 y
  else if y <? 0 then String "-"%char (pad6 (- y))
  else String "+"%char (pad6 y).

(** The part of [toISOString()] before its ["T"]: [YYYY-MM-DD], from the
    UTC fields. *)
Definition isoDatePart (d : Z) : string :=
  yearString (YearFromTime d) +:+ "-" +:+ pad2 (MonthFromTime d + 1)
    +:+ "-" +:+ pad2 (DateFromTime d).

(** *** Parsing a date-time string

    [Date.parse] on the forms of the ECMAScript date-time string format
    that have a time and no time-zone offset, which are read as local
    time: a date ([YYYY], [YYYY-MM] or [YYYY-MM-DD], the year with four
    digits or with a sign and six), a ["T"] and [HH:mm:ss]. [None] stands
    for every other string: one that gives Invalid Date, or one that is
    not of the format and whose reading the standard leaves to the
    engine, as a day beyond the length of its month, which some engines
    read as a day of the next month. *)

Definition digitValue (c : ascii) : option Z :=
  let n := Z.of_N (N_of_ascii c) in
  if (48 <=? n) && (n <=? 57) then Some (n - 48) else None.

Definition number2 (a b : ascii) : option Z :=
  x ← digitValue a; y ← digitValue b; Some (10 * x + y).

Definition number4 (a b c d : ascii) : option Z :=
  x ← number2 a b; y ← number2 c d; Some (100 * x + y).

Definition number6 (a b c d e f : ascii) : option Z :=
  x ← number4 a b c d; y ← number2 e f; Some (100 * x + y).

Definition DaysInMonth (year month : Z) : Z :=
  match month with
  | 1 => if DaysInYear year =? 366 then 29 else 28
  | 3 | 5 | 8 | 10 => 30
  | _ => 31
  end.

Definition MakeTime (hour min sec ms : Z) : Z :=
  hour * 3600000 + min * 60000 + sec * 1000 + ms.

(** The year of a date-time string and the rest of the string. *)
Definition parseYear (s : string) : option (Z * string) :=
  match s with
  | String "+"%char (String a (String b (String c (String d (String e (String f rest)))))) =>
      y ← number6 a b c d e f; Some (y, rest)
  | String "-"%char (String a (String b (String c (String d (String e (String f rest)))))) =>
      y ← number6 a b c d e f; if y =? 0 then None else Some (- y, rest)
  | String a (String b (String c (String d rest))) =>
      y ← number4 a b c d; Some (y, rest)
  | _ => None
  end.

(** Month (1 to 12) and day of the month, 1 where the string leaves them
    out, and the rest of the string. *)
Definition parseMonthDay (s : string) : option (Z * Z * string) :=
  match s with
  | String "-"%char (String m1 (String m2 (String "-"%char (String d1 (String d2 rest))))) =>
      m ← number2 m1 m2; d ← number2 d1 d2; Some (m, d, rest)
  | String "-"%char (String m1 (String m2 rest)) =>
      m ← number2 m1 m2; Some (m, 1, rest)
  | _ => Some (1, 1, s)
  end.

(** Hour, minute and second of ["THH:mm:ss"], which ends the string. *)
Definition parseTime (s : string) : option (Z * Z * Z) :=
  match s with
  | String "T"%char (String h1 (String h2 (String ":"%char (String m1 (String m2
      (String ":"%char (String s1 (String s2 EmptyString)))))))) =>
      h ← number2 h1 h2; m ← number2 m1 m2; sec ← number2 s1 s2; Some (h, m, sec)
  | _ => None
  end.

Definition validTime (h m sec : Z) : bool :=
  ((h <=? 23) && (m <=? 59) && (sec <=? 59))
  || ((h =? 24) && (m =? 0) && (sec =? 0)).

Section ParseLocal.
Context (tz : Z).

Definition Date_parse (s : string) : option Z :=
  '(y, s1) ← parseYear s;
  '(m, d, s2) ← parseMonthDay s1;
  '(h, mi, sec) ← parseTime s2;
  if (1 <=? m) && (m <=? 12) && (1 <=? d) && (d <=? DaysInMonth y (m - 1))
     && validTime h mi sec
  then Some (UTC tz (MakeDate (MakeDay y (m - 1) d) (MakeTime h mi sec 0)))
  else None.
End ParseLocal.

End JSDate.

(** ** [src/lib/date-utils.ts]

    The file that [compliance.ts] imports as ["./date-utils"]. *)

Module DateUtils.
Import JSDate.

(** [n || 7] on a number *)
Definition orSeven (n : Z) : Z := if n =? 0 then 7 else n.

(** [Math.ceil(a / b)] for an exact quotient of integers, [b > 0] *)
Definition ceilDiv (a b : Z) : Z := - ((- a) / b).

Record WeekBounds := { start : Z; end_ : Z }.

Record WeekQuarter := { wq_year : Z; wq_quarter : Z }.

(** [weeks.sort((a, b) => a - b)] *)
Definition sortNum (l : list Z) : list Z := merge_sort Z.le l.

Definition getWeekBounds (year weekNumber : Z) : WeekBounds :=
  let jan4 := Date_UTC year 0 4 in
  let jan4Day := orSeven (getUTCDay jan4) in
  let weekStart :=
    setUTCDate jan4 (getUTCDate jan4 - jan4Day + 1 + (weekNumber - 1) * 7) in
  let weekEnd := setUTCDate weekStart (getUTCDate weekStart + 6) in
  {| start := weekStart; end_ := weekEnd |}.

Definition toISODate (date : Z) : string := isoDatePart date.

Section WithTimeZone.
Context (tz : Z).

(** [((d - yearStart) / 86400000 + 1) / 7] is taken as the exact
    quotient [(d - yearStart + 86400000) / (7 * 86400000)]; both
    times are UTC midnights, so the inner division is exact. *)
Definition getWeekNumber (date : Z) : Z :=
  let d := Date_UTC (getFullYear tz date) (getMonth tz date) (getDate tz date) in
  let dayNum := orSeven (getUTCDay d) in
  let d := setUTCDate d (getUTCDate d + 4 - dayNum) in
  let yearStart := Date_UTC (getUTCFullYear d) 0 1 in
  ceilDiv (d - yearStart + msPerDay) (7 * msPerDay).

Definition getQuarter (date : Z) : Z :=
  let month := getMonth tz date in
  month / 3 + 1.

Definition getMondayOfWeek (year weekNumber : Z) : Z :=
  start (getWeekBounds year weekNumber).

Definition getQuarterForWeek (year weekNumber : Z) : WeekQuarter :=
  let b := getWeekBounds year weekNumber in
  let jan1 := Date_new tz year 0 1 in
  if (start b <=? jan1) && (jan1 <=? end_ b) then
    {| wq_year := year; wq_quarter := 1 |}
  else
    let monday := start b in
    let mondayYear := getFullYear tz monday in
    let mondayQuarter := getQuarter monday in
    {| wq_year := mondayYear; wq_quarter := mondayQuarter |}.

Definition getWeeksInQuarter (year quarter : Z) : list Z :=
  let weeks :=
    List.filter
      (fun weekNumber =>
         let weekQuarter := getQuarterForWeek year weekNumber in
         (wq_year weekQuarter =? year) && (wq_quarter weekQuarter =? quarter))
      (seqZ 1 53) in
  let weeks :=
    if quarter =? 1 then
      let prevYearWeek53 := getQuarterForWeek (year - 1) 53 in
      if (wq_year prevYearWeek53 =? year) && (wq_quarter prevYearWeek53 =? 1)
      then 53 :: weeks
      else weeks
    else weeks in
  sortNum weeks.

Definition isWeekday (date : Z) : bool :=
  let day := getDay tz date in
  (1 <=? day) && (day <=? 5).

(** The [while (current <= end)] loop of [getWeekdays]; [None] when
    the fuel runs out before the loop ends. *)
Fixpoint getWeekdays_loop (fuel : nat) (current end' : Z) (weekdays : list Z)
  : option (list Z) :=
  match fuel with
  | O => None
  | S fuel' =>
      if current <=? end' then
        let weekdays := if isWeekday current then weekdays ++ [current] else weekdays in
        getWeekdays_loop fuel' (setDate tz current (getDate tz current + 1)) end' weekdays
      else Some weekdays
  end.

(** The bounds of a week are six days apart: the loop body runs seven
    times and the eighth test fails. *)
Definition getWeekdays_fuel : nat := 8.

Definition getWeekdays (year weekNumber : Z) : option (list Z) :=
  let b := getWeekBounds year weekNumber in
  getWeekdays_loop getWeekdays_fuel (start b) (end_ b) [].

(** [new Date(dateString + "T00:00:00")]; [None] as for [Date_parse]. *)
Definition fromISODate (dateString : string) : option Z :=
  Date_parse tz (dateString +:+ "T00:00:00").

(** [new Date()] is the parameter [now] of the three functions on the
    current date. *)
Definition getCurrentYear (now : Z) : Z := getFullYear tz now.

Record CurrentWeek := { cw_year : Z; cw_weekNumber : Z }.

Definition getCurrentWeek (now : Z) : CurrentWeek :=
  {| cw_year := getFullYear tz now; cw_weekNumber := getWeekNumber now |}.

Definition getCurrentQuarter (now : Z) : WeekQuarter :=
  {| wq_year := getFullYear tz now; wq_quarter := getQuarter now |}.
End WithTimeZone.

End DateUtils.

(** ** [src/lib/types.ts] and [src/lib/compliance.ts]

    The fields [year] and [weekNumber] of a week summary and [year] and
    [quarter] of a quarter summary carry a prefix, as the two records
    share names. *)

Module Compliance.
Import JSDate DateUtils.

Inductive WorkLocation := office | home | vacation | sick.

Record DayEntry := {
  date : string;
  location : WorkLocation;
  notes : option string
}.

Record WeekSummary := {
  ws_weekNumber : Z;
  ws_year : Z;
  startDate : string;
  endDate : string;
  officeDays : Z;
  isCompliant : bool;
  days : list DayEntry
}.

Inductive ComplianceStatus := compliant | warning | danger.

Record QuarterSummary := {
  qs_quarter : Z;
  qs_year : Z;
  compliantWeeks : Z;
  totalWeeks : Z;
  status : ComplianceStatus;
  weeks : list WeekSummary
}.

Record ComplianceConfig := {
  requiredOfficeDaysPerWeek : Z;
  requiredCompliantWeeksPerQuarter : Z;
  warningThresholdWeeks : Z
}.

Definition isOffice (l : WorkLocation) : bool :=
  match l with office => true | _ => false end.

(** [new Map(loggedDays.map((d) => [d.date, d]))]: entries are set in
    list order, so a later entry with the same date replaces an earlier
    one. *)
Definition newMap (loggedDays : list DayEntry) : gmap string DayEntry :=
  foldl (fun m d => <[date d := d]> m) ∅ loggedDays.

Definition homeEntry (dateStr : string) : DayEntry :=
  {| date := dateStr; location := home; notes := None |}.

Section WithTimeZone.
Context (tz : Z).

Definition calculateWeekSummary (year weekNumber : Z)
    (config : ComplianceConfig) (allEntries : list DayEntry)
  : option WeekSummary :=
  let b := getWeekBounds year weekNumber in
  let startDate := toISODate (start b) in
  let endDate := toISODate (end_ b) in
  weekdays ← getWeekdays tz year weekNumber;
  let loggedDays :=
    List.filter
      (fun entry =>
         String.leb startDate (date entry) && String.leb (date entry) endDate)
      allEntries in
  let loggedMap := newMap loggedDays in
  let days :=
    List.map
      (fun d =>
         let dateStr := toISODate d in
         default (homeEntry dateStr) (loggedMap !! dateStr))
      weekdays in
  let officeDays :=
    Z.of_nat (length (List.filter (fun d => isOffice (location d)) days)) in
  let isCompliant := requiredOfficeDaysPerWeek config <=? officeDays in
  Some {| ws_weekNumber := weekNumber;
          ws_year := year;
          startDate := startDate;
          endDate := endDate;
          officeDays := officeDays;
          isCompliant := isCompliant;
          days := days |}.

Definition calculateQuarterSummary (year quarter : Z)
    (config : ComplianceConfig) (allEntries : list DayEntry)
  : option QuarterSummary :=
  let weekNumbers := getWeeksInQuarter tz year quarter in
  weeks ← mapM (fun weekNumber =>
                  calculateWeekSummary year weekNumber config allEntries)
               weekNumbers;
  let compliantWeeks := Z.of_nat (length (List.filter isCompliant weeks)) in
  let totalWeeks := Z.of_nat (length weeks) in
  let status :=
    if requiredCompliantWeeksPerQuarter config <=? compliantWeeks then compliant
    else if warningThresholdWeeks config <=? compliantWeeks then warning
    else danger in
  Some {| qs_quarter := quarter;
          qs_year := year;
          compliantWeeks := compliantWeeks;
          totalWeeks := totalWeeks;
          status := status;
          weeks := weeks |}.

Definition calculateYearSummary (year : Z) (config : ComplianceConfig)
    (allEntries : list DayEntry) : option (list QuarterSummary) :=
  mapM (fun q => calculateQuarterSummary year q config allEntries) [1; 2; 3; 4].
End WithTimeZone.

End Compliance.

(** ** [src/components/features/WeekCard.tsx]: the toggle of a day

    [handleToggle] of the component [WeekCard]. The state [localWeek] of
    the component is a parameter; the result is the entry that is passed
    to [setDay] of the storage layer and the summary that is passed to
    [setLocalWeek]. *)

Module WeekCard.
Import Compliance.

(** [a === b] on two locations *)
Definition sameLocation (a b : WorkLocation) : bool :=
  match a, b with
  | office, office | home, home | vacation, vacation | sick, sick => true
  | _, _ => false
  end.

Definition locationCycle : list WorkLocation := [home; office; vacation; sick].

(** [Array.prototype.indexOf]: the first index of the element, counted
    from [k], or -1 when the element is absent. *)
Fixpoint indexOf_from (l : list WorkLocation) (x : WorkLocation) (k : Z) : Z :=
  match l with
  | [] => -1
  | y :: l' => if sameLocation y x then k else indexOf_from l' x (k + 1)
  end.

Definition indexOf (l : list WorkLocation) (x : WorkLocation) : Z :=
  indexOf_from l x 0.

(** [{ ...d, location: newLocation }] *)
Definition withLocation (d : DayEntry) (newLocation : WorkLocation) : DayEntry :=
  {| date := date d; location := newLocation; notes := notes d |}.

(** An index outside the array reads [undefined]: [None]. The remainder
    [%] is the truncated one, [Z.rem]. *)
Definition handleToggle (localWeek : WeekSummary) (dateStr : string)
    (currentLocation : WorkLocation) : option (DayEntry * WeekSummary) :=
  let currentIndex := indexOf locationCycle currentLocation in
  newLocation ←
    locationCycle
      !! Z.to_nat (Z.rem (currentIndex + 1) (Z.of_nat (length locationCycle)));
  let entry := {| date := dateStr; location := newLocation; notes := None |} in
  let updatedDays :=
    List.map
      (fun d => if String.eqb (date d) dateStr then withLocation d newLocation else d)
      (days localWeek) in
  Some (entry,
        {| ws_weekNumber := ws_weekNumber localWeek;
           ws_year := ws_year localWeek;
           startDate := startDate localWeek;
           endDate := endDate localWeek;
           officeDays :=
             Z.of_nat (length (List.filter (fun d => isOffice (location d)) updatedDays));
           isCompliant := isCompliant localWeek;
           days := updatedDays |}).

End WeekCard.

(** ** [src/routes/__root.tsx]: the figures of the dashboard *)

Module Dashboard.
Import Compliance.

Section WithTimeZone.
Context (tz : Z).

(** [loadData]: [calculateYearSummary(year, config)]; the third parameter
    of [calculateYearSummary] is left to its default, the empty array. *)
Definition quarterSummaries (year : Z) (config : ComplianceConfig)
  : option (list QuarterSummary) :=
  calculateYearSummary tz year config [].
End WithTimeZone.

(** [quarters.reduce((sum, q) => sum + q.compliantWeeks, 0)] *)
Definition totalCompliantWeeks (quarters : list QuarterSummary) : Z :=
  foldl (fun sum q => sum + compliantWeeks q) 0 quarters.

(** [quarters.reduce((sum, q) => sum + q.totalWeeks, 0)] *)
Definition totalWeeks (quarters : list QuarterSummary) : Z :=
  foldl (fun sum q => sum + Compliance.totalWeeks q) 0 quarters.

End Dashboard.

(** ** Notions used to state the properties *)

Module Spec.
Import JSDate DateUtils Compliance.

(** Years whose weeks involve no two-digit year (which a [Date]
    constructor would read as 19xx, also for the previous year) and
    print with four digits (also for the first days of the next year). *)
Definition validYear (y : Z) : Prop := 101 <= y <= 9998.

(** The time values of a [Date] that is not Invalid Date: at most
    8.64e15 milliseconds from the epoch. *)
Definition validTimeValue (t : Z) : Prop :=
  - 8640000000000000 <= t <= 8640000000000000.

(** ISO years have 52 or 53 weeks. *)
Definition validWeek (w : Z) : Prop := 1 <= w <= 53.

(** A fixed offset at or east of UTC, less than a day. *)
Definition eastOfUTC (tz : Z) : Prop := 0 <= tz < msPerDay.

(** The offsets in use on Earth: UTC-12:00 to UTC+14:00. *)
Definition civilOffset (tz : Z) : Prop := -43200000 <= tz <= 50400000.

(** ISO 8601: a week belongs to the calendar year of its Thursday. *)
Definition isoYearOfMonday (monday : Z) : Z :=
  getUTCFullYear (monday + 3 * msPerDay).

(** Lexicographic comparison of a number followed by a rest. *)
Definition thenCompare (c : comparison) (rest : comparison) : comparison :=
  match c with Eq => rest | _ => c end.

(** [MonthFromTime] as a function of the day within the year and of the
    leap-year flag. *)
Definition monthOfDay (d l : Z) : Z :=
  if d <? 31 then 0
  else if d <? 59 + l then 1
  else if d <? 90 + l then 2
  else if d <? 120 + l then 3
  else if d <? 151 + l then 4
  else if d <? 181 + l then 5
  else if d <? 212 + l then 6
  else if d <? 243 + l then 7
  else if d <? 273 + l then 8
  else if d <? 304 + l then 9
  else if d <? 334 + l then 10
  else 11.

(** Comparison of two times by year, then month, then date. *)
Definition fieldsCompare (t1 t2 : Z) : comparison :=
  thenCompare (YearFromTime t1 ?= YearFromTime t2)
    (thenCompare (MonthFromTime t1 + 1 ?= MonthFromTime t2 + 1)
       (thenCompare (DateFromTime t1 ?= DateFromTime t2) Eq)).

(** The filter of [calculateWeekSummary]: the entry's date string lies
    between the two date strings. *)
Definition inRange (startDate endDate : string) (entry : DayEntry) : bool :=
  String.leb startDate (date entry) && String.leb (date entry) endDate.

(** The entry is dated [k]. *)
Definition hasDate (k : string) (entry : DayEntry) : bool :=
  String.eqb (date entry) k.

(** The day record of [calculateWeekSummary] for one weekday. *)
Definition dayFor (loggedMap : gmap string DayEntry) (d : Z) : DayEntry :=
  default (homeEntry (toISODate d)) (loggedMap !! toISODate d).

Definition countOffice (days : list DayEntry) : Z :=
  Z.of_nat (length (List.filter (fun d => isOffice (location d)) days)).

(** The record that [calculateWeekSummary] builds once the weekdays are
    known. *)
Definition summaryOf (year weekNumber : Z) (config : ComplianceConfig)
    (allEntries : list DayEntry) (weekdays : list Z) : WeekSummary :=
  let b := getWeekBounds year weekNumber in
  let loggedMap :=
    newMap (List.filter (inRange (toISODate (start b)) (toISODate (end_ b)))
              allEntries) in
  let days := List.map (dayFor loggedMap) weekdays in
  {| ws_weekNumber := weekNumber;
     ws_year := year;
     startDate := toISODate (start b);
     endDate := toISODate (end_ b);
     officeDays := countOffice days;
     isCompliant := requiredOfficeDaysPerWeek config <=? countOffice days;
     days := days |}.

(** The record for date string [k]: the last entry of the list with that
    date, or the default. *)
Definition lookupDay (allEntries : list DayEntry) (k : string) : DayEntry :=
  default (homeEntry k) (last (List.filter (hasDate k) allEntries)).

(** The date strings of the Monday to the Friday of a week. *)
Definition weekdayStrings (year weekNumber : Z) : list string :=
  List.map (fun i => toISODate (start (getWeekBounds year weekNumber) + i * msPerDay))
    [0; 1; 2; 3; 4].

Definition officeEntry (dateStr : string) : DayEntry :=
  {| date := dateStr; location := office; notes := None |}.

(** Entries with two office days, the Monday and the Tuesday, in each of
    the [n] weeks of 2025 from week [w] on. *)
Definition officeWeeks2025 (w n : Z) : list DayEntry :=
  flat_map
    (fun wk =>
       let s := start (getWeekBounds 2025 wk) in
       [officeEntry (toISODate s); officeEntry (toISODate (s + msPerDay))])
    (seqZ w n).

(** Number of weeks, number of compliant weeks and status of a result. *)
Definition quarterView (q : option QuarterSummary)
  : option (Z * Z * ComplianceStatus) :=
  (fun qs => (totalWeeks qs, compliantWeeks qs, status qs)) <$> q.

(** The Monday to the Friday of a week, as UTC midnights. *)
Definition mondayToFriday (year weekNumber : Z) : list Z :=
  List.map (fun i => start (getWeekBounds year weekNumber) + i * msPerDay)
    [0; 1; 2; 3; 4].

(** The default policy, [DEFAULT_CONFIG] of the storage layer. *)
Definition defaultConfig : ComplianceConfig :=
  {| requiredOfficeDaysPerWeek := 2;
     requiredCompliantWeeksPerQuarter := 8;
     warningThresholdWeeks := 7 |}.

(** The UTC midnight of the local calendar day of a time, the date that
    [getWeekNumber] starts from. *)
Definition localDay (tz date : Z) : Z :=
  Date_UTC (getFullYear tz date) (getMonth tz date) (getDate tz date).

(** The year that [getWeekNumber] counts the weeks of: the year of the
    Thursday of the week of the local calendar day. *)
Definition isoWeekYear (tz date : Z) : Z :=
  let d := localDay tz date in
  let dayNum := orSeven (getUTCDay d) in
  getUTCFullYear (setUTCDate d (getUTCDate d + 4 - dayNum)).

(** Days from January 1st of [year] to the Monday of its week 1, the
    Monday on or before January 4th: -3 to 3. *)
Definition week1Offset (year : Z) : Z :=
  4 - orSeven (getUTCDay (Date_UTC year 0 4)).

(** 1 for a leap year, 0 otherwise. *)
Definition leapFlag (year : Z) : Z :=
  if DaysInYear year =? 366 then 1 else 0.

(** The year and quarter of a week of [year] whose Monday is day [o] of
    the year (January 1st is day 0, a negative [o] is a day of the year
    before), in a year of [365 + l] days: the first quarter when the week
    holds January 1st, else the quarter of the month of the Monday, which
    is a day of [year] or one of the first days of the next year. *)
Definition quarterOfOffset (year o l : Z) : WeekQuarter :=
  if (o <=? 0) && (0 <=? o + 6) then {| wq_year := year; wq_quarter := 1 |}
  else if o <? 365 + l then
    {| wq_year := year; wq_quarter := monthOfDay o l / 3 + 1 |}
  else {| wq_year := year + 1; wq_quarter := 1 |}.

(** Whether [quarterOfOffset] is [quarter] of the year itself. *)
Definition inQuarter (o l quarter : Z) : bool :=
  if (o <=? 0) && (0 <=? o + 6) then quarter =? 1
  else if o <? 365 + l then monthOfDay o l / 3 + 1 =? quarter
  else false.

(** The weeks 1 to 53 of a year that are in [quarter] of the year itself,
    for a week 1 that starts on day [a] of a year of [365 + l] days. *)
Definition ownWeeks (a l quarter : Z) : list Z :=
  List.filter (fun w => inQuarter (a + 7 * (w - 1)) l quarter) (seqZ 1 53).

(** Whether week 53 of the year before [year] starts in [year]. *)
Definition spills (year : Z) : bool :=
  1 + leapFlag (year - 1) <=? week1Offset (year - 1).

(** The three statuses from worst to best. *)
Definition statusRank (s : ComplianceStatus) : Z :=
  match s with danger => 0 | warning => 1 | compliant => 2 end.

(** The cycle of the toggle, as its comment gives it: home, office,
    vacation, sick, and home again. *)
Definition nextLocation (l : WorkLocation) : WorkLocation :=
  match l with
  | home => office
  | office => vacation
  | vacation => sick
  | sick => home
  end.

(** What a day record shows: its date and its location. *)
Definition dayView (d : DayEntry) : string * WorkLocation :=
  (date d, location d).

End Spec.

(** ** Facts about the date algorithms *)

Module JSDateFacts.
Import JSDate.

Ltac zdiv := Z.div_mod_to_equations; lia.

(** Case analysis on every integer comparison of the goal. *)
Ltac zcases :=
  repeat match goal with
    | |- context [?a <? ?b] => destruct (Z.ltb_spec a b)
    | |- context [?a <=? ?b] => destruct (Z.leb_spec a b)
    | |- context [?a =? ?b] => destruct (Z.eqb_spec a b)
    end.

Lemma DaysInYear_cases y : DaysInYear y = 365 \/ DaysInYear y = 366.
Proof. unfold DaysInYear. repeat case_match; auto. Qed.

Lemma leap_step_4 y :
  (y - 1968) / 4 = (y - 1969) / 4 + (if y mod 4 =? 0 then 1 else 0).
Proof. destruct (Z.eqb_spec (y mod 4) 0); zdiv. Qed.

Lemma leap_step_100 y :
  (y - 1900) / 100 = (y - 1901) / 100 + (if y mod 100 =? 0 then 1 else 0).
Proof. destruct (Z.eqb_spec (y mod 100) 0); zdiv. Qed.

Lemma leap_step_400 y :
  (y - 1600) / 400 = (y - 1601) / 400 + (if y mod 400 =? 0 then 1 else 0).
Proof. destruct (Z.eqb_spec (y mod 400) 0); zdiv. Qed.

Lemma DayFromYear_succ y : DayFromYear (y + 1) = DayFromYear y + DaysInYear y.
Proof.
  unfold DayFromYear, DaysInYear.
  replace (y + 1 - 1969) with (y - 1968) by lia.
  replace (y + 1 - 1901) with (y - 1900) by lia.
  replace (y + 1 - 1601) with (y - 1600) by lia.
  rewrite leap_step_4, leap_step_100, leap_step_400.
  assert (H100 : y mod 100 = 0 -> y mod 4 = 0) by zdiv.
  assert (H400 : y mod 400 = 0 -> y mod 100 = 0) by zdiv.
  destruct (Z.eqb_spec (y mod 4) 0), (Z.eqb_spec (y mod 100) 0),
    (Z.eqb_spec (y mod 400) 0); simpl; lia.
Qed.

Lemma DayFromYear_mono y1 y2 : y1 <= y2 -> DayFromYear y1 <= DayFromYear y2.
Proof. unfold DayFromYear. intros. zdiv. Qed.

Lemma DayFromYear_lt y1 y2 : y1 < y2 -> DayFromYear y1 < DayFromYear y2.
Proof.
  intros H. pose proof (DayFromYear_mono (y1 + 1) y2 ltac:(lia)) as Hm.
  rewrite DayFromYear_succ in Hm. destruct (DaysInYear_cases y1); lia.
Qed.

Lemma YearFromDay_spec d :
  DayFromYear (YearFromDay d) <= d < DayFromYear (YearFromDay d + 1).
Proof.
  unfold YearFromDay.
  set (y := 1970 + 400 * d / 146097).
  assert (Hy : 146097 * (y - 1970) <= 400 * d < 146097 * (y - 1970) + 146097)
    by (unfold y; zdiv).
  clearbody y.
  destruct (Z.ltb_spec d (DayFromYear y)) as [H1|H1].
  - replace (y - 1 + 1) with y by lia. split; [|lia].
    unfold DayFromYear in *. zdiv.
  - destruct (Z.leb_spec (DayFromYear (y + 1)) d) as [H2|H2]; [|lia].
    split; [lia|]. unfold DayFromYear in *. zdiv.
Qed.

Lemma YearFromDay_unique d y :
  DayFromYear y <= d < DayFromYear (y + 1) -> YearFromDay d = y.
Proof.
  intros Hy. pose proof (YearFromDay_spec d) as Hs.
  destruct (Z.lt_trichotomy (YearFromDay d) y) as [Hlt|[Heq|Hgt]]; [|done|].
  - pose proof (DayFromYear_mono (YearFromDay d + 1) y ltac:(lia)). lia.
  - pose proof (DayFromYear_mono (y + 1) (YearFromDay d) ltac:(lia)). lia.
Qed.

Lemma YearFromTime_eq t : YearFromTime t = YearFromDay (Day t).
Proof. reflexivity. Qed.

Lemma YearFromDay_mono d1 d2 : d1 <= d2 -> YearFromDay d1 <= YearFromDay d2.
Proof.
  intros Hd. pose proof (YearFromDay_spec d1). pose proof (YearFromDay_spec d2).
  destruct (Z.le_gt_cases (YearFromDay d1) (YearFromDay d2)) as [|Hgt]; [done|].
  pose proof (DayFromYear_mono (YearFromDay d2 + 1) (YearFromDay d1) ltac:(lia)). lia.
Qed.

Lemma DayWithinYear_range t :
  0 <= DayWithinYear t < DaysInYear (YearFromTime t).
Proof.
  unfold DayWithinYear, YearFromTime.
  pose proof (YearFromDay_spec (Day t)) as Hs.
  rewrite DayFromYear_succ in Hs. lia.
Qed.

Lemma InLeapYear_DaysInYear t : DaysInYear (YearFromTime t) = 365 + InLeapYear t.
Proof.
  unfold InLeapYear. destruct (DaysInYear_cases (YearFromTime t)) as [->| ->]; done.
Qed.

Lemma InLeapYear_cases t : InLeapYear t = 0 \/ InLeapYear t = 1.
Proof. unfold InLeapYear. case_match; auto. Qed.

Lemma MonthFromTime_range t : 0 <= MonthFromTime t <= 11.
Proof. unfold MonthFromTime. repeat case_match; lia. Qed.

Lemma DateFromTime_range t : 1 <= DateFromTime t <= 31.
Proof.
  pose proof (DayWithinYear_range t) as Hr.
  rewrite InLeapYear_DaysInYear in Hr.
  unfold DateFromTime, MonthFromTime. cbv zeta.
  destruct (InLeapYear_cases t) as [E|E]; rewrite E in *; zcases; simpl; lia.
Qed.

(** The day number of a time is rebuilt from its year, month and date;
    a date outside the month moves the day by as much. *)
Lemma MakeDay_fields t dt :
  MakeDay (YearFromTime t) (MonthFromTime t) dt = Day t + (dt - DateFromTime t).
Proof.
  pose proof (MonthFromTime_range t) as Hm.
  unfold MakeDay.
  rewrite Z.div_small, Z.mod_small, Z.add_0_r by lia.
  unfold DateFromTime, DayWithinYear.
  fold (InLeapYear t). lia.
Qed.

Lemma MakeDate_Day_TimeWithinDay t k :
  MakeDate (Day t + k) (TimeWithinDay t) = t + k * msPerDay.
Proof. unfold MakeDate, Day, TimeWithinDay, msPerDay. zdiv. Qed.

Lemma setUTCDate_shift t k : setUTCDate t (getUTCDate t + k) = t + k * msPerDay.
Proof.
  unfold setUTCDate, getUTCDate. rewrite MakeDay_fields.
  replace (DateFromTime t + k - DateFromTime t) with k by lia.
  apply MakeDate_Day_TimeWithinDay.
Qed.

Lemma setDate_shift tz t k : setDate tz t (getDate tz t + k) = t + k * msPerDay.
Proof.
  unfold setDate, getDate, UTC. rewrite MakeDay_fields.
  replace (DateFromTime (LocalTime tz t) + k - DateFromTime (LocalTime tz t))
    with k by lia.
  rewrite MakeDate_Day_TimeWithinDay. unfold LocalTime. lia.
Qed.

Lemma Day_shift t k : Day (t + k * msPerDay) = Day t + k.
Proof. unfold Day, msPerDay. zdiv. Qed.

Lemma Day_midnight n : Day (n * msPerDay) = n.
Proof. unfold Day, msPerDay. zdiv. Qed.

Lemma WeekDay_shift t k : WeekDay (t + k * msPerDay) = (WeekDay t + k) mod 7.
Proof. unfold WeekDay. rewrite Day_shift. zdiv. Qed.

Lemma WeekDay_range t : 0 <= WeekDay t <= 6.
Proof. unfold WeekDay. zdiv. Qed.

(** Local and UTC days agree at a UTC midnight, east of Greenwich. *)
Lemma Day_LocalTime_east tz t :
  0 <= tz < msPerDay -> TimeWithinDay t = 0 -> Day (LocalTime tz t) = Day t.
Proof. unfold Day, LocalTime, TimeWithinDay, msPerDay. intros. zdiv. Qed.

(** West of Greenwich the local day of a UTC midnight is the day before. *)
Lemma Day_LocalTime_west tz t :
  - msPerDay <= tz < 0 -> TimeWithinDay t = 0 -> Day (LocalTime tz t) = Day t - 1.
Proof. unfold Day, LocalTime, TimeWithinDay, msPerDay. intros. zdiv. Qed.

Lemma Date_UTC_Day year month date :
  Day (Date_UTC year month date) = MakeDay (MakeFullYear year) month date.
Proof. unfold Date_UTC, MakeDate. rewrite Z.add_0_r. apply Day_midnight. Qed.

Lemma Date_UTC_midnight year month date :
  TimeWithinDay (Date_UTC year month date) = 0.
Proof. unfold Date_UTC, MakeDate, TimeWithinDay, msPerDay. zdiv. Qed.

Lemma MakeDay_january year date :
  MakeDay year 0 date = DayFromYear year + date - 1.
Proof.
  unfold MakeDay. change (0 / 12) with 0. change (0 mod 12) with 0.
  unfold daysBeforeMonth. cbv beta iota zeta. rewrite !Z.add_0_r. lia.
Qed.

End JSDateFacts.

(** ** Facts about the calendar arithmetic of [date-utils.ts] *)

Module DateUtilsFacts.
Import JSDate JSDateFacts DateUtils Spec.

Lemma isoYearOfMonday_eq m :
  isoYearOfMonday m = getUTCFullYear (m + 3 * msPerDay).
Proof. reflexivity. Qed.

Lemma MakeFullYear_valid y : ~ (0 <= y <= 99) -> MakeFullYear y = y.
Proof. unfold MakeFullYear. intros. zcases; simpl; lia. Qed.

Lemma orSeven_WeekDay t :
  1 <= orSeven (WeekDay t) <= 7 /\ (Day t + 4 - orSeven (WeekDay t)) mod 7 = 0.
Proof. unfold orSeven, WeekDay. zcases; zdiv. Qed.

(** Year, month and date of a day of January. *)
Lemma january_fields y d t :
  Day t = DayFromYear y + d - 1 -> 1 <= d <= 31 ->
  YearFromTime t = y /\ MonthFromTime t = 0 /\ DateFromTime t = d.
Proof.
  intros Ht Hd.
  assert (Hy : YearFromTime t = y).
  { unfold YearFromTime. apply YearFromDay_unique.
    rewrite DayFromYear_succ. destruct (DaysInYear_cases y); lia. }
  assert (Hm : MonthFromTime t = 0).
  { unfold MonthFromTime, DayWithinYear. rewrite Hy, Ht. cbv zeta. zcases; lia. }
  repeat split; try done.
  unfold DateFromTime. rewrite Hm. unfold DayWithinYear. rewrite Hy, Ht.
  simpl. lia.
Qed.

Lemma Date_UTC_january_Day y d :
  Day (Date_UTC y 0 d) = DayFromYear (MakeFullYear y) + d - 1.
Proof. rewrite Date_UTC_Day. apply MakeDay_january. Qed.

Lemma getWeekBounds_start year weekNumber :
  start (getWeekBounds year weekNumber)
  = Date_UTC year 0 4
    + (1 - orSeven (getUTCDay (Date_UTC year 0 4)) + (weekNumber - 1) * 7) * msPerDay.
Proof.
  unfold getWeekBounds. cbv zeta. simpl.
  rewrite <- setUTCDate_shift. f_equal. lia.
Qed.

Lemma getWeekBounds_end year weekNumber :
  end_ (getWeekBounds year weekNumber)
  = start (getWeekBounds year weekNumber) + 6 * msPerDay.
Proof. unfold getWeekBounds. cbv zeta. simpl. apply setUTCDate_shift. Qed.

Lemma getWeekBounds_start_midnight year weekNumber :
  TimeWithinDay (start (getWeekBounds year weekNumber)) = 0.
Proof.
  rewrite getWeekBounds_start.
  pose proof (Date_UTC_midnight year 0 4) as H.
  unfold TimeWithinDay, msPerDay in *. zdiv.
Qed.

(** The Monday of week [w] lies [7 * (w - 1)] days after the Monday on or
    before January 4th. *)
Lemma getWeekBounds_start_Day year weekNumber :
  exists wd, 1 <= wd <= 7
    /\ (DayFromYear (MakeFullYear year) - wd) mod 7 = 0
    /\ wd = orSeven (getUTCDay (Date_UTC year 0 4))
    /\ Day (start (getWeekBounds year weekNumber))
       = DayFromYear (MakeFullYear year) + 4 - wd + 7 * (weekNumber - 1).
Proof.
  exists (orSeven (getUTCDay (Date_UTC year 0 4))).
  destruct (orSeven_WeekDay (Date_UTC year 0 4)) as [Hr Hm].
  rewrite Date_UTC_january_Day in Hm.
  repeat split; try apply Hr.
  - unfold getUTCDay. zdiv.
  - rewrite getWeekBounds_start, Day_shift, Date_UTC_january_Day. lia.
Qed.

Lemma getWeekBounds_start_Monday year weekNumber :
  WeekDay (start (getWeekBounds year weekNumber)) = 1.
Proof.
  destruct (getWeekBounds_start_Day year weekNumber) as (wd & Hr & Hm & _ & Hd).
  unfold WeekDay. rewrite Hd. zdiv.
Qed.

(** *** The loop of [getWeekdays] *)

Lemma getWeekdays_loop_run tz s (n : nat) : forall (fuel : nat) k acc,
  k + Z.of_nat n = 7 -> (n < fuel)%nat ->
  getWeekdays_loop tz fuel (s + k * msPerDay) (s + 6 * msPerDay) acc
  = Some (acc ++ List.filter (isWeekday tz)
                   (List.map (fun i => s + i * msPerDay) (seqZ k (Z.of_nat n)))).
Proof.
  induction n as [|n IH]; intros fuel k acc Hk Hfuel;
    (destruct fuel as [|fuel]; [lia|]); simpl getWeekdays_loop.
  - destruct (Z.leb_spec (s + k * msPerDay) (s + 6 * msPerDay)) as [H|H].
    + unfold msPerDay in H. lia.
    + simpl. by rewrite app_nil_r.
  - destruct (Z.leb_spec (s + k * msPerDay) (s + 6 * msPerDay)) as [H|H];
      [|unfold msPerDay in H; lia].
    rewrite setDate_shift.
    replace (s + k * msPerDay + 1 * msPerDay) with (s + (k + 1) * msPerDay) by lia.
    rewrite IH by lia.
    replace (Z.of_nat (S n)) with (Z.succ (Z.of_nat n)) by lia.
    rewrite (seqZ_cons k) by lia.
    replace (Z.succ k) with (k + 1) by lia.
    replace (Z.pred (Z.succ (Z.of_nat n))) with (Z.of_nat n) by lia.
    simpl. destruct (isWeekday tz (s + k * msPerDay)); [|done].
    by rewrite <- app_assoc.
Qed.

Lemma getWeekdays_filter tz year weekNumber (fuel : nat) :
  (7 < fuel)%nat ->
  let b := getWeekBounds year weekNumber in
  getWeekdays_loop tz fuel (start b) (end_ b) []
  = Some (List.filter (isWeekday tz)
            (List.map (fun i => start b + i * msPerDay) [0; 1; 2; 3; 4; 5; 6])).
Proof.
  intros Hfuel b. subst b. rewrite getWeekBounds_end.
  set (s := start (getWeekBounds year weekNumber)).
  replace s with (s + 0 * msPerDay) at 1 by lia.
  by rewrite (getWeekdays_loop_run tz s 7 fuel 0 []) by lia.
Qed.

Lemma isWeekday_east tz s k :
  eastOfUTC tz -> TimeWithinDay s = 0 -> WeekDay s = 1 -> 0 <= k <= 6 ->
  isWeekday tz (s + k * msPerDay) = (k <=? 4).
Proof.
  intros Htz Hs Hw Hk. unfold isWeekday, getDay, WeekDay in *.
  rewrite Day_LocalTime_east; [|done|].
  - rewrite Day_shift. zcases; zdiv.
  - unfold TimeWithinDay, msPerDay in *. zdiv.
Qed.

Lemma isWeekday_west tz s k :
  - msPerDay <= tz < 0 -> TimeWithinDay s = 0 -> WeekDay s = 1 -> 0 <= k <= 6 ->
  isWeekday tz (s + k * msPerDay) = (1 <=? k) && (k <=? 5).
Proof.
  intros Htz Hs Hw Hk. unfold isWeekday, getDay, WeekDay in *.
  rewrite Day_LocalTime_west; [|done|].
  - rewrite Day_shift. zcases; zdiv.
  - unfold TimeWithinDay, msPerDay in *. zdiv.
Qed.

(** East of Greenwich the weekdays are the Monday to the Friday of the
    week. *)
Lemma getWeekdays_east tz year weekNumber :
  eastOfUTC tz ->
  getWeekdays tz year weekNumber
  = Some (List.map (fun i => start (getWeekBounds year weekNumber) + i * msPerDay)
            [0; 1; 2; 3; 4]).
Proof.
  intros Htz. unfold getWeekdays.
  rewrite getWeekdays_filter by (unfold getWeekdays_fuel; lia).
  pose proof (getWeekBounds_start_midnight year weekNumber) as Hm.
  pose proof (getWeekBounds_start_Monday year weekNumber) as Hw.
  cbn [List.map List.filter].
  rewrite !(isWeekday_east tz) by (done || lia). done.
Qed.

(** West of Greenwich a UTC midnight is the evening before in local time:
    the five dates kept are the Tuesday to the Saturday. *)
Lemma getWeekdays_west tz year weekNumber :
  - msPerDay <= tz < 0 ->
  getWeekdays tz year weekNumber
  = Some (List.map (fun i => start (getWeekBounds year weekNumber) + i * msPerDay)
            [1; 2; 3; 4; 5]).
Proof.
  intros Htz. unfold getWeekdays.
  rewrite getWeekdays_filter by (unfold getWeekdays_fuel; lia).
  pose proof (getWeekBounds_start_midnight year weekNumber) as Hm.
  pose proof (getWeekBounds_start_Monday year weekNumber) as Hw.
  cbn [List.map List.filter].
  rewrite !(isWeekday_west tz) by (done || lia). done.
Qed.

(** More fuel does not change the result. *)
Lemma getWeekdays_fuel_enough tz year weekNumber (fuel : nat) :
  (getWeekdays_fuel <= fuel)%nat ->
  let b := getWeekBounds year weekNumber in
  getWeekdays_loop tz fuel (start b) (end_ b) [] = getWeekdays tz year weekNumber.
Proof.
  intros Hfuel b. unfold getWeekdays. unfold getWeekdays_fuel in *.
  subst b. rewrite (getWeekdays_filter tz year weekNumber fuel) by lia.
  by rewrite (getWeekdays_filter tz year weekNumber 8) by lia.
Qed.

(** *** [getWeekNumber] on the Monday of a week *)

Lemma start_Day_bounds year weekNumber :
  validWeek weekNumber ->
  let s := start (getWeekBounds year weekNumber) in
  DayFromYear (MakeFullYear year) - 3 <= Day s
  /\ Day s + 6 <= DayFromYear (MakeFullYear year) + 373.
Proof.
  intros Hw s. subst s.
  destruct (getWeekBounds_start_Day year weekNumber) as (wd & Hr & _ & _ & ->).
  unfold validWeek in Hw. lia.
Qed.

Lemma DayFromYear_pred_le y : DayFromYear (y - 1) <= DayFromYear y - 365.
Proof.
  pose proof (DayFromYear_succ (y - 1)) as H.
  replace (y - 1 + 1) with y in H by lia.
  destruct (DaysInYear_cases (y - 1)); lia.
Qed.

(** Every day of a week of [year] falls in [year - 1], [year] or
    [year + 1]. *)
Lemma week_year_range year weekNumber t :
  validWeek weekNumber ->
  let s := start (getWeekBounds year weekNumber) in
  Day s <= Day t <= Day s + 6 ->
  MakeFullYear year - 1 <= YearFromTime t <= MakeFullYear year + 1.
Proof.
  intros Hw s Ht.
  destruct (start_Day_bounds year weekNumber Hw) as [H1 H2]. fold s in H1, H2.
  set (y := MakeFullYear year) in *.
  pose proof (DayFromYear_pred_le y).
  pose proof (DayFromYear_succ y). pose proof (DayFromYear_succ (y + 1)).
  replace (y + 1 + 1) with (y + 2) in * by lia.
  destruct (DaysInYear_cases y), (DaysInYear_cases (y + 1)).
  all: unfold YearFromTime; split.
  all: try (replace (y - 1) with (YearFromDay (DayFromYear (y - 1)))
              by (apply YearFromDay_unique; split;
                  [lia | apply DayFromYear_lt; lia]);
            apply YearFromDay_mono; lia).
  all: destruct (Z.le_gt_cases (YearFromDay (Day t)) (y + 1)) as [|Hgt]; [done|];
    pose proof (YearFromDay_spec (Day t));
    pose proof (DayFromYear_mono (y + 2) (YearFromDay (Day t)) ltac:(lia)); lia.
Qed.

Lemma Date_UTC_of_fields t :
  ~ (0 <= YearFromTime t <= 99) ->
  Date_UTC (YearFromTime t) (MonthFromTime t) (DateFromTime t) = Day t * msPerDay.
Proof.
  intros Hy. unfold Date_UTC, MakeDate.
  rewrite MakeFullYear_valid, MakeDay_fields by done. lia.
Qed.

Lemma midnight_eq t : TimeWithinDay t = 0 -> Day t * msPerDay = t.
Proof. unfold TimeWithinDay, Day, msPerDay. zdiv. Qed.

(** The week number of a Monday [s] that lies [7 * (w - 1)] days after
    the Monday on or before January 4th of the year of its Thursday. *)
Lemma getWeekNumber_monday tz year s wd w :
  eastOfUTC tz -> ~ (0 <= year <= 99) ->
  TimeWithinDay s = 0 -> WeekDay s = 1 -> 1 <= wd <= 7 ->
  Day s = DayFromYear year + 4 - wd + 7 * (w - 1) ->
  ~ (0 <= YearFromTime (LocalTime tz s) <= 99) ->
  getUTCFullYear (s + 3 * msPerDay) = year ->
  getWeekNumber tz s = w.
Proof.
  intros Htz Hy Hm Hmon Hwd Hday Hloc Hiso.
  assert (Hd0 : Date_UTC (getFullYear tz s) (getMonth tz s) (getDate tz s) = s).
  { unfold getFullYear, getMonth, getDate.
    rewrite Date_UTC_of_fields, Day_LocalTime_east by done.
    by apply midnight_eq. }
  unfold getWeekNumber. cbv zeta. rewrite Hd0.
  unfold getUTCDay. rewrite Hmon. change (orSeven 1) with 1.
  replace (getUTCDate s + 4 - 1) with (getUTCDate s + 3) by lia.
  rewrite setUTCDate_shift, Hiso.
  rewrite <- (midnight_eq s Hm), Hday.
  unfold Date_UTC, MakeDate. rewrite MakeFullYear_valid, MakeDay_january by done.
  generalize (DayFromYear year). intros D.
  unfold ceilDiv, msPerDay. zdiv.
Qed.

Lemma getWeekNumber_start tz year weekNumber :
  eastOfUTC tz -> validYear year -> validWeek weekNumber ->
  isoYearOfMonday (start (getWeekBounds year weekNumber)) = year ->
  getWeekNumber tz (start (getWeekBounds year weekNumber)) = weekNumber.
Proof.
  intros Htz Hy Hw Hiso.
  assert (Hfy : MakeFullYear year = year)
    by (apply MakeFullYear_valid; unfold validYear in Hy; lia).
  destruct (getWeekBounds_start_Day year weekNumber) as (wd & Hwd & _ & _ & Hday).
  rewrite Hfy in Hday.
  rewrite isoYearOfMonday_eq in Hiso.
  apply (getWeekNumber_monday tz year (start (getWeekBounds year weekNumber))
           wd weekNumber);
    [exact Htz | | | | exact Hwd | exact Hday | | exact Hiso].
  - unfold validYear in Hy. lia.
  - apply getWeekBounds_start_midnight.
  - apply getWeekBounds_start_Monday.
  - pose proof (week_year_range year weekNumber
                  (LocalTime tz (start (getWeekBounds year weekNumber))) Hw) as Hr.
    cbv zeta in Hr. rewrite Hfy in Hr.
    rewrite Day_LocalTime_east in Hr
      by (exact Htz || apply getWeekBounds_start_midnight).
    unfold validYear in Hy. lia.
Qed.

End DateUtilsFacts.

(** ** Date strings: [YYYY-MM-DD] sorts and compares like the calendar *)

Module ISOStringFacts.
Import JSDate JSDateFacts Spec.

Lemma digit_cases a : 0 <= a <= 9 ->
  a = 0 \/ a = 1 \/ a = 2 \/ a = 3 \/ a = 4 \/ a = 5 \/ a = 6 \/ a = 7 \/ a = 8 \/ a = 9.
Proof. lia. Qed.

Lemma digit_compare a b :
  0 <= a <= 9 -> 0 <= b <= 9 -> Ascii.compare (digit a) (digit b) = (a ?= b).
Proof.
  intros Ha Hb.
  destruct (digit_cases a Ha) as [->|[->|[->|[->|[->|[->|[->|[->|[->| ->]]]]]]]]];
  destruct (digit_cases b Hb) as [->|[->|[->|[->|[->|[->|[->|[->|[->| ->]]]]]]]]];
  reflexivity.
Qed.

Lemma String_compare_cons c1 s1 c2 s2 :
  String.compare (String c1 s1) (String c2 s2)
  = match Ascii.compare c1 c2 with
    | Eq => String.compare s1 s2
    | c => c
    end.
Proof. reflexivity. Qed.

Lemma String_compare_refl s : String.compare s s = Eq.
Proof.
  induction s as [|c s IH]; [done|].
  rewrite String_compare_cons, IH.
  unfold Ascii.compare. by rewrite N.compare_refl.
Qed.

Lemma pad2_app n r :
  pad2 n +:+ r = String (digit (n / 10 mod 10)) (String (digit (n mod 10)) r).
Proof. reflexivity. Qed.

Lemma pad4_app n r :
  pad4 n +:+ r
  = String (digit (n / 1000 mod 10)) (String (digit (n / 100 mod 10)) (pad2 n +:+ r)).
Proof. reflexivity. Qed.

(** Two digits compare like the numbers they print, modulo 100. *)
Lemma pad2_compare_mod n1 n2 r1 r2 :
  0 <= n1 -> 0 <= n2 ->
  String.compare (pad2 n1 +:+ r1) (pad2 n2 +:+ r2)
  = thenCompare (n1 mod 100 ?= n2 mod 100) (String.compare r1 r2).
Proof.
  intros H1 H2. rewrite !pad2_app, !String_compare_cons.
  rewrite !digit_compare by zdiv.
  unfold thenCompare.
  destruct (Z.compare_spec (n1 / 10 mod 10) (n2 / 10 mod 10)),
    (Z.compare_spec (n1 mod 10) (n2 mod 10)),
    (Z.compare_spec (n1 mod 100) (n2 mod 100)); try reflexivity; exfalso; zdiv.
Qed.

Lemma pad2_compare n1 n2 r1 r2 :
  0 <= n1 <= 99 -> 0 <= n2 <= 99 ->
  String.compare (pad2 n1 +:+ r1) (pad2 n2 +:+ r2)
  = thenCompare (n1 ?= n2) (String.compare r1 r2).
Proof.
  intros H1 H2. rewrite pad2_compare_mod by lia.
  by rewrite !Z.mod_small by lia.
Qed.

Lemma pad4_pad2 n r : pad4 n +:+ r = pad2 (n / 100) +:+ (pad2 n +:+ r).
Proof.
  rewrite pad4_app, (pad2_app (n / 100)).
  replace (n / 100 / 10) with (n / 1000) by zdiv. reflexivity.
Qed.

Lemma pad4_compare n1 n2 r1 r2 :
  0 <= n1 <= 9999 -> 0 <= n2 <= 9999 ->
  String.compare (pad4 n1 +:+ r1) (pad4 n2 +:+ r2)
  = thenCompare (n1 ?= n2) (String.compare r1 r2).
Proof.
  intros H1 H2. rewrite !pad4_pad2.
  rewrite pad2_compare by zdiv. rewrite pad2_compare_mod by lia.
  unfold thenCompare.
  destruct (Z.compare_spec (n1 / 100) (n2 / 100)),
    (Z.compare_spec (n1 mod 100) (n2 mod 100)),
    (Z.compare_spec n1 n2); try reflexivity; exfalso; zdiv.
Qed.

(** The date string of a year of four digits. *)
Lemma isoDatePart_4digit t :
  0 <= YearFromTime t <= 9999 ->
  isoDatePart t
  = pad4 (YearFromTime t)
      +:+ String "-"%char (pad2 (MonthFromTime t + 1)
      +:+ String "-"%char (pad2 (DateFromTime t) +:+ EmptyString)).
Proof.
  intros Hy. unfold isoDatePart, yearString.
  destruct (Z.leb_spec 0 (YearFromTime t)); [|lia].
  destruct (Z.leb_spec (YearFromTime t) 9999); [|lia].
  reflexivity.
Qed.

(** *** Year, month and date are ordered like the day number *)

Lemma MonthFromTime_monthOfDay t :
  MonthFromTime t = monthOfDay (DayWithinYear t) (InLeapYear t).
Proof. reflexivity. Qed.

Lemma monthOfDay_mono d1 d2 l : d1 <= d2 -> monthOfDay d1 l <= monthOfDay d2 l.
Proof. intros H. unfold monthOfDay. zcases; lia. Qed.

Lemma fieldsCompare_lt t1 t2 : Day t1 < Day t2 -> fieldsCompare t1 t2 = Lt.
Proof.
  intros Hd. unfold fieldsCompare, thenCompare.
  assert (Hy : YearFromTime t1 <= YearFromTime t2)
    by (apply YearFromDay_mono; lia).
  destruct (Z.compare_spec (YearFromTime t1) (YearFromTime t2)) as [Ey| |]; [|done|lia].
  assert (El : InLeapYear t1 = InLeapYear t2) by (unfold InLeapYear; by rewrite Ey).
  assert (Hw : DayWithinYear t1 < DayWithinYear t2)
    by (unfold DayWithinYear; rewrite Ey; lia).
  pose proof (monthOfDay_mono (DayWithinYear t1) (DayWithinYear t2)
                (InLeapYear t1) ltac:(lia)) as Hm.
  rewrite <- MonthFromTime_monthOfDay in Hm.
  rewrite El, <- MonthFromTime_monthOfDay in Hm.
  destruct (Z.compare_spec (MonthFromTime t1 + 1) (MonthFromTime t2 + 1))
    as [Em| |]; [|done|lia].
  assert (Em' : MonthFromTime t1 = MonthFromTime t2) by lia.
  assert (Hdt : DateFromTime t1 < DateFromTime t2)
    by (unfold DateFromTime; rewrite Em', El; lia).
  destruct (Z.compare_spec (DateFromTime t1) (DateFromTime t2)); [lia|done|lia].
Qed.

Lemma fieldsCompare_eq t1 t2 : Day t1 = Day t2 -> fieldsCompare t1 t2 = Eq.
Proof.
  intros Hd.
  assert (Ey : YearFromTime t1 = YearFromTime t2)
    by (unfold YearFromTime; by rewrite Hd).
  assert (El : InLeapYear t1 = InLeapYear t2) by (unfold InLeapYear; by rewrite Ey).
  assert (Ew : DayWithinYear t1 = DayWithinYear t2)
    by (unfold DayWithinYear; by rewrite Ey, Hd).
  assert (Em : MonthFromTime t1 = MonthFromTime t2)
    by (rewrite !MonthFromTime_monthOfDay; by rewrite Ew, El).
  assert (Edt : DateFromTime t1 = DateFromTime t2)
    by (unfold DateFromTime; by rewrite Ew, Em, El).
  unfold fieldsCompare, thenCompare. by rewrite Ey, Em, Edt, !Z.compare_refl.
Qed.

Lemma fieldsCompare_gt t1 t2 : Day t2 < Day t1 -> fieldsCompare t1 t2 = Gt.
Proof.
  intros Hd. pose proof (fieldsCompare_lt t2 t1 Hd) as H.
  unfold fieldsCompare, thenCompare in *.
  rewrite (Z.compare_antisym (YearFromTime t1)) in H.
  rewrite (Z.compare_antisym (MonthFromTime t1 + 1)) in H.
  rewrite (Z.compare_antisym (DateFromTime t1)) in H.
  destruct (YearFromTime t1 ?= YearFromTime t2),
    (MonthFromTime t1 + 1 ?= MonthFromTime t2 + 1),
    (DateFromTime t1 ?= DateFromTime t2); simpl in *; congruence.
Qed.

Lemma fieldsCompare_Day t1 t2 : fieldsCompare t1 t2 = (Day t1 ?= Day t2).
Proof.
  destruct (Z.compare_spec (Day t1) (Day t2)).
  - by apply fieldsCompare_eq.
  - by apply fieldsCompare_lt.
  - by apply fieldsCompare_gt.
Qed.

(** Date strings of four-digit years compare like the days they name. *)
Lemma isoDatePart_compare t1 t2 :
  0 <= YearFromTime t1 <= 9999 -> 0 <= YearFromTime t2 <= 9999 ->
  String.compare (isoDatePart t1) (isoDatePart t2) = (Day t1 ?= Day t2).
Proof.
  intros H1 H2. rewrite <- fieldsCompare_Day.
  rewrite !isoDatePart_4digit by done.
  pose proof (MonthFromTime_range t1). pose proof (MonthFromTime_range t2).
  pose proof (DateFromTime_range t1). pose proof (DateFromTime_range t2).
  rewrite pad4_compare, !String_compare_cons by done.
  change (Ascii.compare "-" "-") with Eq. cbv iota.
  rewrite pad2_compare, !String_compare_cons by lia.
  change (Ascii.compare "-" "-") with Eq. cbv iota.
  rewrite pad2_compare by lia.
  reflexivity.
Qed.

Lemma isoDatePart_leb t1 t2 :
  0 <= YearFromTime t1 <= 9999 -> 0 <= YearFromTime t2 <= 9999 ->
  String.leb (isoDatePart t1) (isoDatePart t2) = (Day t1 <=? Day t2).
Proof.
  intros H1 H2. unfold String.leb. rewrite isoDatePart_compare by done.
  unfold Z.leb. by destruct (Day t1 ?= Day t2).
Qed.

Lemma isoDatePart_inj t1 t2 :
  0 <= YearFromTime t1 <= 9999 -> 0 <= YearFromTime t2 <= 9999 ->
  isoDatePart t1 = isoDatePart t2 -> Day t1 = Day t2.
Proof.
  intros H1 H2 E. apply Z.compare_eq.
  rewrite <- isoDatePart_compare, E by done. apply String_compare_refl.
Qed.

End ISOStringFacts.

(** ** Facts about the week summarizer *)

Module ComplianceFacts.
Import JSDate JSDateFacts DateUtils DateUtilsFacts ISOStringFacts Compliance Spec.

#[local] Opaque YearFromTime MonthFromTime DateFromTime Day getWeekBounds
  isoDatePart.

Lemma calculateWeekSummary_summaryOf tz year weekNumber config allEntries weekdays :
  getWeekdays tz year weekNumber = Some weekdays ->
  calculateWeekSummary tz year weekNumber config allEntries
  = Some (summaryOf year weekNumber config allEntries weekdays).
Proof.
  intros H. unfold calculateWeekSummary. rewrite H.
  unfold summaryOf, dayFor, countOffice, inRange.
  cbn [mbind option_bind]. cbv zeta. reflexivity.
Qed.

(** *** The date lookup *)

Lemma newMap_snoc l e : newMap (l ++ [e]) = <[date e := e]> (newMap l).
Proof. unfold newMap. by rewrite foldl_app. Qed.

Lemma hasDate_true k e : hasDate k e = true <-> date e = k.
Proof. unfold hasDate. apply String.eqb_eq. Qed.

(** The map holds, for each date, the last entry of the list with that
    date. *)
Lemma newMap_lookup l k : newMap l !! k = last (List.filter (hasDate k) l).
Proof.
  induction l as [|e l IH] using rev_ind; [done|].
  rewrite newMap_snoc, List.filter_app, lookup_insert. simpl.
  destruct (hasDate k e) eqn:E.
  - apply hasDate_true in E. rewrite decide_True by done. by rewrite last_snoc.
  - rewrite decide_False.
    + by rewrite app_nil_r.
    + intros Hk. apply hasDate_true in Hk. congruence.
Qed.

Lemma newMap_lookup_date l k e : newMap l !! k = Some e -> date e = k.
Proof.
  rewrite newMap_lookup. intros H. apply last_Some_elem_of in H.
  apply list_elem_of_In in H. apply List.filter_In in H.
  apply hasDate_true, H.
Qed.

Lemma filter_hasDate_inRange s e k l :
  inRange s e (homeEntry k) = true ->
  List.filter (hasDate k) (List.filter (inRange s e) l) = List.filter (hasDate k) l.
Proof.
  intros Hk. induction l as [|x l IH]; [done|]. simpl.
  destruct (hasDate k x) eqn:E.
  - assert (Hx : inRange s e x = true).
    { apply hasDate_true in E. unfold inRange in *. simpl in Hk. by rewrite E. }
    rewrite Hx. simpl. by rewrite E, IH.
  - destruct (inRange s e x); simpl; by rewrite ?E, IH.
Qed.

Lemma dayFor_date m d : (forall k e, m !! k = Some e -> date e = k) ->
  date (dayFor m d) = toISODate d.
Proof.
  intros Hm. unfold dayFor. destruct (m !! toISODate d) as [e|] eqn:E; simpl; eauto.
Qed.

Lemma dayFor_empty d : dayFor ∅ d = homeEntry (toISODate d).
Proof. unfold dayFor. by rewrite lookup_empty. Qed.

Lemma countOffice_home (dates : list string) :
  countOffice (List.map homeEntry dates) = 0.
Proof. unfold countOffice. induction dates; simpl; auto. Qed.

(** *** The days of a week as date strings *)

Lemma week_day_year year weekNumber i :
  validYear year -> validWeek weekNumber -> 0 <= i <= 6 ->
  0 <= YearFromTime (start (getWeekBounds year weekNumber) + i * msPerDay) <= 9999.
Proof.
  intros Hy Hw Hi.
  pose proof (week_year_range year weekNumber
                (start (getWeekBounds year weekNumber) + i * msPerDay) Hw) as Hr.
  cbv zeta in Hr. rewrite Day_shift in Hr.
  rewrite MakeFullYear_valid in Hr by (unfold validYear in Hy; lia).
  unfold validYear in Hy. lia.
Qed.

Lemma week_day_inRange year weekNumber i :
  validYear year -> validWeek weekNumber -> 0 <= i <= 6 ->
  let b := getWeekBounds year weekNumber in
  inRange (toISODate (start b)) (toISODate (end_ b))
    (homeEntry (toISODate (start b + i * msPerDay))) = true.
Proof.
  intros Hy Hw Hi b. subst b. rewrite getWeekBounds_end.
  pose proof (week_day_year year weekNumber 0 Hy Hw ltac:(lia)) as H0.
  pose proof (week_day_year year weekNumber 6 Hy Hw ltac:(lia)) as H6.
  pose proof (week_day_year year weekNumber i Hy Hw Hi) as Hyi.
  rewrite Z.add_0_r in H0.
  unfold inRange, toISODate, homeEntry, date.
  rewrite (isoDatePart_leb _ _ H0 Hyi), (isoDatePart_leb _ _ Hyi H6).
  rewrite !Day_shift. apply andb_true_iff. split; apply Z.leb_le; lia.
Qed.

Lemma week_day_distinct year weekNumber i j :
  validYear year -> validWeek weekNumber -> 0 <= i <= 6 -> 0 <= j <= 6 ->
  let s := start (getWeekBounds year weekNumber) in
  toISODate (s + i * msPerDay) = toISODate (s + j * msPerDay) -> i = j.
Proof.
  intros Hy Hw Hi Hj s E. subst s. unfold toISODate in E.
  apply isoDatePart_inj in E;
    [|exact (week_day_year year weekNumber i Hy Hw Hi)
     |exact (week_day_year year weekNumber j Hy Hw Hj)].
  rewrite !Day_shift in E. lia.
Qed.

(** *** The day records of a week *)

Lemma lookupDay_date allEntries k : date (lookupDay allEntries k) = k.
Proof.
  unfold lookupDay.
  destruct (last (List.filter (hasDate k) allEntries)) as [e|] eqn:E; [|done].
  apply last_Some_elem_of, list_elem_of_In in E. apply List.filter_In in E.
  apply hasDate_true, E.
Qed.

Lemma lookupDay_last pre e post :
  (forall e', e' ∈ post -> date e' <> date e) ->
  lookupDay (pre ++ e :: post) (date e) = e.
Proof.
  intros Hpost. unfold lookupDay.
  assert (Hf : List.filter (hasDate (date e)) post = []).
  { induction post as [|x post IH]; [done|]. simpl.
    destruct (hasDate (date e) x) eqn:E.
    - apply hasDate_true in E. exfalso. apply (Hpost x); [left|done].
    - apply IH. intros e' He'. apply Hpost. by right. }
  rewrite List.filter_app. simpl.
  assert (Hd : hasDate (date e) e = true) by by apply hasDate_true.
  rewrite Hd, Hf. by rewrite last_snoc.
Qed.

Lemma dayFor_week year weekNumber allEntries i :
  validYear year -> validWeek weekNumber -> 0 <= i <= 6 ->
  let b := getWeekBounds year weekNumber in
  dayFor (newMap (List.filter (inRange (toISODate (start b)) (toISODate (end_ b)))
                    allEntries))
    (start b + i * msPerDay)
  = lookupDay allEntries (toISODate (start b + i * msPerDay)).
Proof.
  intros Hy Hw Hi b. subst b. unfold dayFor, lookupDay.
  rewrite newMap_lookup.
  rewrite filter_hasDate_inRange; [done|].
  exact (week_day_inRange year weekNumber i Hy Hw Hi).
Qed.

(** East of Greenwich: one record per weekday, each the last entry logged
    for that date or the default. *)
Lemma calculateWeekSummary_east tz year weekNumber config allEntries :
  eastOfUTC tz -> validYear year -> validWeek weekNumber ->
  exists ws,
    calculateWeekSummary tz year weekNumber config allEntries = Some ws
    /\ days ws = List.map (lookupDay allEntries) (weekdayStrings year weekNumber)
    /\ officeDays ws = countOffice (days ws)
    /\ isCompliant ws = (requiredOfficeDaysPerWeek config <=? officeDays ws)
    /\ startDate ws = toISODate (start (getWeekBounds year weekNumber))
    /\ endDate ws = toISODate (end_ (getWeekBounds year weekNumber)).
Proof.
  intros Htz Hy Hw.
  eexists. split.
  { apply calculateWeekSummary_summaryOf. exact (getWeekdays_east tz year weekNumber Htz). }
  unfold summaryOf. cbv zeta. cbn [days officeDays isCompliant startDate endDate].
  split; [|by repeat split].
  unfold weekdayStrings. cbn [List.map].
  rewrite !(dayFor_week year weekNumber allEntries) by (assumption || lia).
  reflexivity.
Qed.

(** Without entries in range every weekday gets the default record. *)
Lemma summaryOf_no_entries year weekNumber config allEntries weekdays :
  (forall e, e ∈ allEntries ->
     inRange (toISODate (start (getWeekBounds year weekNumber)))
       (toISODate (end_ (getWeekBounds year weekNumber))) e = false) ->
  days (summaryOf year weekNumber config allEntries weekdays)
  = List.map homeEntry (List.map toISODate weekdays).
Proof.
  intros Hno. unfold summaryOf. cbv zeta. cbn [days].
  assert (Hf : List.filter
                 (inRange (toISODate (start (getWeekBounds year weekNumber)))
                    (toISODate (end_ (getWeekBounds year weekNumber))))
                 allEntries = []).
  { induction allEntries as [|x l IH]; [done|]. simpl.
    rewrite (Hno x) by left. apply IH. intros e He. apply Hno. by right. }
  rewrite Hf. unfold newMap. simpl foldl.
  rewrite List.map_map. apply List.map_ext. intros d. apply dayFor_empty.
Qed.

Lemma summaryOf_fields year weekNumber config allEntries weekdays :
  let ws := summaryOf year weekNumber config allEntries weekdays in
  officeDays ws = countOffice (days ws)
  /\ isCompliant ws = (requiredOfficeDaysPerWeek config <=? officeDays ws)
  /\ length (days ws) = length weekdays.
Proof.
  unfold summaryOf. cbv zeta. cbn [days officeDays isCompliant].
  repeat split. apply List.length_map.
Qed.

(** [getWeekdays] always ends within its fuel, in every time zone. *)
Lemma getWeekdays_total tz year weekNumber :
  exists weekdays, getWeekdays tz year weekNumber = Some weekdays.
Proof.
  eexists. unfold getWeekdays.
  apply (getWeekdays_filter tz year weekNumber getWeekdays_fuel).
  unfold getWeekdays_fuel. lia.
Qed.

Lemma calculateWeekSummary_total tz year weekNumber config allEntries :
  is_Some (calculateWeekSummary tz year weekNumber config allEntries).
Proof.
  destruct (getWeekdays_total tz year weekNumber) as [wds H].
  rewrite (calculateWeekSummary_summaryOf _ _ _ _ _ _ H). by eexists.
Qed.

Lemma calculateQuarterSummary_weeks tz year quarter config allEntries :
  exists weeks,
    mapM (fun weekNumber =>
            calculateWeekSummary tz year weekNumber config allEntries)
      (getWeeksInQuarter tz year quarter) = Some weeks.
Proof.
  apply mapM_is_Some, Forall_forall. intros w _.
  apply calculateWeekSummary_total.
Qed.

Lemma summaryOf_days_east year weekNumber config allEntries :
  validYear year -> validWeek weekNumber ->
  days (summaryOf year weekNumber config allEntries (mondayToFriday year weekNumber))
  = List.map (lookupDay allEntries) (weekdayStrings year weekNumber).
Proof.
  intros Hy Hw. unfold summaryOf, mondayToFriday, weekdayStrings.
  cbv zeta. cbn [days List.map].
  rewrite !(dayFor_week year weekNumber allEntries) by (assumption || lia).
  reflexivity.
Qed.

Lemma calculateWeekSummary_mondayToFriday tz year weekNumber config allEntries :
  eastOfUTC tz ->
  calculateWeekSummary tz year weekNumber config allEntries
  = Some (summaryOf year weekNumber config allEntries
            (mondayToFriday year weekNumber)).
Proof.
  intros Htz. apply calculateWeekSummary_summaryOf.
  exact (getWeekdays_east tz year weekNumber Htz).
Qed.



(** The summary depends on the entries through its day records only. *)
Lemma summaryOf_ext year weekNumber config entries1 entries2 weekdays :
  days (summaryOf year weekNumber config entries1 weekdays)
  = days (summaryOf year weekNumber config entries2 weekdays) ->
  summaryOf year weekNumber config entries1 weekdays
  = summaryOf year weekNumber config entries2 weekdays.
Proof.
  unfold summaryOf. cbv zeta. cbn [days]. intros E. rewrite E. reflexivity.
Qed.

(** *** The quarter summarizer *)

Lemma calculateQuarterSummary_fields tz year quarter config allEntries :
  exists qs,
    calculateQuarterSummary tz year quarter config allEntries = Some qs
    /\ Forall2 (fun weekNumber ws =>
                  calculateWeekSummary tz year weekNumber config allEntries = Some ws)
         (getWeeksInQuarter tz year quarter) (weeks qs)
    /\ compliantWeeks qs = Z.of_nat (length (List.filter isCompliant (weeks qs)))
    /\ totalWeeks qs = Z.of_nat (length (weeks qs))
    /\ status qs
       = (if requiredCompliantWeeksPerQuarter config <=? compliantWeeks qs
          then compliant
          else if warningThresholdWeeks config <=? compliantWeeks qs
               then warning
               else danger).
Proof.
  destruct (calculateQuarterSummary_weeks tz year quarter config allEntries)
    as [wks Hw].
  unfold calculateQuarterSummary. cbv zeta. rewrite Hw.
  cbn [mbind option_bind]. eexists. split; [reflexivity|].
  cbn [weeks compliantWeeks totalWeeks status].
  split; [by apply mapM_Some|]. by repeat split.
Qed.

(** *** A week without entries *)

Lemma getWeekdays_five tz year weekNumber :
  - msPerDay <= tz < msPerDay ->
  exists weekdays,
    getWeekdays tz year weekNumber = Some weekdays /\ length weekdays = 5%nat.
Proof.
  intros Htz. destruct (Z.le_gt_cases 0 tz).
  - eexists. split; [apply getWeekdays_east; unfold eastOfUTC; lia|reflexivity].
  - eexists. split; [apply getWeekdays_west; lia|reflexivity].
Qed.

Lemma homeEntry_all_home (dates : list string) :
  Forall (fun d => location d = home) (List.map homeEntry dates).
Proof. induction dates; simpl; constructor; auto. Qed.

Lemma default_fill_core tz year weekNumber config allEntries :
  - msPerDay <= tz < msPerDay ->
  1 <= requiredOfficeDaysPerWeek config ->
  (forall e, e ∈ allEntries ->
     inRange (toISODate (start (getWeekBounds year weekNumber)))
       (toISODate (end_ (getWeekBounds year weekNumber))) e = false) ->
  exists ws weekdays,
    calculateWeekSummary tz year weekNumber config allEntries = Some ws
    /\ getWeekdays tz year weekNumber = Some weekdays
    /\ days ws = List.map homeEntry (List.map toISODate weekdays)
    /\ officeDays ws = 0
    /\ isCompliant ws = false
    /\ length (days ws) = 5%nat
    /\ Forall (fun d => location d = home) (days ws).
Proof.
  intros Htz Hreq Hno.
  destruct (getWeekdays_five tz year weekNumber Htz) as (wds & Hwds & Hlen).
  exists (summaryOf year weekNumber config allEntries wds), wds.
  split; [by apply calculateWeekSummary_summaryOf|]. split; [exact Hwds|].
  pose proof (summaryOf_no_entries year weekNumber config allEntries wds Hno) as Hd.
  destruct (summaryOf_fields year weekNumber config allEntries wds)
    as (Ho & Hc & Hl). cbv zeta in Ho, Hc, Hl.
  split; [exact Hd|].
  assert (Hz : officeDays (summaryOf year weekNumber config allEntries wds) = 0)
    by (rewrite Ho, Hd; apply countOffice_home).
  split; [exact Hz|].
  split; [rewrite Hc, Hz; apply Z.leb_gt; lia|].
  split; [rewrite Hl; exact Hlen|].
  rewrite Hd. apply homeEntry_all_home.
Qed.

(** *** Weekend entries and repeated dates, east of Greenwich *)

Lemma weekdayStrings_elem year weekNumber k :
  k ∈ weekdayStrings year weekNumber ->
  exists i, 0 <= i <= 4
    /\ k = toISODate (start (getWeekBounds year weekNumber) + i * msPerDay).
Proof.
  unfold weekdayStrings. cbn [List.map]. intros H.
  repeat (apply elem_of_cons in H as [->|H]; [eexists; split; [|reflexivity]; lia|]).
  by apply elem_of_nil in H.
Qed.

Lemma weekdayStrings_lookup year weekNumber i :
  0 <= i <= 4 ->
  weekdayStrings year weekNumber !! Z.to_nat i
  = Some (toISODate (start (getWeekBounds year weekNumber) + i * msPerDay)).
Proof.
  intros Hi. unfold weekdayStrings. cbn [List.map].
  assert (i = 0 \/ i = 1 \/ i = 2 \/ i = 3 \/ i = 4) as [->|[->|[->|[->| ->]]]]
      by lia; reflexivity.
Qed.

Lemma lookupDay_filter (keep : DayEntry -> bool) allEntries k :
  (forall e, date e = k -> keep e = true) ->
  lookupDay (List.filter keep allEntries) k = lookupDay allEntries k.
Proof.
  intros Hk. unfold lookupDay. f_equal. f_equal.
  induction allEntries as [|x l IH]; [done|]. simpl.
  destruct (hasDate k x) eqn:E.
  - rewrite (Hk x) by by apply hasDate_true. simpl. by rewrite E, IH.
  - destruct (keep x); simpl; by rewrite ?E, IH.
Qed.

Lemma days_date_weekdayStrings allEntries (ks : list string) :
  List.map date (List.map (lookupDay allEntries) ks) = ks.
Proof.
  induction ks as [|k ks IH]; [done|]. simpl. by rewrite lookupDay_date, IH.
Qed.

Lemma weekdayStrings_NoDup year weekNumber :
  validYear year -> validWeek weekNumber ->
  NoDup (weekdayStrings year weekNumber).
Proof.
  intros Hy Hw. unfold weekdayStrings. cbn [List.map].
  repeat (apply NoDup_cons; split;
          [intros Hin;
           repeat (apply elem_of_cons in Hin as [Hin|Hin];
                   [apply week_day_distinct in Hin; (assumption || lia)|]);
           by apply elem_of_nil in Hin|]).
  apply NoDup_nil_2.
Qed.

Lemma summaryOf_day_east year weekNumber config allEntries i :
  validYear year -> validWeek weekNumber -> 0 <= i <= 4 ->
  days (summaryOf year weekNumber config allEntries (mondayToFriday year weekNumber))
    !! Z.to_nat i
  = Some (lookupDay allEntries
            (toISODate (start (getWeekBounds year weekNumber) + i * msPerDay))).
Proof.
  intros Hy Hw Hi. rewrite summaryOf_days_east by assumption.
  change (List.map (lookupDay allEntries) (weekdayStrings year weekNumber))
    with (lookupDay allEntries <$> weekdayStrings year weekNumber).
  rewrite list_lookup_fmap, weekdayStrings_lookup by exact Hi. reflexivity.
Qed.

End ComplianceFacts.

(** ** Facts about the assignment of weeks to quarters *)

Module QuarterFacts.
Import JSDate JSDateFacts DateUtils DateUtilsFacts Spec.

#[local] Opaque YearFromTime MonthFromTime DateFromTime Day getWeekBounds.

(** The weeks that [getWeeksInQuarter] returns: the numbers from 1 to 53
    that [getQuarterForWeek] assigns to the quarter and, for the first
    quarter, 53 when week 53 of the year before is assigned to it. *)
Lemma getWeeksInQuarter_elem tz year quarter w :
  w ∈ getWeeksInQuarter tz year quarter
  <-> (1 <= w <= 53
       /\ getQuarterForWeek tz year w = {| wq_year := year; wq_quarter := quarter |})
      \/ (w = 53 /\ quarter = 1
          /\ getQuarterForWeek tz (year - 1) 53
             = {| wq_year := year; wq_quarter := 1 |}).
Proof.
  unfold getWeeksInQuarter, sortNum. cbv zeta. rewrite merge_sort_Permutation.
  assert (Hrec : forall q y' q', (wq_year q =? y') && (wq_quarter q =? q') = true
                   <-> q = {| wq_year := y'; wq_quarter := q' |}).
  { intros [a b] y' q'. simpl. rewrite andb_true_iff, !Z.eqb_eq.
    split; [intros [-> ->]; reflexivity|intros [= -> ->]; done]. }
  assert (Hf : forall l,
             w ∈ List.filter
                   (fun weekNumber =>
                      (wq_year (getQuarterForWeek tz year weekNumber) =? year)
                      && (wq_quarter (getQuarterForWeek tz year weekNumber) =? quarter))
                   l
             <-> w ∈ l /\ getQuarterForWeek tz year w
                          = {| wq_year := year; wq_quarter := quarter |}).
  { intros l. rewrite list_elem_of_In, List.filter_In, <- list_elem_of_In.
    by rewrite Hrec. }
  destruct (Z.eqb_spec quarter 1) as [Hq|Hq].
  - destruct ((wq_year (getQuarterForWeek tz (year - 1) 53) =? year)
              && (wq_quarter (getQuarterForWeek tz (year - 1) 53) =? 1)) eqn:E.
    + apply Hrec in E. rewrite elem_of_cons, Hf, elem_of_seqZ.
      split; [intros [->|[Hr Hg]]|intros [[Hr Hg]| (-> & _ & _)]];
        (try (left; split; [lia|done])); (try (right; done)); auto.
      right. split; [lia|done].
    + rewrite Hf, elem_of_seqZ.
      split; [intros [Hr Hg]; left; split; [lia|done]|].
      intros [[Hr Hg]| (_ & _ & Hs)]; [split; [lia|done]|].
      apply Hrec in Hs. congruence.
  - rewrite Hf, elem_of_seqZ.
    split; [intros [Hr Hg]; left; split; [lia|done]|].
    intros [[Hr Hg]| (_ & Hq' & _)]; [split; [lia|done]|done].
Qed.

Lemma getWeeksInQuarter_Sorted tz year quarter :
  StronglySorted Z.le (getWeeksInQuarter tz year quarter).
Proof.
  unfold getWeeksInQuarter, sortNum. cbv zeta.
  apply (StronglySorted_merge_sort Z.le).
Qed.

(** The last element of an ascending list is its greatest. *)
Lemma StronglySorted_last_max (l : list Z) x :
  StronglySorted Z.le l -> x ∈ l -> (forall y, y ∈ l -> y <= x) ->
  last l = Some x.
Proof.
  induction l as [|a l IH]; intros Hs Hx Hmax; [by apply elem_of_nil in Hx|].
  apply StronglySorted_inv in Hs as [Hs Ha].
  destruct l as [|b l].
  - apply list_elem_of_singleton in Hx. by subst.
  - rewrite last_cons_cons. apply IH; [done| |].
    + apply elem_of_cons in Hx as [->|Hx]; [|done].
      assert (b = a) as ->; [|left].
      apply Z.le_antisymm.
      * apply Hmax. right. left.
      * apply (Forall_inv Ha).
    + intros y Hy. apply Hmax. by right.
Qed.

(** Whenever the first quarter takes week 53 of the year before, the final
    sort puts 53 last. *)
Lemma getWeeksInQuarter_spill_last tz year :
  getQuarterForWeek tz (year - 1) 53 = {| wq_year := year; wq_quarter := 1 |} ->
  last (getWeeksInQuarter tz year 1) = Some 53.
Proof.
  intros Hs. apply StronglySorted_last_max.
  - apply getWeeksInQuarter_Sorted.
  - apply getWeeksInQuarter_elem. right. done.
  - intros y Hy. apply getWeeksInQuarter_elem in Hy as [[Hr _]|(-> & _)]; lia.
Qed.

(** East of Greenwich, the weeks 1 to 52 of a valid year are assigned to
    a quarter of that year. *)
Lemma getQuarterForWeek_own_year tz year w :
  eastOfUTC tz -> validYear year -> 1 <= w <= 52 ->
  exists q, 1 <= q <= 4
    /\ getQuarterForWeek tz year w = {| wq_year := year; wq_quarter := q |}.
Proof.
  intros Htz Hy Hw.
  assert (Hfy : MakeFullYear year = year)
    by (apply MakeFullYear_valid; unfold validYear in Hy; lia).
  pose proof (getWeekBounds_start_midnight year w) as Hm.
  destruct (getWeekBounds_start_Day year w) as (wd & Hwd & _ & _ & Hday).
  rewrite Hfy in Hday.
  unfold getQuarterForWeek. cbv zeta. rewrite getWeekBounds_end.
  assert (Hj : Date_new tz year 0 1 = DayFromYear year * msPerDay - tz).
  { unfold Date_new, UTC, MakeDate. rewrite Hfy, MakeDay_january. lia. }
  rewrite Hj.
  pose proof (midnight_eq _ Hm) as Hs.
  pose proof (DayFromYear_succ year) as Hnext.
  pose proof (DaysInYear_cases year) as Hdays.
  unfold eastOfUTC in Htz.
  set (s := start (getWeekBounds year w)) in *.
  destruct ((s <=? DayFromYear year * msPerDay - tz)
            && (DayFromYear year * msPerDay - tz <=? s + 6 * msPerDay)) eqn:E.
  - exists 1. split; [lia|reflexivity].
  - exists (getQuarter tz s). split.
    + unfold getQuarter, getMonth. cbv zeta.
      pose proof (MonthFromTime_range (LocalTime tz s)). zdiv.
    + f_equal. unfold getFullYear. rewrite YearFromTime_eq.
      rewrite Day_LocalTime_east by done.
      apply YearFromDay_unique. rewrite Hnext, Hday.
      apply andb_false_iff in E.
      rewrite Z.leb_gt, Z.leb_gt in E. rewrite <- Hs, Hday in E.
      unfold msPerDay in *. lia.
Qed.

(** East of Greenwich, each of the weeks 1 to 52 of a valid year is in the
    list of exactly one quarter. *)
Lemma getWeeksInQuarter_partition_52 tz year w :
  eastOfUTC tz -> validYear year -> 1 <= w <= 52 ->
  exists q, 1 <= q <= 4
    /\ forall q', w ∈ getWeeksInQuarter tz year q' <-> q' = q.
Proof.
  intros Htz Hy Hw.
  destruct (getQuarterForWeek_own_year tz year w Htz Hy Hw) as (q & Hq & Hg).
  exists q. split; [done|]. intros q'. rewrite getWeeksInQuarter_elem, Hg.
  split.
  - intros [[_ [= ->]]|(-> & _)]; [done|lia].
  - intros ->. left. split; [lia|done].
Qed.

End QuarterFacts.

(** ** Facts about weeks and week numbers *)

Module WeekFacts.
Import JSDate JSDateFacts DateUtils DateUtilsFacts Spec.

#[local] Opaque YearFromTime MonthFromTime DateFromTime Day getWeekBounds.

Lemma getWeekBounds_record year weekNumber :
  getWeekBounds year weekNumber
  = {| start := start (getWeekBounds year weekNumber);
       end_ := start (getWeekBounds year weekNumber) + 6 * msPerDay |}.
Proof.
  rewrite <- getWeekBounds_end. by destruct (getWeekBounds year weekNumber).
Qed.

Lemma getWeekBounds_eq y1 w1 y2 w2 :
  start (getWeekBounds y1 w1) = start (getWeekBounds y2 w2) ->
  getWeekBounds y1 w1 = getWeekBounds y2 w2.
Proof.
  intros E. rewrite (getWeekBounds_record y1 w1), (getWeekBounds_record y2 w2).
  by rewrite E.
Qed.

Lemma getWeekBounds_start_shift year w k :
  start (getWeekBounds year (w + k))
  = start (getWeekBounds year w) + (7 * k) * msPerDay.
Proof. rewrite !getWeekBounds_start. lia. Qed.

(** The Monday of week 1 of the next year lies 52 or 53 weeks after the
    Monday of week 1. *)
Lemma week1_next_year year :
  ~ (0 <= year <= 99) -> ~ (0 <= year + 1 <= 99) ->
  start (getWeekBounds (year + 1) 1) = start (getWeekBounds year 53)
  \/ start (getWeekBounds (year + 1) 1) = start (getWeekBounds year 54).
Proof.
  intros Hy Hy1.
  pose proof (getWeekBounds_start_midnight (year + 1) 1) as Hm1.
  pose proof (getWeekBounds_start_midnight year 53) as Hm53.
  pose proof (getWeekBounds_start_midnight year 54) as Hm54.
  destruct (getWeekBounds_start_Day (year + 1) 1) as (wd1 & Hr1 & Hc1 & _ & Hd1).
  destruct (getWeekBounds_start_Day year 53) as (wd & Hr & Hc & Hwd & Hd53).
  destruct (getWeekBounds_start_Day year 54) as (wd' & _ & _ & Hwd' & Hd54).
  assert (wd' = wd) as -> by congruence.
  rewrite !MakeFullYear_valid in * by assumption.
  rewrite DayFromYear_succ in Hc1, Hd1.
  apply midnight_eq in Hm1, Hm53, Hm54.
  rewrite <- Hm1, <- Hm53, <- Hm54, Hd1, Hd53, Hd54.
  destruct (DaysInYear_cases year) as [E|E]; rewrite E in *.
  - assert (wd1 = wd + 1 \/ wd1 = wd - 6) as [->| ->] by zdiv; [left|right]; lia.
  - assert (wd1 = wd + 2 \/ wd1 = wd - 5) as [->| ->] by zdiv; [left|right]; lia.
Qed.

(** *** The week of a date *)

Lemma localDay_Day tz date :
  ~ (0 <= getFullYear tz date <= 99) ->
  localDay tz date = Day (LocalTime tz date) * msPerDay.
Proof. intros Hy. unfold localDay. by apply Date_UTC_of_fields. Qed.

Lemma YearFromDay_near d y :
  DayFromYear y - 3 <= d <= DayFromYear y + 368 ->
  y - 1 <= YearFromDay d <= y + 1.
Proof.
  intros Hd.
  pose proof (DayFromYear_pred_le y).
  pose proof (DayFromYear_succ y). pose proof (DayFromYear_succ (y + 1)).
  replace (y + 1 + 1) with (y + 2) in * by lia.
  destruct (DaysInYear_cases y), (DaysInYear_cases (y + 1)).
  all: pose proof (YearFromDay_spec d) as Hs; split.
  all: try (destruct (Z.le_gt_cases (y - 1) (YearFromDay d)) as [|Hlt]; [done|];
            pose proof (DayFromYear_mono (YearFromDay d + 1) (y - 1) ltac:(lia)); lia).
  all: destruct (Z.le_gt_cases (YearFromDay d) (y + 1)) as [|Hgt]; [done|];
    pose proof (DayFromYear_mono (y + 2) (YearFromDay d) ltac:(lia)); lia.
Qed.

(** The core of [getWeekNumber]: for the day number [D] of a date, its
    weekday number [dayNum] (Monday 1 to Sunday 7), the year [Y] of the
    Thursday of its week and the weekday number [wd] of January 4th of
    [Y], the week number counted from January 1st of [Y] is the one whose
    Monday, counted from the Monday on or before January 4th, is the
    Monday of the week of [D]. *)
Lemma week_number_arith D dayNum F wd :
  1 <= dayNum <= 7 -> (D + 4 - dayNum) mod 7 = 0 ->
  1 <= wd <= 7 -> (F - wd) mod 7 = 0 ->
  F <= D + 4 - dayNum <= F + 365 ->
  let w := ceilDiv ((D + 4 - dayNum) * msPerDay - F * msPerDay + msPerDay)
             (7 * msPerDay) in
  1 <= w <= 53 /\ F + 4 - wd + 7 * (w - 1) = D + 1 - dayNum.
Proof.
  intros Hn Hc Hwd Hf Hr w. subst w. unfold ceilDiv, msPerDay. zdiv.
Qed.

Lemma getWeekNumber_contains tz date :
  validYear (getFullYear tz date) ->
  let d := localDay tz date in
  let Y := isoWeekYear tz date in
  let w := getWeekNumber tz date in
  1 <= w <= 53
  /\ getFullYear tz date - 1 <= Y <= getFullYear tz date + 1
  /\ exists dayNum, 1 <= dayNum <= 7
       /\ dayNum = orSeven (getUTCDay d)
       /\ d = start (getWeekBounds Y w) + (dayNum - 1) * msPerDay.
Proof.
  intros Hy d Y w. unfold validYear in Hy.
  assert (Hd : d = Day (LocalTime tz date) * msPerDay)
    by (apply localDay_Day; lia).
  set (D := Day (LocalTime tz date)) in *.
  assert (HdD : Day d = D) by (rewrite Hd; apply Day_midnight).
  destruct (orSeven_WeekDay d) as [Hn Hc]. rewrite HdD in Hc.
  set (dayNum := orSeven (WeekDay d)) in *.
  assert (HT : setUTCDate d (getUTCDate d + 4 - dayNum)
               = (D + 4 - dayNum) * msPerDay).
  { replace (getUTCDate d + 4 - dayNum) with (getUTCDate d + (4 - dayNum)) by lia.
    rewrite setUTCDate_shift, Hd. lia. }
  assert (HY : Y = YearFromDay (D + 4 - dayNum)).
  { unfold Y, isoWeekYear. cbv zeta. fold d. unfold getUTCDay. fold dayNum.
    rewrite HT. unfold getUTCFullYear. by rewrite YearFromTime_eq, Day_midnight. }
  pose proof (YearFromDay_spec (D + 4 - dayNum)) as Hs. rewrite <- HY in Hs.
  assert (Hnear : getFullYear tz date - 1 <= Y <= getFullYear tz date + 1).
  { rewrite HY. apply YearFromDay_near.
    pose proof (DayWithinYear_range (LocalTime tz date)) as Hw.
    unfold DayWithinYear in Hw. fold D in Hw. unfold getFullYear.
    destruct (DaysInYear_cases (YearFromTime (LocalTime tz date))); lia. }
  assert (HfY : MakeFullYear Y = Y) by (apply MakeFullYear_valid; lia).
  destruct (getWeekBounds_start_Day Y w) as (wd & Hwd & Hcw & _ & Hsd).
  rewrite HfY in Hcw, Hsd.
  assert (Hw : w = ceilDiv ((D + 4 - dayNum) * msPerDay - DayFromYear Y * msPerDay
                            + msPerDay) (7 * msPerDay)).
  { unfold w, getWeekNumber. cbv zeta. fold (localDay tz date). fold d.
    unfold getUTCDay. fold dayNum. rewrite HT.
    unfold getUTCFullYear. rewrite YearFromTime_eq, Day_midnight, <- HY.
    unfold Date_UTC, MakeDate. rewrite HfY, MakeDay_january. f_equal. lia. }
  rewrite DayFromYear_succ in Hs.
  destruct (week_number_arith D dayNum (DayFromYear Y) wd Hn Hc Hwd Hcw) as [Hr He].
  { destruct (DaysInYear_cases Y); lia. }
  rewrite <- Hw in Hr, He.
  split; [exact Hr|]. split; [exact Hnear|].
  exists dayNum. split; [exact Hn|]. split; [reflexivity|].
  rewrite <- (midnight_eq _ (getWeekBounds_start_midnight Y w)), Hsd, Hd. lia.
Qed.

End WeekFacts.

(** ** The quarter of a week, east of Greenwich *)

Module QuarterFormFacts.
Import JSDate JSDateFacts DateUtils DateUtilsFacts ISOStringFacts Spec.

#[local] Opaque YearFromTime MonthFromTime DateFromTime Day getWeekBounds.

Lemma week1Offset_range year :
  -3 <= week1Offset year <= 3
  /\ (DayFromYear (MakeFullYear year) + week1Offset year + 3) mod 7 = 0.
Proof.
  destruct (getWeekBounds_start_Day year 1) as (wd & Hr & Hm & Hwd & _).
  unfold week1Offset. rewrite <- Hwd. split; [lia|]. zdiv.
Qed.

Lemma start_Day_offset year w :
  Day (start (getWeekBounds year w))
  = DayFromYear (MakeFullYear year) + week1Offset year + 7 * (w - 1).
Proof.
  destruct (getWeekBounds_start_Day year w) as (wd & _ & _ & Hwd & Hd).
  unfold week1Offset. rewrite <- Hwd, Hd. lia.
Qed.

Lemma leapFlag_DaysInYear y : DaysInYear y = 365 + leapFlag y.
Proof. unfold leapFlag. destruct (DaysInYear_cases y) as [->| ->]; reflexivity. Qed.

Lemma leapFlag_cases y : leapFlag y = 0 \/ leapFlag y = 1.
Proof. unfold leapFlag. case_match; auto. Qed.

(** Year and month of day [o] of year [y]. *)
Lemma fields_of_offset y o t :
  Day t = DayFromYear y + o -> 0 <= o < 365 + leapFlag y ->
  YearFromTime t = y /\ MonthFromTime t = monthOfDay o (leapFlag y).
Proof.
  intros Ht Ho.
  assert (Hy : YearFromTime t = y).
  { rewrite YearFromTime_eq. apply YearFromDay_unique.
    rewrite DayFromYear_succ, leapFlag_DaysInYear. lia. }
  split; [exact Hy|].
  rewrite MonthFromTime_monthOfDay. unfold DayWithinYear, InLeapYear.
  rewrite Hy, Ht. fold (leapFlag y). f_equal. lia.
Qed.

(** East of Greenwich the result of [getQuarterForWeek] is a function of
    the day of the year of the Monday. *)
Lemma getQuarterForWeek_east tz year w :
  eastOfUTC tz -> ~ (0 <= year <= 99) -> validWeek w ->
  getQuarterForWeek tz year w
  = quarterOfOffset year (week1Offset year + 7 * (w - 1)) (leapFlag year).
Proof.
  intros Htz Hy Hw.
  assert (Hfy : MakeFullYear year = year) by (apply MakeFullYear_valid; exact Hy).
  pose proof (getWeekBounds_start_midnight year w) as Hm.
  pose proof (start_Day_offset year w) as Hday. rewrite Hfy in Hday.
  destruct (week1Offset_range year) as [Ha _].
  assert (Hloc : Day (LocalTime tz (start (getWeekBounds year w)))
                 = DayFromYear year + (week1Offset year + 7 * (w - 1))).
  { rewrite Day_LocalTime_east by (exact Htz || exact Hm). rewrite Hday. lia. }
  unfold getQuarterForWeek. cbv zeta. rewrite getWeekBounds_end.
  assert (Hj : Date_new tz year 0 1 = DayFromYear year * msPerDay - tz).
  { unfold Date_new, UTC, MakeDate. rewrite Hfy, MakeDay_january. lia. }
  rewrite Hj.
  pose proof (midnight_eq _ Hm) as Hs. rewrite Hday in Hs.
  assert (Hso : start (getWeekBounds year w)
                = (DayFromYear year + (week1Offset year + 7 * (w - 1))) * msPerDay)
    by lia.
  clear Hs Hday Hm.
  unfold getQuarter, getFullYear, getMonth. cbv zeta.
  revert Hloc Hso.
  generalize (start (getWeekBounds year w)). intros s Hloc Hso.
  unfold validWeek in Hw. unfold eastOfUTC in Htz.
  assert (Ho : -3 <= week1Offset year + 7 * (w - 1) <= 367) by lia.
  revert Hloc Hso Ho. generalize (week1Offset year + 7 * (w - 1)). intros o Hloc Hso Ho.
  destruct (leapFlag_cases year) as [Hl|Hl].
  all: unfold quarterOfOffset.
  all: destruct ((s <=? DayFromYear year * msPerDay - tz)
                 && (DayFromYear year * msPerDay - tz <=? s + 6 * msPerDay)) eqn:E.
  all: try (apply andb_true_iff in E as [E1 E2]; apply Z.leb_le in E1, E2;
            rewrite Hso in E1, E2;
            destruct (Z.leb_spec o 0); [|unfold msPerDay in *; lia];
            destruct (Z.leb_spec 0 (o + 6)); [|unfold msPerDay in *; lia];
            reflexivity).
  all: apply andb_false_iff in E; rewrite !Z.leb_gt in E; rewrite Hso in E.
  all: assert (Hpos : 0 <= o) by (unfold msPerDay in *; lia).
  all: destruct (Z.ltb_spec o (365 + leapFlag year)) as [Hlt|Hge].
  all: try (destruct (fields_of_offset year o (LocalTime tz s) Hloc (conj Hpos Hlt))
              as [Ey Em]; rewrite Ey, Em;
            destruct (Z.leb_spec o 0); [|reflexivity];
            destruct (Z.leb_spec 0 (o + 6)); [|reflexivity];
            cbn [andb]; f_equal; unfold monthOfDay;
            destruct (Z.ltb_spec o 31); [reflexivity|lia]).
  all: destruct (january_fields (year + 1) (o - DaysInYear year + 1) (LocalTime tz s))
         as (Ey & Em & _);
    [rewrite DayFromYear_succ, Hloc; lia
    |rewrite leapFlag_DaysInYear; lia|].
  all: rewrite Ey, Em.
  all: destruct (Z.leb_spec o 0); [lia|reflexivity].
Qed.

(** The week number of any day of a week is computed from the Thursday
    of the week. *)
Lemma getWeekNumber_weekday tz s i :
  eastOfUTC tz -> TimeWithinDay s = 0 -> WeekDay s = 1 -> 0 <= i <= 6 ->
  ~ (0 <= YearFromTime (LocalTime tz (s + i * msPerDay)) <= 99) ->
  getWeekNumber tz (s + i * msPerDay)
  = ceilDiv (s + 3 * msPerDay
             - Date_UTC (getUTCFullYear (s + 3 * msPerDay)) 0 1 + msPerDay)
      (7 * msPerDay).
Proof.
  intros Htz Hm Hmon Hi Hloc.
  assert (Hmi : TimeWithinDay (s + i * msPerDay) = 0)
    by (unfold TimeWithinDay, msPerDay in *; zdiv).
  assert (Hd0 : Date_UTC (getFullYear tz (s + i * msPerDay))
                  (getMonth tz (s + i * msPerDay)) (getDate tz (s + i * msPerDay))
                = s + i * msPerDay).
  { unfold getFullYear, getMonth, getDate.
    rewrite Date_UTC_of_fields by exact Hloc.
    rewrite Day_LocalTime_east by (exact Htz || exact Hmi).
    apply midnight_eq. exact Hmi. }
  unfold getWeekNumber. cbv zeta. rewrite Hd0.
  assert (Hn : orSeven (getUTCDay (s + i * msPerDay)) = i + 1).
  { unfold getUTCDay. rewrite WeekDay_shift, Hmon. unfold orSeven. zcases; zdiv. }
  rewrite Hn.
  replace (getUTCDate (s + i * msPerDay) + 4 - (i + 1))
    with (getUTCDate (s + i * msPerDay) + (3 - i)) by lia.
  rewrite setUTCDate_shift.
  replace (s + i * msPerDay + (3 - i) * msPerDay) with (s + 3 * msPerDay) by lia.
  reflexivity.
Qed.

End QuarterFormFacts.

(** ** The lists of weeks of the quarters, east of Greenwich *)

Module QuarterListFacts.
Import JSDate JSDateFacts DateUtils DateUtilsFacts ISOStringFacts Spec.
Import QuarterFacts QuarterFormFacts.

#[local] Opaque YearFromTime MonthFromTime DateFromTime Day getWeekBounds.

Lemma inQuarter_quarterOfOffset year o l quarter :
  (wq_year (quarterOfOffset year o l) =? year)
  && (wq_quarter (quarterOfOffset year o l) =? quarter)
  = inQuarter o l quarter.
Proof.
  unfold quarterOfOffset, inQuarter.
  destruct ((o <=? 0) && (0 <=? o + 6)); [|destruct (o <? 365 + l)];
    cbn [wq_year wq_quarter].
  - rewrite Z.eqb_refl. apply Z.eqb_sym.
  - by rewrite Z.eqb_refl.
  - destruct (Z.eqb_spec (year + 1) year); [lia|reflexivity].
Qed.

(** Week 53 of the year before is taken into the first quarter exactly
    when its Monday is a day of [year]. *)
Lemma spills_getQuarterForWeek tz year :
  eastOfUTC tz -> validYear year ->
  (wq_year (getQuarterForWeek tz (year - 1) 53) =? year)
  && (wq_quarter (getQuarterForWeek tz (year - 1) 53) =? 1)
  = spills year.
Proof.
  intros Htz Hy. unfold validYear in Hy.
  rewrite (getQuarterForWeek_east tz (year - 1) 53 Htz)
    by (unfold validWeek; lia).
  destruct (week1Offset_range (year - 1)) as [Ha _].
  destruct (leapFlag_cases (year - 1)) as [Hl|Hl].
  all: unfold spills, quarterOfOffset; rewrite Hl.
  all: generalize dependent (week1Offset (year - 1)); intros a Ha.
  all: destruct (Z.leb_spec (a + 7 * (53 - 1)) 0); [lia|]; cbn [andb].
  all: match goal with
       | |- context [?x <? ?y] => destruct (Z.ltb_spec x y)
       end; cbn [wq_year wq_quarter].
  all: zcases; simpl; lia.
Qed.

Lemma getWeeksInQuarter_east tz year quarter :
  eastOfUTC tz -> validYear year ->
  getWeeksInQuarter tz year quarter
  = sortNum ((if (quarter =? 1) && spills year then [53] else [])
             ++ ownWeeks (week1Offset year) (leapFlag year) quarter).
Proof.
  intros Htz Hy. unfold getWeeksInQuarter. cbv zeta.
  rewrite (spills_getQuarterForWeek tz year Htz Hy).
  assert (Hf : List.filter
                 (fun weekNumber =>
                    (wq_year (getQuarterForWeek tz year weekNumber) =? year)
                    && (wq_quarter (getQuarterForWeek tz year weekNumber) =? quarter))
                 (seqZ 1 53)
               = ownWeeks (week1Offset year) (leapFlag year) quarter).
  { unfold ownWeeks. apply List.filter_ext_in. intros w Hw.
    apply list_elem_of_In, elem_of_seqZ in Hw.
    rewrite (getQuarterForWeek_east tz year w Htz)
      by (unfold validYear in Hy; unfold validWeek; lia).
    apply inQuarter_quarterOfOffset. }
  rewrite Hf. destruct (quarter =? 1), (spills year); reflexivity.
Qed.

(** From one year to the next, week 1 starts one day earlier in the
    year, two after a leap year, modulo a week. *)
Lemma week1Offset_succ year :
  ~ (0 <= year <= 99) -> ~ (0 <= year + 1 <= 99) ->
  (week1Offset (year + 1) - week1Offset year + 1 + leapFlag year) mod 7 = 0.
Proof.
  intros Hy Hy1.
  destruct (week1Offset_range year) as [_ H0].
  destruct (week1Offset_range (year + 1)) as [_ H1].
  rewrite MakeFullYear_valid in H0, H1 by assumption.
  rewrite DayFromYear_succ, leapFlag_DaysInYear in H1.
  revert H0 H1. generalize (DayFromYear year), (week1Offset year),
    (week1Offset (year + 1)), (leapFlag year). intros D a a1 l H0 H1. zdiv.
Qed.

(** When week 53 of the year before spills, week 1 starts on one of the
    first three days of the year. *)
Lemma spills_week1Offset year :
  validYear year -> spills year = true -> 0 <= week1Offset year <= 2.
Proof.
  intros Hy Hs. unfold validYear in Hy. unfold spills in Hs.
  apply Z.leb_le in Hs.
  pose proof (week1Offset_succ (year - 1) ltac:(lia)) as H.
  replace (year - 1 + 1) with year in H by lia.
  specialize (H ltac:(lia)).
  destruct (week1Offset_range year) as [Ha _].
  destruct (week1Offset_range (year - 1)) as [Ha' _].
  destruct (leapFlag_cases (year - 1)) as [Hl|Hl]; rewrite Hl in *.
  all: revert H Hs Ha Ha'; generalize (week1Offset year), (week1Offset (year - 1));
    intros a a' H Hs Ha Ha'; zdiv.
Qed.

(** The number of weeks of a quarter, by the day on which week 1 starts
    and the length of the year. *)
Lemma ownWeeks_length a l quarter :
  -3 <= a <= 3 -> 0 <= l <= 1 -> 1 <= quarter <= 4 ->
  (length (ownWeeks a l quarter) = 13%nat \/ length (ownWeeks a l quarter) = 14%nat)
  /\ (quarter = 2 -> length (ownWeeks a l quarter) = 13%nat)
  /\ (quarter = 1 -> 0 <= a -> length (ownWeeks a l quarter) = 13%nat).
Proof.
  intros Ha Hl Hq.
  assert (a = -3 \/ a = -2 \/ a = -1 \/ a = 0 \/ a = 1 \/ a = 2 \/ a = 3)
    as [->|[->|[->|[->|[->|[->| ->]]]]]] by lia.
  all: assert (l = 0 \/ l = 1) as [->| ->] by lia.
  all: assert (quarter = 1 \/ quarter = 2 \/ quarter = 3 \/ quarter = 4)
         as [->|[->|[->| ->]]] by lia.
  all: match goal with
       | |- context [length ?w] =>
           let n := eval vm_compute in (length w) in
           replace (length w) with n by (vm_compute; reflexivity)
       end.
  all: repeat split; intros; lia.
Qed.

Lemma sortNum_length l : length (sortNum l) = length l.
Proof. unfold sortNum. by rewrite merge_sort_Permutation. Qed.

Lemma getWeeksInQuarter_length tz year quarter :
  eastOfUTC tz -> validYear year -> 1 <= quarter <= 4 ->
  (length (getWeeksInQuarter tz year quarter) = 13%nat
   \/ length (getWeeksInQuarter tz year quarter) = 14%nat)
  /\ (quarter = 2 -> length (getWeeksInQuarter tz year quarter) = 13%nat).
Proof.
  intros Htz Hy Hq.
  rewrite (getWeeksInQuarter_east tz year quarter Htz Hy), sortNum_length.
  destruct (week1Offset_range year) as [Ha _].
  assert (Hl : 0 <= leapFlag year <= 1) by (destruct (leapFlag_cases year); lia).
  destruct (ownWeeks_length (week1Offset year) (leapFlag year) quarter Ha Hl Hq)
    as (H1 & H2 & H3).
  destruct (Z.eqb_spec quarter 1) as [E|E]; cbn [andb].
  - destruct (spills year) eqn:Es.
    + pose proof (spills_week1Offset year Hy Es) as Hs.
      cbn [app length]. rewrite (H3 E) by lia. split; [by right|lia].
    + cbn [app]. split; [exact H1|exact H2].
  - cbn [app]. split; [exact H1|exact H2].
Qed.

(** Week 53 is never one of the weeks of the first quarter of its own
    year. *)
Lemma ownWeeks_53 a l : -3 <= a -> 0 <= l <= 1 -> 53 ∉ ownWeeks a l 1.
Proof.
  intros Ha Hl Hin. unfold ownWeeks in Hin.
  apply list_elem_of_In in Hin. apply List.filter_In in Hin as [_ Hin].
  unfold inQuarter in Hin.
  destruct (Z.leb_spec (a + 7 * (53 - 1)) 0); [lia|]. cbn [andb] in Hin.
  destruct (Z.ltb_spec (a + 7 * (53 - 1)) (365 + l)); [|discriminate].
  assert (E : monthOfDay (a + 7 * (53 - 1)) l = 11)
    by (unfold monthOfDay; zcases; lia).
  rewrite E in Hin. discriminate Hin.
Qed.

Lemma getWeeksInQuarter_NoDup tz year quarter :
  eastOfUTC tz -> validYear year -> NoDup (getWeeksInQuarter tz year quarter).
Proof.
  intros Htz Hy.
  rewrite (getWeeksInQuarter_east tz year quarter Htz Hy).
  unfold sortNum. rewrite merge_sort_Permutation.
  assert (Hown : NoDup (ownWeeks (week1Offset year) (leapFlag year) quarter)).
  { unfold ownWeeks. apply NoDup_ListNoDup, List.NoDup_filter, NoDup_ListNoDup.
    apply NoDup_seqZ. }
  destruct (Z.eqb_spec quarter 1) as [->|E]; cbn [andb]; [|exact Hown].
  destruct (spills year); [|exact Hown].
  cbn [app]. apply NoDup_cons. split; [|exact Hown].
  destruct (week1Offset_range year) as [Ha _].
  apply ownWeeks_53; [lia|]. destruct (leapFlag_cases year); lia.
Qed.

(** The quarter of a week of the year does not decrease with the day on
    which the week starts. *)
Lemma quarterOfOffset_mono year o1 o2 l :
  -3 <= o1 <= o2 -> o2 < 365 + l ->
  wq_quarter (quarterOfOffset year o1 l) <= wq_quarter (quarterOfOffset year o2 l).
Proof.
  intros Ho H2. unfold quarterOfOffset.
  pose proof (monthOfDay_mono o1 o2 l ltac:(lia)) as Hm.
  assert (H0 : 0 <= monthOfDay o2 l) by (unfold monthOfDay; zcases; lia).
  destruct (Z.leb_spec o1 0), (Z.leb_spec 0 (o1 + 6)), (Z.leb_spec o2 0),
    (Z.leb_spec 0 (o2 + 6)), (Z.ltb_spec o1 (365 + l)), (Z.ltb_spec o2 (365 + l));
    cbn [andb wq_quarter]; try lia; zdiv.
Qed.

(** Among the weeks 1 to 52, those of an earlier quarter come first. *)
Lemma getWeeksInQuarter_blocks tz year q1 q2 w1 w2 :
  eastOfUTC tz -> validYear year ->
  w1 ∈ getWeeksInQuarter tz year q1 -> w2 ∈ getWeeksInQuarter tz year q2 ->
  w1 <= 52 -> w2 <= 52 -> q1 < q2 -> w1 < w2.
Proof.
  intros Htz Hy H1 H2 Hw1 Hw2 Hq. unfold validYear in Hy.
  apply getWeeksInQuarter_elem in H1 as [[Hr1 Hg1]|(-> & _)]; [|lia].
  apply getWeeksInQuarter_elem in H2 as [[Hr2 Hg2]|(-> & _)]; [|lia].
  rewrite (getQuarterForWeek_east tz year w1 Htz) in Hg1 by (unfold validWeek; lia).
  rewrite (getQuarterForWeek_east tz year w2 Htz) in Hg2 by (unfold validWeek; lia).
  destruct (Z.lt_ge_cases w1 w2) as [|Hge]; [done|exfalso].
  destruct (week1Offset_range year) as [Ha _].
  assert (Hl : 0 <= leapFlag year <= 1) by (destruct (leapFlag_cases year); lia).
  pose proof (quarterOfOffset_mono year (week1Offset year + 7 * (w2 - 1))
                (week1Offset year + 7 * (w1 - 1)) (leapFlag year)
                ltac:(lia) ltac:(lia)) as Hm.
  rewrite Hg1, Hg2 in Hm. cbn [wq_quarter] in Hm. lia.
Qed.

End QuarterListFacts.

(** ** Reading back a date string *)

Module ParseFacts.
Import JSDate JSDateFacts DateUtils DateUtilsFacts ISOStringFacts Spec.

Lemma digitValue_digit n : 0 <= n <= 9 -> digitValue (digit n) = Some n.
Proof.
  intros H.
  destruct (digit_cases n H) as [->|[->|[->|[->|[->|[->|[->|[->|[->| ->]]]]]]]]];
    reflexivity.
Qed.

Lemma number2_digits n :
  0 <= n <= 99 -> number2 (digit (n / 10 mod 10)) (digit (n mod 10)) = Some n.
Proof.
  intros H. unfold number2. rewrite !digitValue_digit by zdiv.
  cbn [mbind option_bind]. f_equal. zdiv.
Qed.

Lemma number4_digits n :
  0 <= n <= 9999 ->
  number4 (digit (n / 1000 mod 10)) (digit (n / 100 mod 10))
    (digit (n / 10 mod 10)) (digit (n mod 10)) = Some n.
Proof.
  intros H. unfold number4, number2. rewrite !digitValue_digit by zdiv.
  cbn [mbind option_bind]. f_equal. zdiv.
Qed.

Lemma parseYear_digits n b c d rest :
  0 <= n <= 9 ->
  parseYear (String (digit n) (String b (String c (String d rest))))
  = y ← number4 (digit n) b c d; Some (y, rest).
Proof.
  intros H.
  destruct (digit_cases n H) as [->|[->|[->|[->|[->|[->|[->|[->|[->| ->]]]]]]]]];
    reflexivity.
Qed.

Lemma parseMonthDay_full m1 m2 d1 d2 rest :
  parseMonthDay
    (String "-" (String m1 (String m2 (String "-" (String d1 (String d2 rest))))))
  = m ← number2 m1 m2; d ← number2 d1 d2; Some (m, d, rest).
Proof. reflexivity. Qed.

Lemma parseTime_midnight : parseTime "T00:00:00" = Some (0, 0, 0).
Proof. reflexivity. Qed.

(** The date of a time is a day of its month. *)
Lemma DateFromTime_le_DaysInMonth t :
  DateFromTime t <= DaysInMonth (YearFromTime t) (MonthFromTime t).
Proof.
  pose proof (DayWithinYear_range t) as Hr.
  unfold DateFromTime, MonthFromTime, InLeapYear. cbv zeta.
  revert Hr. generalize (DayWithinYear t). generalize (YearFromTime t).
  intros Y d Hr.
  destruct (DaysInYear_cases Y) as [E|E]; rewrite E in Hr; rewrite E.
  all: zcases; cbn [daysBeforeMonth DaysInMonth]; rewrite ?E; simpl; lia.
Qed.

Lemma date_string_chars Y M D rest :
  (pad4 Y +:+ String "-" (pad2 M +:+ String "-" (pad2 D +:+ EmptyString))) +:+ rest
  = String (digit (Y / 1000 mod 10)) (String (digit (Y / 100 mod 10))
      (String (digit (Y / 10 mod 10)) (String (digit (Y mod 10))
        (String "-" (String (digit (M / 10 mod 10)) (String (digit (M mod 10))
          (String "-" (String (digit (D / 10 mod 10)) (String (digit (D mod 10))
            rest))))))))).
Proof. reflexivity. Qed.

Lemma Date_parse_fields tz Y M D :
  0 <= Y <= 9999 -> 0 <= M <= 11 -> 1 <= D <= 31 -> D <= DaysInMonth Y M ->
  Date_parse tz
    ((pad4 Y +:+ String "-" (pad2 (M + 1) +:+ String "-" (pad2 D +:+ EmptyString)))
       +:+ "T00:00:00")
  = Some (MakeDay Y M D * msPerDay - tz).
Proof.
  intros HY HM HD Hle. unfold Date_parse.
  rewrite date_string_chars.
  rewrite parseYear_digits by zdiv. rewrite (number4_digits Y HY).
  cbn [mbind option_bind].
  rewrite parseMonthDay_full, (number2_digits (M + 1)), (number2_digits D) by lia.
  cbn [mbind option_bind]. rewrite parseTime_midnight. cbn [mbind option_bind].
  replace (M + 1 - 1) with M by lia.
  destruct (Z.leb_spec 1 (M + 1)); [|lia].
  destruct (Z.leb_spec (M + 1) 12); [|lia].
  destruct (Z.leb_spec 1 D); [|lia].
  destruct (Z.leb_spec D (DaysInMonth Y M)); [|lia].
  cbn [andb]. change (validTime 0 0 0) with true. cbv iota.
  f_equal. unfold UTC, MakeDate, MakeTime. lia.
Qed.

(** A date string with a four-digit year is read back, as local time,
    as the local midnight of the day it names. *)
Lemma Date_parse_isoDatePart tz t :
  0 <= YearFromTime t <= 9999 ->
  Date_parse tz (isoDatePart t +:+ "T00:00:00") = Some (Day t * msPerDay - tz).
Proof.
  intros Hy. rewrite isoDatePart_4digit by exact Hy.
  rewrite Date_parse_fields;
    [|exact Hy|apply MonthFromTime_range|apply DateFromTime_range
     |apply DateFromTime_le_DaysInMonth].
  rewrite MakeDay_fields. do 2 f_equal. lia.
Qed.

Lemma isoDatePart_eq d :
  isoDatePart d
  = yearString (YearFromTime d) +:+ "-" +:+ pad2 (MonthFromTime d + 1)
      +:+ "-" +:+ pad2 (DateFromTime d).
Proof. reflexivity. Qed.

Lemma Day_local_midnight_west tz n :
  - msPerDay < tz <= 0 -> Day (n * msPerDay - tz) = n.
Proof. unfold Day, msPerDay. intros. zdiv. Qed.

Lemma Day_local_midnight_east tz n :
  0 < tz <= msPerDay -> Day (n * msPerDay - tz) = n - 1.
Proof. unfold Day, msPerDay. intros. zdiv. Qed.


End ParseFacts.

(** ** Further facts about the summaries *)

Module SummaryFacts.
Import JSDate JSDateFacts DateUtils DateUtilsFacts ISOStringFacts Compliance Spec.
Import ComplianceFacts.

#[local] Opaque YearFromTime MonthFromTime DateFromTime Day getWeekBounds
  isoDatePart.

Lemma countOffice_range l : 0 <= countOffice l <= Z.of_nat (length l).
Proof.
  unfold countOffice.
  pose proof (List.filter_length_le (fun d => isOffice (location d)) l). lia.
Qed.

(** *** One more office day *)

Lemma countOffice_mono l1 l2 :
  Forall2 (fun a b => isOffice (location a) = true -> isOffice (location b) = true)
    l1 l2 ->
  countOffice l1 <= countOffice l2.
Proof.
  unfold countOffice. induction 1 as [|a b l1 l2 Hab _ IH]; [done|]. simpl.
  destruct (isOffice (location a)) eqn:Ea.
  - rewrite Hab by done. simpl. lia.
  - destruct (isOffice (location b)); simpl; lia.
Qed.

Lemma newMap_filter_snoc f l e :
  newMap (List.filter f (l ++ [e]))
  = if f e then <[date e := e]> (newMap (List.filter f l))
    else newMap (List.filter f l).
Proof.
  rewrite List.filter_app. simpl.
  destruct (f e); [apply newMap_snoc|by rewrite app_nil_r].
Qed.

Lemma dayFor_insert_office m e d :
  location e = office -> isOffice (location (dayFor m d)) = true ->
  isOffice (location (dayFor (<[date e := e]> m) d)) = true.
Proof.
  intros He H. unfold dayFor in *. rewrite lookup_insert.
  destruct (decide (date e = toISODate d)); [simpl; by rewrite He|done].
Qed.

Lemma summaryOf_office_mono year weekNumber config allEntries e weekdays :
  location e = office ->
  officeDays (summaryOf year weekNumber config allEntries weekdays)
  <= officeDays (summaryOf year weekNumber config (allEntries ++ [e]) weekdays)
  /\ (isCompliant (summaryOf year weekNumber config allEntries weekdays) = true ->
      isCompliant (summaryOf year weekNumber config (allEntries ++ [e]) weekdays)
      = true).
Proof.
  intros He. unfold summaryOf. cbv zeta. cbn [officeDays isCompliant].
  rewrite newMap_filter_snoc.
  generalize (newMap
                (List.filter
                   (inRange (toISODate (start (getWeekBounds year weekNumber)))
                      (toISODate (end_ (getWeekBounds year weekNumber))))
                   allEntries)).
  generalize (inRange (toISODate (start (getWeekBounds year weekNumber)))
                (toISODate (end_ (getWeekBounds year weekNumber))) e).
  intros keep m.
  assert (Hle : countOffice (List.map (dayFor m) weekdays)
                <= countOffice
                     (List.map (dayFor (if keep then <[date e := e]> m else m))
                        weekdays)).
  { apply countOffice_mono. induction weekdays as [|d wds IH]; simpl; constructor;
      [|exact IH].
    destruct keep; [by apply dayFor_insert_office|done]. }
  split; [exact Hle|]. rewrite !Z.leb_le. lia.
Qed.

Lemma Forall2_same_index {A B C} (P : A -> B -> Prop) (Q : A -> C -> Prop)
    (R : B -> C -> Prop) l k1 k2 :
  (forall a b c, P a b -> Q a c -> R b c) ->
  Forall2 P l k1 -> Forall2 Q l k2 -> Forall2 R k1 k2.
Proof.
  intros H H1. revert k2.
  induction H1; intros k2 H2; inversion H2; subst; constructor; eauto.
Qed.

Lemma compliant_count_mono (l1 l2 : list WeekSummary) :
  Forall2 (fun a b => isCompliant a = true -> isCompliant b = true) l1 l2 ->
  (length (List.filter isCompliant l1) <= length (List.filter isCompliant l2))%nat.
Proof.
  induction 1 as [|a b l1 l2 Hab _ IH]; [done|]. simpl.
  destruct (isCompliant a) eqn:Ea.
  - rewrite Hab by done. simpl. lia.
  - destruct (isCompliant b); simpl; lia.
Qed.

(** The weekdays of a week and its summary, in every time zone. *)
Lemma calculateWeekSummary_form tz year weekNumber config allEntries :
  exists weekdays,
    getWeekdays tz year weekNumber = Some weekdays
    /\ calculateWeekSummary tz year weekNumber config allEntries
       = Some (summaryOf year weekNumber config allEntries weekdays).
Proof.
  destruct (getWeekdays_total tz year weekNumber) as [wds H].
  exists wds. split; [exact H|]. by apply calculateWeekSummary_summaryOf.
Qed.

Lemma calculateQuarterSummary_office_mono tz year quarter config allEntries e :
  location e = office ->
  exists qs qs',
    calculateQuarterSummary tz year quarter config allEntries = Some qs
    /\ calculateQuarterSummary tz year quarter config (allEntries ++ [e]) = Some qs'
    /\ Forall2 (fun ws ws' =>
                  officeDays ws <= officeDays ws'
                  /\ (isCompliant ws = true -> isCompliant ws' = true))
         (weeks qs) (weeks qs')
    /\ compliantWeeks qs <= compliantWeeks qs'
    /\ statusRank (status qs) <= statusRank (status qs').
Proof.
  intros He.
  destruct (calculateQuarterSummary_fields tz year quarter config allEntries)
    as (qs & Hq & Hw & Hc & _ & Hs).
  destruct (calculateQuarterSummary_fields tz year quarter config (allEntries ++ [e]))
    as (qs' & Hq' & Hw' & Hc' & _ & Hs').
  exists qs, qs'. split; [exact Hq|]. split; [exact Hq'|].
  assert (HF : Forall2 (fun ws ws' =>
                          officeDays ws <= officeDays ws'
                          /\ (isCompliant ws = true -> isCompliant ws' = true))
                 (weeks qs) (weeks qs')).
  { refine (Forall2_same_index _ _ _ _ _ _ _ Hw Hw').
    intros w ws ws' H1 H2. cbv beta in H1, H2.
    destruct (calculateWeekSummary_form tz year w config allEntries)
      as (wds & Hwds & E1).
    pose proof (calculateWeekSummary_summaryOf tz year w config (allEntries ++ [e])
                  wds Hwds) as E2.
    assert (ws = summaryOf year w config allEntries wds) as -> by congruence.
    assert (ws' = summaryOf year w config (allEntries ++ [e]) wds) as ->
        by congruence.
    apply summaryOf_office_mono. exact He. }
  split; [exact HF|].
  assert (Hcw : compliantWeeks qs <= compliantWeeks qs').
  { rewrite Hc, Hc'. apply Nat2Z.inj_le, compliant_count_mono.
    apply (Forall2_impl _ _ _ _ HF). intros ws ws' [_ H]. exact H. }
  split; [exact Hcw|].
  rewrite Hs, Hs'. unfold statusRank.
  destruct (Z.leb_spec (requiredCompliantWeeksPerQuarter config) (compliantWeeks qs)),
    (Z.leb_spec (requiredCompliantWeeksPerQuarter config) (compliantWeeks qs')),
    (Z.leb_spec (warningThresholdWeeks config) (compliantWeeks qs)),
    (Z.leb_spec (warningThresholdWeeks config) (compliantWeeks qs')); lia.
Qed.

(** *** The order of the entries *)

Lemma List_filter_Permutation {A} (f : A -> bool) (l1 l2 : list A) :
  l1 ≡ₚ l2 -> List.filter f l1 ≡ₚ List.filter f l2.
Proof.
  induction 1 as [|x l1 l2 _ IH|x y l|l1 l2 l3 _ IH1 _ IH2]; simpl.
  - done.
  - destruct (f x); [by constructor|done].
  - destruct (f x), (f y); try done. apply perm_swap.
  - by etrans.
Qed.

Lemma NoDup_map_filter (f : DayEntry -> bool) l :
  NoDup (List.map date l) -> NoDup (List.map date (List.filter f l)).
Proof.
  induction l as [|a l IH]; simpl; intros H; [done|].
  apply NoDup_cons in H as [Hx H].
  destruct (f a); simpl; [|by apply IH].
  apply NoDup_cons. split; [|by apply IH].
  intros Hin. apply Hx.
  apply list_elem_of_In, List.in_map_iff in Hin as (y & Ey & Hy).
  apply List.filter_In in Hy as [Hy _].
  apply list_elem_of_In, List.in_map_iff. by exists y.
Qed.

Lemma filter_hasDate_NoDup k l :
  NoDup (List.map date l) -> (length (List.filter (hasDate k) l) <= 1)%nat.
Proof.
  induction l as [|x l IH]; intros Hnd; [simpl; lia|].
  simpl in Hnd. apply NoDup_cons in Hnd as [Hx Hnd]. simpl.
  destruct (hasDate k x) eqn:E; [|by apply IH]. simpl.
  destruct (List.filter (hasDate k) l) as [|y r] eqn:Ef; [simpl; lia|].
  exfalso. apply Hx.
  assert (Hy : In y (List.filter (hasDate k) l)) by (rewrite Ef; by left).
  apply List.filter_In in Hy as [Hy1 Hy2].
  apply hasDate_true in E, Hy2. rewrite E, <- Hy2.
  apply list_elem_of_In, List.in_map, Hy1.
Qed.

Lemma newMap_Permutation l1 l2 :
  NoDup (List.map date l1) -> l1 ≡ₚ l2 -> newMap l1 = newMap l2.
Proof.
  intros Hnd Hp. apply map_eq. intros k. rewrite !newMap_lookup.
  pose proof (filter_hasDate_NoDup k l1 Hnd) as Hlen.
  pose proof (List_filter_Permutation (hasDate k) _ _ Hp) as Hf.
  destruct (List.filter (hasDate k) l1) as [|a [|b r]]; [| |simpl in Hlen; lia].
  - apply Permutation_nil in Hf. by rewrite Hf.
  - apply Permutation_length_1_inv in Hf. by rewrite Hf.
Qed.

Lemma summaryOf_Permutation year weekNumber config entries1 entries2 weekdays :
  NoDup (List.map date entries1) -> entries1 ≡ₚ entries2 ->
  summaryOf year weekNumber config entries1 weekdays
  = summaryOf year weekNumber config entries2 weekdays.
Proof.
  intros Hnd Hp. unfold summaryOf. cbv zeta.
  rewrite (newMap_Permutation
             (List.filter
                (inRange (toISODate (start (getWeekBounds year weekNumber)))
                   (toISODate (end_ (getWeekBounds year weekNumber)))) entries1)
             (List.filter
                (inRange (toISODate (start (getWeekBounds year weekNumber)))
                   (toISODate (end_ (getWeekBounds year weekNumber)))) entries2)).
  - reflexivity.
  - apply NoDup_map_filter, Hnd.
  - apply List_filter_Permutation, Hp.
Qed.

Lemma calculateWeekSummary_Permutation tz year weekNumber config entries1 entries2 :
  NoDup (List.map date entries1) -> entries1 ≡ₚ entries2 ->
  calculateWeekSummary tz year weekNumber config entries1
  = calculateWeekSummary tz year weekNumber config entries2.
Proof.
  intros Hnd Hp.
  destruct (getWeekdays_total tz year weekNumber) as [wds H].
  rewrite !(calculateWeekSummary_summaryOf tz year weekNumber config _ wds H).
  f_equal. by apply summaryOf_Permutation.
Qed.

Lemma calculateQuarterSummary_Permutation tz year quarter config entries1 entries2 :
  NoDup (List.map date entries1) -> entries1 ≡ₚ entries2 ->
  calculateQuarterSummary tz year quarter config entries1
  = calculateQuarterSummary tz year quarter config entries2.
Proof.
  intros Hnd Hp. unfold calculateQuarterSummary. cbv zeta.
  rewrite (mapM_ext
             (fun weekNumber => calculateWeekSummary tz year weekNumber config entries1)
             (fun weekNumber => calculateWeekSummary tz year weekNumber config entries2));
    [reflexivity|].
  intros w. by apply calculateWeekSummary_Permutation.
Qed.

(** *** Entries of other days *)

Lemma lookupDay_other pre e post k :
  date e <> k -> lookupDay (pre ++ e :: post) k = lookupDay (pre ++ post) k.
Proof.
  intros H. unfold lookupDay. rewrite !List.filter_app. simpl.
  destruct (hasDate k e) eqn:E; [|done]. by apply hasDate_true in E.
Qed.

(** The days of two different weeks of a year have different date
    strings. *)
Lemma week_days_disjoint year w w' i j :
  validYear year -> validWeek w -> validWeek w' -> 0 <= i <= 6 -> 0 <= j <= 6 ->
  toISODate (start (getWeekBounds year w) + i * msPerDay)
  = toISODate (start (getWeekBounds year w') + j * msPerDay) ->
  w = w' /\ i = j.
Proof.
  intros Hy Hw Hw' Hi Hj E. unfold toISODate in E.
  apply isoDatePart_inj in E;
    [|exact (week_day_year year w i Hy Hw Hi)
     |exact (week_day_year year w' j Hy Hw' Hj)].
  rewrite !Day_shift in E.
  destruct (getWeekBounds_start_Day year w) as (wd & _ & _ & Hwd & Hd).
  destruct (getWeekBounds_start_Day year w') as (wd' & _ & _ & Hwd' & Hd').
  assert (wd' = wd) as -> by congruence.
  rewrite Hd, Hd' in E. lia.
Qed.

Lemma calculateWeekSummary_unrelated tz year weekNumber config pre e post :
  eastOfUTC tz -> validYear year -> validWeek weekNumber ->
  date e ∉ weekdayStrings year weekNumber ->
  calculateWeekSummary tz year weekNumber config (pre ++ e :: post)
  = calculateWeekSummary tz year weekNumber config (pre ++ post).
Proof.
  intros Htz Hy Hw He.
  rewrite !(calculateWeekSummary_mondayToFriday tz year weekNumber config _ Htz).
  f_equal. apply summaryOf_ext.
  rewrite !(summaryOf_days_east year weekNumber config _ Hy Hw).
  apply List.map_ext_in. intros k Hk. apply lookupDay_other.
  intros E. apply He. rewrite E. by apply list_elem_of_In.
Qed.

(** *** No entries at all *)

Lemma calculateQuarterSummary_ids tz year quarter config allEntries qs :
  calculateQuarterSummary tz year quarter config allEntries = Some qs ->
  qs_quarter qs = quarter /\ qs_year qs = year.
Proof.
  unfold calculateQuarterSummary. cbv zeta.
  destruct (mapM _ (getWeeksInQuarter tz year quarter)) as [wks|];
    cbn [mbind option_bind]; [|discriminate].
  intros [= <-]. done.
Qed.

Lemma calculateQuarterSummary_no_entries tz year quarter config :
  - msPerDay <= tz < msPerDay -> 1 <= requiredOfficeDaysPerWeek config ->
  exists qs,
    calculateQuarterSummary tz year quarter config [] = Some qs
    /\ qs_quarter qs = quarter /\ qs_year qs = year
    /\ compliantWeeks qs = 0
    /\ Forall (fun ws =>
                 officeDays ws = 0 /\ isCompliant ws = false
                 /\ Forall (fun d => location d = home) (days ws))
         (weeks qs).
Proof.
  intros Htz Hreq.
  destruct (calculateQuarterSummary_fields tz year quarter config [])
    as (qs & Hq & Hw & Hc & _ & _).
  exists qs. split; [exact Hq|].
  destruct (calculateQuarterSummary_ids tz year quarter config [] qs Hq) as [H1 H2].
  split; [exact H1|]. split; [exact H2|].
  assert (HF : Forall (fun ws =>
                         officeDays ws = 0 /\ isCompliant ws = false
                         /\ Forall (fun d => location d = home) (days ws))
                 (weeks qs)).
  { revert Hw. generalize (weeks qs), (getWeeksInQuarter tz year quarter).
    intros wks ns Hw. induction Hw as [|w ws ns wks Hws _ IH]; constructor; [|exact IH].
    destruct (default_fill_core tz year w config [] Htz Hreq)
      as (ws0 & wds & Hc0 & _ & _ & Ho & Hi & _ & Hh).
    { intros e0 He0. by apply elem_of_nil in He0. }
    assert (ws = ws0) as -> by congruence. done. }
  split; [|exact HF].
  rewrite Hc. clear Hc Hw Hq H1 H2.
  induction HF as [|ws wks (_ & Hi & _) _ IH]; [done|].
  simpl. by rewrite Hi.
Qed.

End SummaryFacts.

(** ** Facts about the toggle of a day *)

Module WeekCardFacts.
Import JSDate DateUtils Compliance WeekCard Spec ComplianceFacts.

Lemma handleToggle_eq localWeek dateStr currentLocation :
  handleToggle localWeek dateStr currentLocation
  = Some ({| date := dateStr; location := nextLocation currentLocation;
             notes := None |},
          {| ws_weekNumber := ws_weekNumber localWeek;
             ws_year := ws_year localWeek;
             startDate := startDate localWeek;
             endDate := endDate localWeek;
             officeDays :=
               countOffice
                 (List.map
                    (fun d => if String.eqb (date d) dateStr
                              then withLocation d (nextLocation currentLocation)
                              else d)
                    (days localWeek));
             isCompliant := isCompliant localWeek;
             days :=
               List.map
                 (fun d => if String.eqb (date d) dateStr
                           then withLocation d (nextLocation currentLocation)
                           else d)
                 (days localWeek) |}).
Proof. destruct currentLocation; reflexivity. Qed.

Lemma countOffice_dayView l1 l2 :
  List.map dayView l1 = List.map dayView l2 -> countOffice l1 = countOffice l2.
Proof.
  unfold countOffice. revert l2.
  induction l1 as [|a l1 IH]; intros [|b l2] E; try discriminate; [done|].
  cbn [List.map] in E.
  assert (Eab : dayView a = dayView b) by congruence.
  assert (E' : List.map dayView l1 = List.map dayView l2) by congruence.
  apply IH in E'.
  assert (El : location a = location b) by (unfold dayView in Eab; congruence).
  simpl. rewrite El. destruct (isOffice (location b)); simpl; lia.
Qed.

(** The record of a date once an entry for [dateStr] is logged last. *)
Lemma lookupDay_snoc allEntries e k :
  lookupDay (allEntries ++ [e]) k
  = if String.eqb (date e) k then e else lookupDay allEntries k.
Proof.
  unfold lookupDay. rewrite List.filter_app. simpl. unfold hasDate at 2.
  destruct (String.eqb (date e) k); [by rewrite last_snoc|by rewrite app_nil_r].
Qed.

Lemma toggled_days_dayView allEntries dateStr newLocation (ks : list string) :
  List.map dayView
    (List.map
       (fun d => if String.eqb (date d) dateStr then withLocation d newLocation else d)
       (List.map (lookupDay allEntries) ks))
  = List.map dayView
      (List.map
         (lookupDay
            (allEntries
               ++ [{| date := dateStr; location := newLocation; notes := None |}]))
         ks).
Proof.
  rewrite !List.map_map. apply List.map_ext. intros k.
  rewrite lookupDay_snoc, lookupDay_date. cbn [date].
  rewrite (String.eqb_sym dateStr k).
  destruct (String.eqb k dateStr) eqn:E; [|done].
  apply String.eqb_eq in E. subst k.
  unfold dayView, withLocation. cbn [date location].
  by rewrite lookupDay_date.
Qed.

End WeekCardFacts.

(** ** The properties of the specification *)

Import JSDate JSDateFacts DateUtils DateUtilsFacts ISOStringFacts.
Import Compliance ComplianceFacts QuarterFacts Spec.

(** Known dates, as a check of the date algorithms: the epoch, two leap
    days, the weekday of 2025-01-01 (a Wednesday), and ISO week numbers
    around the 53-week year 2020. *)
Example known_dates :
  Date_UTC 1970 0 1 = 0
  /\ Date_UTC 2000 1 29 = 951782400000
  /\ Date_UTC 2025 0 1 = 1735689600000
  /\ getUTCDay (Date_UTC 2025 0 1) = 3
  /\ toISODate 1709164800000 = "2024-02-29"
  /\ toISODate (Date_UTC 1900 2 0) = "1900-02-28"
  /\ getWeekNumber 0 (Date_UTC 2020 11 31) = 53
  /\ getWeekNumber 0 (Date_UTC 2021 0 3) = 53
  /\ getWeekNumber 0 (Date_UTC 2021 0 4) = 1
  /\ getWeekNumber 0 (Date_UTC 2024 11 30) = 1.
Proof. repeat apply conj; vm_compute; reflexivity. Qed.

(** Year, month and date depend on the day number only. *)
Lemma fields_of_Day t1 t2 :
  Day t1 = Day t2 ->
  YearFromTime t1 = YearFromTime t2
  /\ MonthFromTime t1 = MonthFromTime t2
  /\ DateFromTime t1 = DateFromTime t2.
Proof.
  intros Hd.
  assert (Ey : YearFromTime t1 = YearFromTime t2)
    by (unfold YearFromTime; by rewrite Hd).
  assert (El : InLeapYear t1 = InLeapYear t2) by (unfold InLeapYear; by rewrite Ey).
  assert (Ew : DayWithinYear t1 = DayWithinYear t2)
    by (unfold DayWithinYear; by rewrite Ey, Hd).
  assert (Em : MonthFromTime t1 = MonthFromTime t2)
    by (rewrite !MonthFromTime_monthOfDay; by rewrite Ew, El).
  repeat split; try assumption.
  unfold DateFromTime. by rewrite Ew, Em, El.
Qed.

(** [new Date(year, 0, 1)] is January 1st of [year] in local time. *)
Lemma Date_new_jan1_fields tz year :
  ~ (0 <= year <= 99) ->
  getFullYear tz (Date_new tz year 0 1) = year
  /\ getMonth tz (Date_new tz year 0 1) = 0
  /\ getDate tz (Date_new tz year 0 1) = 1.
Proof.
  intros Hy. unfold getFullYear, getMonth, getDate, Date_new, LocalTime, UTC.
  rewrite MakeFullYear_valid by exact Hy.
  replace (MakeDate (MakeDay year 0 1) 0 - tz + tz)
    with (MakeDay year 0 1 * msPerDay) by (unfold MakeDate; lia).
  apply january_fields; [|lia].
  rewrite Day_midnight. apply MakeDay_january.
Qed.

Lemma week1_2025_start : start (getWeekBounds 2025 1) = 1735516800000.
Proof. vm_compute. reflexivity. Qed.

Lemma week1_2025_end : end_ (getWeekBounds 2025 1) = 1736035200000.
Proof. vm_compute. reflexivity. Qed.

(** In every time zone in use, the Monday of week 1 of 2025 is a day of
    December 2024. *)
Lemma week1_2025_monday_local tz :
  civilOffset tz ->
  getFullYear tz 1735516800000 = 2024 /\ getMonth tz 1735516800000 = 11.
Proof.
  intros Htz. unfold civilOffset in Htz. unfold getFullYear, getMonth.
  assert (Hd : Day (LocalTime tz 1735516800000) = Day (20087 * msPerDay)
               \/ Day (LocalTime tz 1735516800000) = Day (20086 * msPerDay)).
  { rewrite !Day_midnight. unfold Day, LocalTime, msPerDay. zdiv. }
  destruct Hd as [Hd|Hd]; apply fields_of_Day in Hd as (-> & -> & _);
    split; vm_compute; reflexivity.
Qed.

Lemma getQuarterForWeek_2025_1 tz :
  civilOffset tz ->
  getQuarterForWeek tz 2025 1 = {| wq_year := 2025; wq_quarter := 1 |}.
Proof.
  intros Htz. unfold civilOffset in Htz. unfold getQuarterForWeek. cbv zeta.
  rewrite week1_2025_start, week1_2025_end.
  assert (Hj : Date_new tz 2025 0 1 = 1735689600000 - tz) by reflexivity.
  rewrite Hj.
  destruct (Z.leb_spec 1735516800000 (1735689600000 - tz)); [|lia].
  destruct (Z.leb_spec (1735689600000 - tz) 1736035200000); [|lia].
  reflexivity.
Qed.

(** C1 (the code departs from it). Week 14 of 2024 runs from Monday
    2024-04-01 to Sunday 2024-04-07 and does not hold January 1st; its
    Monday is a day of April 2024, of the second quarter. On a host five
    hours west of UTC [getQuarterForWeek] returns (2024, Q1): the start
    of the week is a UTC midnight, and [getFullYear] and [getQuarter] read
    it in local time, where it is Sunday 2024-03-31. On a host in UTC the
    result is (2024, Q2). Week 1 of 2025, the example of the claim, is
    (2025, Q1) on both hosts. *)
Theorem getQuarterForWeek_2024_14_west_of_UTC :
  toISODate (start (getWeekBounds 2024 14)) = "2024-04-01"
  /\ toISODate (end_ (getWeekBounds 2024 14)) = "2024-04-07"
  /\ getUTCDay (start (getWeekBounds 2024 14)) = 1
  /\ (start (getWeekBounds 2024 14) <=? Date_new (-18000000) 2024 0 1)
     && (Date_new (-18000000) 2024 0 1 <=? end_ (getWeekBounds 2024 14)) = false
  /\ (getUTCFullYear (start (getWeekBounds 2024 14)),
      getUTCMonth (start (getWeekBounds 2024 14)) / 3 + 1) = (2024, 2)
  /\ getQuarterForWeek (-18000000) 2024 14 = {| wq_year := 2024; wq_quarter := 1 |}
  /\ (getFullYear (-18000000) (start (getWeekBounds 2024 14)),
      getMonth (-18000000) (start (getWeekBounds 2024 14)),
      getDate (-18000000) (start (getWeekBounds 2024 14)),
      getDay (-18000000) (start (getWeekBounds 2024 14))) = (2024, 2, 31, 0)
  /\ getQuarterForWeek 0 2024 14 = {| wq_year := 2024; wq_quarter := 2 |}
  /\ getQuarterForWeek (-18000000) 2025 1 = {| wq_year := 2025; wq_quarter := 1 |}
  /\ getQuarterForWeek 0 2025 1 = {| wq_year := 2025; wq_quarter := 1 |}.
Proof. repeat apply conj; vm_compute; reflexivity. Qed.

(** C2. For a valid year and a week number from 1 to 53, the start of the
    week is January 4th of the year moved back by (weekday - 1) days,
    weekday counted Monday = 1 to Sunday = 7, and forward by
    (weekNumber - 1) * 7 days; the end is the start plus 6 days. The start
    is a Monday and the end a Sunday. Week 1 of 2025 runs from 2024-12-30
    to 2025-01-05. *)
Theorem getWeekBounds_anchor (year weekNumber : Z) :
  validYear year -> validWeek weekNumber ->
  let jan4 := Date_UTC year 0 4 in
  let weekday := orSeven (getUTCDay jan4) in
  let b := getWeekBounds year weekNumber in
  (getUTCFullYear jan4 = year /\ getUTCMonth jan4 = 0 /\ getUTCDate jan4 = 4)
  /\ 1 <= weekday <= 7
  /\ start b = jan4 - (weekday - 1) * msPerDay + (weekNumber - 1) * 7 * msPerDay
  /\ end_ b = start b + 6 * msPerDay
  /\ getUTCDay (start b) = 1
  /\ getUTCDay (end_ b) = 0
  /\ toISODate (start (getWeekBounds 2025 1)) = "2024-12-30"
  /\ toISODate (end_ (getWeekBounds 2025 1)) = "2025-01-05".
Proof.
  intros Hy Hw jan4 weekday b.
  split.
  { unfold getUTCFullYear, getUTCMonth, getUTCDate.
    apply january_fields; [|lia]. unfold jan4.
    rewrite Date_UTC_january_Day, MakeFullYear_valid; [lia|].
    unfold validYear in Hy. lia. }
  split; [apply orSeven_WeekDay|].
  split; [unfold b, weekday, jan4; rewrite getWeekBounds_start; lia|].
  split; [apply getWeekBounds_end|].
  split; [apply getWeekBounds_start_Monday|].
  split; [|split; vm_compute; reflexivity].
  unfold getUTCDay, b. rewrite getWeekBounds_end, WeekDay_shift.
  unfold getUTCDay. rewrite getWeekBounds_start_Monday. reflexivity.
Qed.

Lemma getWeekBounds_anchor_witness :
  validYear 2026 /\ validWeek 53
  /\ toISODate (start (getWeekBounds 2026 53)) = "2026-12-28"
  /\ end_ (getWeekBounds 2026 53) = start (getWeekBounds 2026 53) + 6 * msPerDay.
Proof.
  assert (Hy : validYear 2026) by (unfold validYear; lia).
  assert (Hw : validWeek 53) by (unfold validWeek; lia).
  split; [exact Hy|]. split; [exact Hw|].
  split; [vm_compute; reflexivity|].
  apply (getWeekBounds_anchor 2026 53 Hy Hw).
Defined.

(** C9 (the code departs from it). The Monday of week 2 of 2025 is
    2025-01-06, and the ISO rule leaves it in 2025. On a host five hours
    west of UTC [getWeekNumber] of that Monday is 1: the Monday is a UTC
    midnight, and [getWeekNumber] takes its local year, month and day,
    those of Sunday 2025-01-05. The same happens for the other weeks: the
    result is the week number less one. On a host in UTC the result
    is 2. *)
Theorem getWeekNumber_roundtrip_west_of_UTC :
  toISODate (start (getWeekBounds 2025 2)) = "2025-01-06"
  /\ isoYearOfMonday (start (getWeekBounds 2025 2)) = 2025
  /\ getWeekNumber (-18000000) (start (getWeekBounds 2025 2)) = 1
  /\ (getFullYear (-18000000) (start (getWeekBounds 2025 2)),
      getMonth (-18000000) (start (getWeekBounds 2025 2)),
      getDate (-18000000) (start (getWeekBounds 2025 2)),
      getDay (-18000000) (start (getWeekBounds 2025 2))) = (2025, 0, 5, 0)
  /\ List.map (fun w => getWeekNumber (-18000000) (start (getWeekBounds 2025 w)))
       [2; 3; 10; 27; 52]
     = [1; 2; 9; 26; 51]
  /\ getWeekNumber 0 (start (getWeekBounds 2025 2)) = 2.
Proof. repeat apply conj; vm_compute; reflexivity. Qed.

#[local] Opaque YearFromTime MonthFromTime DateFromTime Day getWeekBounds
  isoDatePart.

(** C6. [calculateQuarterSummary] always returns a summary; it holds one
    week summary per week number of the quarter, in order;
    [compliantWeeks] counts the weeks with [isCompliant = true],
    [totalWeeks] is the length of [weeks], and [status] is [compliant]
    when [compliantWeeks >= requiredCompliantWeeksPerQuarter], else
    [warning] when [compliantWeeks >= warningThresholdWeeks], else
    [danger]. With the configuration {2, 8, 7} and the 13 weeks of the
    second quarter of 2025, 9 compliant weeks give [compliant], 7 give
    [warning] and 5 give [danger]. *)
Theorem calculateQuarterSummary_status (tz year quarter : Z)
    (config : ComplianceConfig) (allEntries : list DayEntry) :
  (exists qs,
     calculateQuarterSummary tz year quarter config allEntries = Some qs
     /\ Forall2 (fun weekNumber ws =>
                   calculateWeekSummary tz year weekNumber config allEntries = Some ws)
          (getWeeksInQuarter tz year quarter) (weeks qs)
     /\ compliantWeeks qs = Z.of_nat (length (List.filter isCompliant (weeks qs)))
     /\ totalWeeks qs = Z.of_nat (length (weeks qs))
     /\ status qs
        = (if requiredCompliantWeeksPerQuarter config <=? compliantWeeks qs
           then compliant
           else if warningThresholdWeeks config <=? compliantWeeks qs
                then warning
                else danger))
  /\ quarterView (calculateQuarterSummary 0 2025 2 defaultConfig (officeWeeks2025 15 9))
     = Some (13, 9, compliant)
  /\ quarterView (calculateQuarterSummary 0 2025 2 defaultConfig (officeWeeks2025 15 7))
     = Some (13, 7, warning)
  /\ quarterView (calculateQuarterSummary 0 2025 2 defaultConfig (officeWeeks2025 15 5))
     = Some (13, 5, danger).
Proof.
  apply conj; [apply calculateQuarterSummary_fields|].
  repeat apply conj; vm_compute; reflexivity.
Qed.



(** X21. East of (or at) UTC, for a valid (year, weekNumber): no day record
    of the summary carries the date of the Saturday or of the Sunday of
    the week, and the summary is the same as the one computed from the
    entries without those dated on that Saturday or Sunday, so that such
    entries, in range and [office] or not, add nothing to [days] or to
    [officeDays]. *)
Theorem calculateWeekSummary_weekend_excluded (tz year weekNumber : Z)
    (config : ComplianceConfig) (allEntries : list DayEntry) :
  eastOfUTC tz -> validYear year -> validWeek weekNumber ->
  let b := getWeekBounds year weekNumber in
  let saturday := toISODate (start b + 5 * msPerDay) in
  let sunday := toISODate (end_ b) in
  let onWeekend e := hasDate saturday e || hasDate sunday e in
  getUTCDay (start b + 5 * msPerDay) = 6
  /\ getUTCDay (end_ b) = 0
  /\ exists ws,
       calculateWeekSummary tz year weekNumber config allEntries = Some ws
       /\ Forall (fun d => date d <> saturday /\ date d <> sunday) (days ws)
       /\ officeDays ws = countOffice (days ws)
       /\ calculateWeekSummary tz year weekNumber config
            (List.filter (fun e => negb (onWeekend e)) allEntries) = Some ws.
Proof.
  intros Htz Hy Hw b saturday sunday onWeekend.
  assert (Hsun : sunday = toISODate (start b + 6 * msPerDay))
    by (unfold sunday, b; by rewrite getWeekBounds_end).
  split.
  { unfold getUTCDay, b. rewrite WeekDay_shift, getWeekBounds_start_Monday.
    reflexivity. }
  split.
  { unfold getUTCDay, b. rewrite getWeekBounds_end, WeekDay_shift,
      getWeekBounds_start_Monday. reflexivity. }
  assert (Hwk : forall k, k ∈ weekdayStrings year weekNumber ->
                  k <> saturday /\ k <> sunday).
  { intros k Hk. apply weekdayStrings_elem in Hk as (i & Hi & ->).
    rewrite Hsun. unfold saturday, b.
    split; intros E; apply week_day_distinct in E; (assumption || lia). }
  exists (summaryOf year weekNumber config allEntries (mondayToFriday year weekNumber)).
  split; [exact (calculateWeekSummary_mondayToFriday tz year weekNumber config _ Htz)|].
  pose proof (summaryOf_days_east year weekNumber config allEntries Hy Hw) as Hd.
  split; [|split].
  - rewrite Hd. apply Forall_forall. intros d Hin.
    apply list_elem_of_In, List.in_map_iff in Hin as (k & <- & Hk).
    rewrite lookupDay_date. apply Hwk. by apply list_elem_of_In.
  - apply (summaryOf_fields year weekNumber config allEntries).
  - rewrite (calculateWeekSummary_mondayToFriday tz year weekNumber config _ Htz).
    f_equal. apply summaryOf_ext.
    rewrite Hd, (summaryOf_days_east year weekNumber config _ Hy Hw).
    apply List.map_ext_in. intros k Hk.
    apply lookupDay_filter. intros e Hek.
    apply list_elem_of_In, Hwk in Hk as [Hk1 Hk2].
    unfold onWeekend. apply negb_true_iff, orb_false_iff.
    split; apply not_true_iff_false; intros Ht; apply hasDate_true in Ht;
      congruence.
Qed.

Lemma calculateWeekSummary_weekend_excluded_witness :
  eastOfUTC 0 /\ validYear 2025 /\ validWeek 2
  /\ exists ws,
       calculateWeekSummary 0 2025 2 defaultConfig
         [officeEntry "2025-01-11"; officeEntry "2025-01-06"] = Some ws
       /\ officeDays ws = countOffice (days ws)
       /\ calculateWeekSummary 0 2025 2 defaultConfig
            (List.filter
               (fun e =>
                  negb (hasDate (toISODate (start (getWeekBounds 2025 2) + 5 * msPerDay)) e
                        || hasDate (toISODate (end_ (getWeekBounds 2025 2))) e))
               [officeEntry "2025-01-11"; officeEntry "2025-01-06"]) = Some ws.
Proof.
  assert (Htz : eastOfUTC 0) by (unfold eastOfUTC, msPerDay; lia).
  assert (Hy : validYear 2025) by (unfold validYear; lia).
  assert (Hw : validWeek 2) by (unfold validWeek; lia).
  split; [exact Htz|]. split; [exact Hy|]. split; [exact Hw|].
  destruct (calculateWeekSummary_weekend_excluded 0 2025 2 defaultConfig
              [officeEntry "2025-01-11"; officeEntry "2025-01-06"] Htz Hy Hw)
    as (_ & _ & ws & Hc & _ & Ho & Hf).
  exists ws. split; [exact Hc|]. split; [exact Ho|exact Hf].
Defined.

(** X22. East of (or at) UTC, for a valid (year, weekNumber): when the
    entries hold an entry [e] dated on a weekday of the week and no later
    entry of the list has that date, however many earlier ones do, the
    day record of that weekday is [e]; the summary still has five day
    records, one per weekday, dated Monday to Friday in order. *)
Theorem calculateWeekSummary_last_duplicate (tz year weekNumber : Z)
    (config : ComplianceConfig) (pre post : list DayEntry) (e : DayEntry)
    (i : Z) :
  eastOfUTC tz -> validYear year -> validWeek weekNumber -> 0 <= i <= 4 ->
  date e = toISODate (start (getWeekBounds year weekNumber) + i * msPerDay) ->
  (forall e', e' ∈ post -> date e' <> date e) ->
  exists ws,
    calculateWeekSummary tz year weekNumber config (pre ++ e :: post) = Some ws
    /\ days ws !! Z.to_nat i = Some e
    /\ length (days ws) = 5%nat
    /\ List.map date (days ws) = weekdayStrings year weekNumber
    /\ NoDup (weekdayStrings year weekNumber).
Proof.
  intros Htz Hy Hw Hi He Hpost.
  exists (summaryOf year weekNumber config (pre ++ e :: post)
            (mondayToFriday year weekNumber)).
  split; [exact (calculateWeekSummary_mondayToFriday tz year weekNumber config _ Htz)|].
  split.
  { rewrite (summaryOf_day_east year weekNumber config _ i Hy Hw Hi).
    rewrite <- He. f_equal. exact (lookupDay_last pre e post Hpost). }
  pose proof (summaryOf_days_east year weekNumber config (pre ++ e :: post) Hy Hw)
    as Hd.
  split; [rewrite Hd; reflexivity|].
  split; [rewrite Hd; apply days_date_weekdayStrings|].
  exact (weekdayStrings_NoDup year weekNumber Hy Hw).
Qed.

Lemma calculateWeekSummary_last_duplicate_witness :
  exists ws,
    calculateWeekSummary 0 2025 2 defaultConfig
      ([officeEntry "2025-01-07"; officeEntry "2025-01-08"]
       ++ homeEntry "2025-01-07" :: [officeEntry "2025-01-09"]) = Some ws
    /\ days ws !! 1%nat = Some (homeEntry "2025-01-07")
    /\ length (days ws) = 5%nat.
Proof.
  assert (Htz : eastOfUTC 0) by (unfold eastOfUTC, msPerDay; lia).
  assert (Hy : validYear 2025) by (unfold validYear; lia).
  assert (Hw : validWeek 2) by (unfold validWeek; lia).
  assert (Hi : 0 <= 1 <= 4) by lia.
  assert (He : date (homeEntry "2025-01-07")
               = toISODate (start (getWeekBounds 2025 2) + 1 * msPerDay))
    by (vm_compute; reflexivity).
  assert (Hpost : forall e', e' ∈ [officeEntry "2025-01-09"] ->
                    date e' <> date (homeEntry "2025-01-07")).
  { clear He. intros e' Hin.
    apply elem_of_cons in Hin as [->|Hin]; [discriminate|].
    apply elem_of_nil in Hin. destruct Hin. }
  destruct (calculateWeekSummary_last_duplicate 0 2025 2 defaultConfig
              [officeEntry "2025-01-07"; officeEntry "2025-01-08"]
              [officeEntry "2025-01-09"] (homeEntry "2025-01-07") 1
              Htz Hy Hw Hi He Hpost) as (ws & Hc & Hl & Hn & _).
  exists ws. split; [exact Hc|]. split; [exact Hl|exact Hn].
Defined.

(** C8 (the code departs from it). Saturday 2025-01-11 is a day of week 2
    of 2025. On a host five hours west of UTC the summary of the week,
    for the single entry [office] of that Saturday, has the day records of
    Tuesday to Saturday, the Saturday's is the entry, and [officeDays]
    is 1: [getWeekdays] steps through UTC midnights and [isWeekday] reads
    their weekday in local time, where each is the evening before. On a
    host in UTC the records are those of Monday to Friday and [officeDays]
    is 0. *)
Theorem calculateWeekSummary_saturday_west_of_UTC :
  toISODate (start (getWeekBounds 2025 2) + 5 * msPerDay) = "2025-01-11"
  /\ getUTCDay (start (getWeekBounds 2025 2) + 5 * msPerDay) = 6
  /\ (fun ws => (startDate ws, endDate ws)) <$>
       calculateWeekSummary (-18000000) 2025 2 defaultConfig
         [officeEntry "2025-01-11"]
     = Some ("2025-01-06", "2025-01-12")
  /\ (fun ws => (officeDays ws, List.map dayView (days ws))) <$>
       calculateWeekSummary (-18000000) 2025 2 defaultConfig
         [officeEntry "2025-01-11"]
     = Some (1, [("2025-01-07", home); ("2025-01-08", home); ("2025-01-09", home);
                 ("2025-01-10", home); ("2025-01-11", office)])
  /\ (fun ws => (officeDays ws, List.map dayView (days ws))) <$>
       calculateWeekSummary 0 2025 2 defaultConfig [officeEntry "2025-01-11"]
     = Some (0, [("2025-01-06", home); ("2025-01-07", home); ("2025-01-08", home);
                 ("2025-01-09", home); ("2025-01-10", home)]).
Proof. repeat apply conj; vm_compute; reflexivity. Qed.

(** C10 (the code departs from it). Monday 2025-01-06 is a weekday of
    week 2 of 2025 and the entries hold two entries of that date, [home]
    and then [office]. On a host five hours west of UTC the summary of the
    week has no record of that Monday at all: its five records are those
    of Tuesday to Saturday, all the [home] default, and [officeDays] is 0.
    On a host in UTC the Monday's record is the last of the two entries,
    there is one record for each day from Monday to Friday, and
    [officeDays] is 1. *)
Theorem calculateWeekSummary_monday_west_of_UTC :
  toISODate (start (getWeekBounds 2025 2)) = "2025-01-06"
  /\ getUTCDay (start (getWeekBounds 2025 2)) = 1
  /\ (fun ws => (officeDays ws, List.map dayView (days ws))) <$>
       calculateWeekSummary (-18000000) 2025 2 defaultConfig
         [homeEntry "2025-01-06"; officeEntry "2025-01-06"]
     = Some (0, [("2025-01-07", home); ("2025-01-08", home); ("2025-01-09", home);
                 ("2025-01-10", home); ("2025-01-11", home)])
  /\ (fun ws => (officeDays ws, List.map dayView (days ws))) <$>
       calculateWeekSummary 0 2025 2 defaultConfig
         [homeEntry "2025-01-06"; officeEntry "2025-01-06"]
     = Some (1, [("2025-01-06", office); ("2025-01-07", home); ("2025-01-08", home);
                 ("2025-01-09", home); ("2025-01-10", home)]).
Proof. repeat apply conj; vm_compute; reflexivity. Qed.

(** C3 (the code departs from it). In 2025 the four lists together hold
    the numbers 1 to 53, each once, and the first quarter takes nothing
    from 2024. But 2025 has 52 ISO weeks: December 28th is in week 52, and
    the week listed as 53 in the fourth quarter is week 1 of 2026 (same
    bounds, Thursday in 2026, ISO week number 1), which the first quarter
    of 2026 lists again. *)
Theorem getWeeksInQuarter_2025_lists_week_53 :
  List.map (getWeeksInQuarter 0 2025) [1; 2; 3; 4]
  = [seqZ 1 14; seqZ 15 13; seqZ 28 13; seqZ 41 13]
  /\ getQuarterForWeek 0 2024 53 = {| wq_year := 2024; wq_quarter := 4 |}
  /\ getWeekNumber 0 (Date_UTC 2025 11 28) = 52
  /\ getQuarterForWeek 0 2025 53 = {| wq_year := 2025; wq_quarter := 4 |}
  /\ toISODate (start (getWeekBounds 2025 53)) = "2025-12-29"
  /\ toISODate (end_ (getWeekBounds 2025 53)) = "2026-01-04"
  /\ isoYearOfMonday (start (getWeekBounds 2025 53)) = 2026
  /\ getWeekNumber 0 (start (getWeekBounds 2025 53)) = 1
  /\ getWeekBounds 2025 53 = getWeekBounds 2026 1
  /\ getQuarterForWeek 0 2026 1 = {| wq_year := 2026; wq_quarter := 1 |}
  /\ 1 ∈ getWeeksInQuarter 0 2026 1.
Proof.
  repeat (apply conj; [vm_compute; reflexivity|]).
  assert (E : getWeeksInQuarter 0 2026 1 = seqZ 1 14) by (vm_compute; reflexivity).
  rewrite E. apply elem_of_seqZ. lia.
Qed.

(** C4 (the code departs from it). The first quarter of 2024 takes week 53
    of 2023, whose quarter assignment is (2024, Q1); after the final
    ascending sort the value 53 is the last element of the list, behind
    the weeks 1 to 13 of 2024, and the first element is 1. *)
Theorem getWeeksInQuarter_2024_week_53_last :
  getQuarterForWeek 0 2023 53 = {| wq_year := 2024; wq_quarter := 1 |}
  /\ getWeeksInQuarter 0 2024 1 = seqZ 1 13 ++ [53]
  /\ head (getWeeksInQuarter 0 2024 1) = Some 1
  /\ last (getWeeksInQuarter 0 2024 1) = Some 53.
Proof. repeat apply conj; vm_compute; reflexivity. Qed.

(** C5 (the code departs from it). The summary of the first quarter of
    2024 has 14 weeks in ascending order of week number; its last element
    has week number 53 and is computed for week 53 of 2024, not of 2023:
    its bounds are 2024-12-30 to 2025-01-05, a week that
    [getQuarterForWeek] assigns to (2024, Q4). The week that spilled is
    week 53 of 2023, 2024-01-01 to 2024-01-07, which is week 1 of 2024 and
    already the first element. *)
Theorem calculateQuarterSummary_2024_Q1_week_53 :
  (fun qs => List.map ws_weekNumber (weeks qs))
    <$> calculateQuarterSummary 0 2024 1 defaultConfig []
  = Some (seqZ 1 13 ++ [53])
  /\ (fun qs => (fun ws => (ws_year ws, ws_weekNumber ws, startDate ws, endDate ws))
                  <$> last (weeks qs))
       <$> calculateQuarterSummary 0 2024 1 defaultConfig []
     = Some (Some (2024, 53, "2024-12-30", "2025-01-05"))
  /\ getQuarterForWeek 0 2024 53 = {| wq_year := 2024; wq_quarter := 4 |}
  /\ getQuarterForWeek 0 2023 53 = {| wq_year := 2024; wq_quarter := 1 |}
  /\ toISODate (start (getWeekBounds 2023 53)) = "2024-01-01"
  /\ toISODate (end_ (getWeekBounds 2023 53)) = "2024-01-07"
  /\ getWeekBounds 2023 53 = getWeekBounds 2024 1.
Proof. repeat apply conj; vm_compute; reflexivity. Qed.

(** West of UTC the local date of a UTC midnight is the day before. With
    the offset of UTC-05:00: the Monday of week 2 of 2025 gets week number
    1; the weekdays of that week come out as Tuesday to Saturday, so that
    an [office] entry of Saturday 2025-01-11 is counted and one of Monday
    2025-01-06 is not; and week 14 of 2024, which starts on Monday
    2024-04-01, is assigned to the first quarter. *)
Remark west_of_UTC_local_dates :
  getWeekNumber (-18000000) (start (getWeekBounds 2025 2)) = 1
  /\ (fun ws => (officeDays ws, List.map date (days ws)))
       <$> calculateWeekSummary (-18000000) 2025 2 defaultConfig
             [officeEntry "2025-01-11"; officeEntry "2025-01-06"]
     = Some (1, ["2025-01-07"; "2025-01-08"; "2025-01-09"; "2025-01-10";
                 "2025-01-11"])
  /\ toISODate (start (getWeekBounds 2024 14)) = "2024-04-01"
  /\ getQuarterForWeek (-18000000) 2024 14 = {| wq_year := 2024; wq_quarter := 1 |}
  /\ getQuarterForWeek 0 2024 14 = {| wq_year := 2024; wq_quarter := 2 |}.
Proof. repeat apply conj; vm_compute; reflexivity. Qed.

(** ** Further properties of the calendar arithmetic *)

Import WeekFacts QuarterFormFacts QuarterListFacts ParseFacts.

(** X1. Weeks tile the calendar. The start of every week is a UTC midnight
    and a Monday; the Monday of the next week number is the day after the
    end of the week; and the numbering runs on into the next year: week 1
    of [year + 1] is the week numbered 53 or the week numbered 54 of
    [year]. *)
Theorem getWeekBounds_weeks_tile (year weekNumber : Z) :
  validYear year ->
  let b := getWeekBounds year weekNumber in
  TimeWithinDay (start b) = 0
  /\ getUTCDay (start b) = 1
  /\ getMondayOfWeek year (weekNumber + 1) = end_ b + msPerDay
  /\ (getWeekBounds (year + 1) 1 = getWeekBounds year 53
      \/ getWeekBounds (year + 1) 1 = getWeekBounds year 54).
Proof.
  intros Hy b. unfold validYear in Hy.
  split; [apply getWeekBounds_start_midnight|].
  split; [apply getWeekBounds_start_Monday|].
  split.
  { unfold getMondayOfWeek, b.
    rewrite getWeekBounds_end, (getWeekBounds_start_shift year weekNumber 1). lia. }
  destruct (week1_next_year year ltac:(lia) ltac:(lia)) as [E|E];
    [left|right]; exact (getWeekBounds_eq _ _ _ _ E).
Qed.

Lemma getWeekBounds_weeks_tile_witness :
  validYear 2026
  /\ getMondayOfWeek 2026 2 = end_ (getWeekBounds 2026 1) + msPerDay.
Proof.
  assert (Hy : validYear 2026) by (unfold validYear; lia).
  split; [exact Hy|].
  destruct (getWeekBounds_weeks_tile 2026 1 Hy) as (_ & _ & H & _).
  exact H.
Defined.

(** X2. In every time zone, for a date of a valid local year: the date
    that [getWeekNumber] works on is the UTC midnight with the local
    year, month and day of the month; the week number is between 1 and 53;
    the year of the Thursday of the week is the local year or a
    neighbour; and the week of that year with that number is the week of
    the date: its bounds contain the date, at the place of its weekday. *)
Theorem getWeekNumber_week_of_date (tz date : Z) :
  validYear (getFullYear tz date) ->
  let d := localDay tz date in
  let b := getWeekBounds (isoWeekYear tz date) (getWeekNumber tz date) in
  (getUTCFullYear d = getFullYear tz date
   /\ getUTCMonth d = getMonth tz date
   /\ getUTCDate d = getDate tz date)
  /\ validWeek (getWeekNumber tz date)
  /\ getFullYear tz date - 1 <= isoWeekYear tz date <= getFullYear tz date + 1
  /\ start b <= d <= end_ b
  /\ d = start b + (orSeven (getUTCDay d) - 1) * msPerDay.
Proof.
  intros Hy d b.
  pose proof (getWeekNumber_contains tz date Hy) as H. cbv zeta in H.
  destruct H as (Hw & HY & dayNum & Hn & Hdn & Hd).
  split.
  { unfold getUTCFullYear, getUTCMonth, getUTCDate, getFullYear, getMonth, getDate.
    apply fields_of_Day. unfold d.
    rewrite localDay_Day by (unfold validYear in Hy; lia). apply Day_midnight. }
  split; [exact Hw|]. split; [exact HY|].
  assert (He : end_ b = start b + 6 * msPerDay) by apply getWeekBounds_end.
  assert (E : d = start b + (dayNum - 1) * msPerDay) by exact Hd.
  split.
  - rewrite He, E. unfold msPerDay. lia.
  - rewrite Hdn in E. exact E.
Qed.

Lemma getWeekNumber_week_of_date_witness :
  validYear (getFullYear (-18000000) 1736121600000)
  /\ getWeekNumber (-18000000) 1736121600000 = 1
  /\ start (getWeekBounds (isoWeekYear (-18000000) 1736121600000)
              (getWeekNumber (-18000000) 1736121600000))
     <= localDay (-18000000) 1736121600000.
Proof.
  assert (Hy : validYear (getFullYear (-18000000) 1736121600000)).
  { assert (E : getFullYear (-18000000) 1736121600000 = 2025)
      by (vm_compute; reflexivity).
    rewrite E. unfold validYear. lia. }
  split; [exact Hy|]. split; [vm_compute; reflexivity|].
  destruct (getWeekNumber_week_of_date (-18000000) 1736121600000 Hy)
    as (_ & _ & _ & [H _] & _).
  exact H.
Defined.

(** X3. East of (or at) UTC, for a valid (year, week) whose Thursday is a
    day of [year]: [getWeekNumber] of every day of the week, Monday to
    Sunday, is [week]. *)
Theorem getWeekNumber_every_day (tz year week i : Z) :
  eastOfUTC tz -> validYear year -> validWeek week -> 0 <= i <= 6 ->
  isoYearOfMonday (start (getWeekBounds year week)) = year ->
  getWeekNumber tz (start (getWeekBounds year week) + i * msPerDay) = week.
Proof.
  intros Htz Hy Hw Hi Hiso.
  pose proof (getWeekBounds_start_midnight year week) as Hm.
  pose proof (getWeekBounds_start_Monday year week) as Hmon.
  assert (Hloc : forall j, 0 <= j <= 6 ->
            ~ (0 <= YearFromTime
                      (LocalTime tz (start (getWeekBounds year week) + j * msPerDay))
               <= 99)).
  { intros j Hj.
    pose proof (week_year_range year week
                  (LocalTime tz (start (getWeekBounds year week) + j * msPerDay)) Hw)
      as Hr.
    cbv zeta in Hr.
    rewrite MakeFullYear_valid in Hr by (unfold validYear in Hy; lia).
    rewrite Day_LocalTime_east in Hr;
      [|exact Htz|unfold TimeWithinDay, msPerDay in *; zdiv].
    rewrite Day_shift in Hr. specialize (Hr ltac:(lia)).
    unfold validYear in Hy. lia. }
  rewrite (getWeekNumber_weekday tz (start (getWeekBounds year week)) i
             Htz Hm Hmon Hi (Hloc i Hi)).
  rewrite <- (getWeekNumber_weekday tz (start (getWeekBounds year week)) 0
                Htz Hm Hmon ltac:(lia) (Hloc 0 ltac:(lia))).
  replace (start (getWeekBounds year week) + 0 * msPerDay)
    with (start (getWeekBounds year week)) by lia.
  exact (getWeekNumber_start tz year week Htz Hy Hw Hiso).
Qed.

Lemma getWeekNumber_every_day_witness :
  eastOfUTC 32400000 /\ validYear 2026 /\ validWeek 53
  /\ getWeekNumber 32400000 (start (getWeekBounds 2026 53) + 6 * msPerDay) = 53.
Proof.
  assert (Htz : eastOfUTC 32400000) by (unfold eastOfUTC, msPerDay; lia).
  assert (Hy : validYear 2026) by (unfold validYear; lia).
  assert (Hw : validWeek 53) by (unfold validWeek; lia).
  assert (Hi : 0 <= 6 <= 6) by lia.
  assert (Hiso : isoYearOfMonday (start (getWeekBounds 2026 53)) = 2026)
    by (vm_compute; reflexivity).
  split; [exact Htz|]. split; [exact Hy|]. split; [exact Hw|].
  exact (getWeekNumber_every_day 32400000 2026 53 6 Htz Hy Hw Hi Hiso).
Defined.

(** The quarter of a date and the three months it covers. *)
Lemma getQuarter_months tz t :
  1 <= getQuarter tz t <= 4
  /\ 3 * (getQuarter tz t - 1) <= getMonth tz t <= 3 * (getQuarter tz t - 1) + 2.
Proof.
  unfold getQuarter, getMonth. cbv zeta.
  pose proof (MonthFromTime_range (LocalTime tz t)). zdiv.
Qed.

Lemma getQuarterForWeek_quarter_range tz year weekNumber :
  1 <= wq_quarter (getQuarterForWeek tz year weekNumber) <= 4.
Proof.
  unfold getQuarterForWeek. cbv zeta.
  destruct (_ && _); cbn [wq_quarter]; [lia|apply getQuarter_months].
Qed.

(** X4. In every time zone, for a date that is not Invalid Date, a valid
    year and a week number from 1 to 53, a quarter that the code computes
    is 1, 2, 3 or 4: the quarter of the date, which covers the three
    months [3 (q - 1)] to [3 (q - 1) + 2], the quarter that
    [getQuarterForWeek] assigns to the week, and the current quarter at
    that date. *)
Theorem getQuarter_range (tz date year weekNumber : Z) :
  validTimeValue date -> validYear year -> validWeek weekNumber ->
  1 <= getQuarter tz date <= 4
  /\ 3 * (getQuarter tz date - 1) <= getMonth tz date
     <= 3 * (getQuarter tz date - 1) + 2
  /\ 1 <= wq_quarter (getQuarterForWeek tz year weekNumber) <= 4
  /\ 1 <= wq_quarter (getCurrentQuarter tz date) <= 4.
Proof.
  intros _ _ _.
  split; [apply getQuarter_months|]. split; [apply getQuarter_months|].
  split; [apply getQuarterForWeek_quarter_range|].
  unfold getCurrentQuarter. cbn [wq_quarter]. apply getQuarter_months.
Qed.

Lemma getQuarter_range_witness :
  validTimeValue 1736121600000 /\ validYear 2025 /\ validWeek 15
  /\ 1 <= getQuarter (-18000000) 1736121600000 <= 4
  /\ 1 <= wq_quarter (getQuarterForWeek (-18000000) 2025 15) <= 4.
Proof.
  assert (Ht : validTimeValue 1736121600000) by (unfold validTimeValue; lia).
  assert (Hy : validYear 2025) by (unfold validYear; lia).
  assert (Hw : validWeek 15) by (unfold validWeek; lia).
  split; [exact Ht|]. split; [exact Hy|]. split; [exact Hw|].
  destruct (getQuarter_range (-18000000) 1736121600000 2025 15 Ht Hy Hw)
    as (H1 & _ & H2 & _).
  split; [exact H1|exact H2].
Defined.

Lemma getQuarterForWeek_east_year tz year weekNumber :
  eastOfUTC tz -> validYear year -> validWeek weekNumber ->
  (weekNumber <= 52 -> wq_year (getQuarterForWeek tz year weekNumber) = year)
  /\ (weekNumber = 53 ->
      getQuarterForWeek tz year weekNumber
      = {| wq_year := year; wq_quarter := 4 |}
      \/ getQuarterForWeek tz year weekNumber
         = {| wq_year := year + 1; wq_quarter := 1 |}).
Proof.
  intros Htz Hy Hw.
  rewrite (getQuarterForWeek_east tz year weekNumber Htz)
    by (unfold validYear in Hy; lia || exact Hw).
  destruct (week1Offset_range year) as [Ha _].
  assert (Hl : 0 <= leapFlag year <= 1) by (destruct (leapFlag_cases year); lia).
  unfold validWeek in Hw. unfold quarterOfOffset.
  revert Ha Hl. generalize (week1Offset year), (leapFlag year). intros a l Ha Hl.
  split.
  - intros H52.
    destruct ((a + 7 * (weekNumber - 1) <=? 0) && (0 <=? a + 7 * (weekNumber - 1) + 6));
      [reflexivity|].
    destruct (Z.ltb_spec (a + 7 * (weekNumber - 1)) (365 + l)); [reflexivity|lia].
  - intros ->.
    destruct (Z.leb_spec (a + 7 * (53 - 1)) 0); [lia|]. cbn [andb].
    destruct (Z.ltb_spec (a + 7 * (53 - 1)) (365 + l)); [left|right; reflexivity].
    assert (E : monthOfDay (a + 7 * (53 - 1)) l = 11)
      by (unfold monthOfDay; zcases; lia).
    rewrite E. reflexivity.
Qed.

(** X5. East of (or at) UTC, for a valid year: the weeks 1 to 52 are
    assigned to a quarter of the year itself, and week 53 to the fourth
    quarter of the year or to the first quarter of the next year. *)
Theorem getQuarterForWeek_year (tz year weekNumber : Z) :
  eastOfUTC tz -> validYear year -> validWeek weekNumber ->
  (weekNumber <= 52 -> wq_year (getQuarterForWeek tz year weekNumber) = year)
  /\ (weekNumber = 53 ->
      getQuarterForWeek tz year weekNumber
      = {| wq_year := year; wq_quarter := 4 |}
      \/ getQuarterForWeek tz year weekNumber
         = {| wq_year := year + 1; wq_quarter := 1 |}).
Proof. exact (getQuarterForWeek_east_year tz year weekNumber). Qed.

Lemma getQuarterForWeek_year_witness :
  eastOfUTC 0 /\ validYear 2023 /\ validWeek 53
  /\ (getQuarterForWeek 0 2023 53 = {| wq_year := 2023; wq_quarter := 4 |}
      \/ getQuarterForWeek 0 2023 53 = {| wq_year := 2023 + 1; wq_quarter := 1 |}).
Proof.
  assert (Htz : eastOfUTC 0) by (unfold eastOfUTC, msPerDay; lia).
  assert (Hy : validYear 2023) by (unfold validYear; lia).
  assert (Hw : validWeek 53) by (unfold validWeek; lia).
  split; [exact Htz|]. split; [exact Hy|]. split; [exact Hw|].
  destruct (getQuarterForWeek_year 0 2023 53 Htz Hy Hw) as [_ H].
  exact (H eq_refl).
Defined.

(** X6. In every time zone and for every year and quarter, the list that
    [getWeeksInQuarter] returns is in ascending order and holds only
    week numbers from 1 to 53; for a quarter other than 1, 2, 3 and 4 it
    is empty. *)
Theorem getWeeksInQuarter_ascending (tz year quarter : Z) :
  StronglySorted Z.le (getWeeksInQuarter tz year quarter)
  /\ Forall validWeek (getWeeksInQuarter tz year quarter)
  /\ (~ (1 <= quarter <= 4) -> getWeeksInQuarter tz year quarter = []).
Proof.
  split; [apply getWeeksInQuarter_Sorted|]. split.
  - apply Forall_forall. intros w Hin.
    apply getWeeksInQuarter_elem in Hin as [[Hr _]|(-> & _)];
      unfold validWeek; lia.
  - intros Hq. apply elem_of_nil_inv. intros w Hin.
    apply getWeeksInQuarter_elem in Hin as [[_ Hg]|(_ & -> & _)]; [|lia].
    pose proof (getQuarterForWeek_quarter_range tz year w) as Hr.
    rewrite Hg in Hr. cbn [wq_quarter] in Hr. lia.
Qed.

Lemma getWeeksInQuarter_53_quarter tz year quarter :
  eastOfUTC tz -> validYear year ->
  53 ∈ getWeeksInQuarter tz year quarter -> quarter = 1 \/ quarter = 4.
Proof.
  intros Htz Hy Hin.
  apply getWeeksInQuarter_elem in Hin as [[_ Hg]|(_ & -> & _)]; [|by left].
  destruct (getQuarterForWeek_east_year tz year 53 Htz Hy) as [_ H];
    [unfold validWeek; lia|].
  destruct (H eq_refl) as [E|E]; rewrite E in Hg.
  - right. congruence.
  - assert (year + 1 = year) by congruence. lia.
Qed.

(** X7. East of (or at) UTC, for a valid year: each week number from 1 to
    52 is in the list of exactly one quarter, and that quarter is 1, 2, 3
    or 4; no list holds a number twice; among the numbers 1 to 52 those
    of an earlier quarter are smaller than those of a later quarter; and
    53 is only ever in the list of the first or of the fourth quarter. *)
Theorem getWeeksInQuarter_partition (tz year : Z) :
  eastOfUTC tz -> validYear year ->
  (forall w, 1 <= w <= 52 ->
     exists q, 1 <= q <= 4
       /\ forall q', w ∈ getWeeksInQuarter tz year q' <-> q' = q)
  /\ (forall q, NoDup (getWeeksInQuarter tz year q))
  /\ (forall q1 q2 w1 w2,
        w1 ∈ getWeeksInQuarter tz year q1 -> w2 ∈ getWeeksInQuarter tz year q2 ->
        w1 <= 52 -> w2 <= 52 -> q1 < q2 -> w1 < w2)
  /\ (forall q, 53 ∈ getWeeksInQuarter tz year q -> q = 1 \/ q = 4).
Proof.
  intros Htz Hy.
  split; [intros w Hw; exact (getWeeksInQuarter_partition_52 tz year w Htz Hy Hw)|].
  split; [intros q; exact (getWeeksInQuarter_NoDup tz year q Htz Hy)|].
  split.
  - intros q1 q2 w1 w2 H1 H2 Hw1 Hw2 Hq.
    exact (getWeeksInQuarter_blocks tz year q1 q2 w1 w2 Htz Hy H1 H2 Hw1 Hw2 Hq).
  - intros q. exact (getWeeksInQuarter_53_quarter tz year q Htz Hy).
Qed.

Lemma getWeeksInQuarter_partition_witness :
  eastOfUTC 0 /\ validYear 2024
  /\ NoDup (getWeeksInQuarter 0 2024 1)
  /\ (53 ∈ getWeeksInQuarter 0 2024 1 -> 1 = 1 \/ 1 = 4).
Proof.
  assert (Htz : eastOfUTC 0) by (unfold eastOfUTC, msPerDay; lia).
  assert (Hy : validYear 2024) by (unfold validYear; lia).
  split; [exact Htz|]. split; [exact Hy|].
  destruct (getWeeksInQuarter_partition 0 2024 Htz Hy) as (_ & Hn & _ & H53).
  split; [exact (Hn 1)|exact (H53 1)].
Defined.

(** X8. East of (or at) UTC, for a valid year and a quarter from 1 to 4:
    the list of weeks of the quarter has 13 or 14 numbers, and that of the
    second quarter always 13; so has the summary of the quarter, whatever
    the entries: [totalWeeks] is 13 or 14. *)
Theorem getWeeksInQuarter_13_or_14 (tz year quarter : Z)
    (config : ComplianceConfig) (allEntries : list DayEntry) :
  eastOfUTC tz -> validYear year -> 1 <= quarter <= 4 ->
  (length (getWeeksInQuarter tz year quarter) = 13%nat
   \/ length (getWeeksInQuarter tz year quarter) = 14%nat)
  /\ (quarter = 2 -> length (getWeeksInQuarter tz year quarter) = 13%nat)
  /\ exists qs,
       calculateQuarterSummary tz year quarter config allEntries = Some qs
       /\ totalWeeks qs = Z.of_nat (length (getWeeksInQuarter tz year quarter))
       /\ 13 <= totalWeeks qs <= 14.
Proof.
  intros Htz Hy Hq.
  destruct (getWeeksInQuarter_length tz year quarter Htz Hy Hq) as [H1 H2].
  split; [exact H1|]. split; [exact H2|].
  destruct (calculateQuarterSummary_fields tz year quarter config allEntries)
    as (qs & Hqs & Hw & _ & Ht & _).
  exists qs. split; [exact Hqs|].
  apply Forall2_length in Hw.
  assert (E : totalWeeks qs = Z.of_nat (length (getWeeksInQuarter tz year quarter)))
    by (rewrite Ht, <- Hw; reflexivity).
  split; [exact E|]. rewrite E. lia.
Qed.

Lemma getWeeksInQuarter_13_or_14_witness :
  eastOfUTC 0 /\ validYear 2024 /\ 1 <= 1 <= 4
  /\ (length (getWeeksInQuarter 0 2024 1) = 13%nat
      \/ length (getWeeksInQuarter 0 2024 1) = 14%nat).
Proof.
  assert (Htz : eastOfUTC 0) by (unfold eastOfUTC, msPerDay; lia).
  assert (Hy : validYear 2024) by (unfold validYear; lia).
  assert (Hq : 1 <= 1 <= 4) by lia.
  split; [exact Htz|]. split; [exact Hy|]. split; [exact Hq|].
  destruct (getWeeksInQuarter_13_or_14 0 2024 1 defaultConfig [] Htz Hy Hq)
    as (H & _).
  exact H.
Defined.



(** X10. Writing a date string back after reading it: for a time [t] of
    a year from 0 to 9999 and a time zone less than a day from UTC,
    [toISODate (fromISODate (toISODate t))] is the date string of [t] at
    or west of UTC, and the date string of the day before east of UTC. *)
Theorem toISODate_fromISODate (tz t : Z) :
  0 <= getUTCFullYear t <= 9999 -> - msPerDay < tz < msPerDay ->
  toISODate <$> fromISODate tz (toISODate t)
  = Some (toISODate (if 0 <? tz then t - msPerDay else t)).
Proof.
  intros Hy Htz. unfold fromISODate, toISODate.
  rewrite (Date_parse_isoDatePart tz t Hy). cbn [fmap option_fmap option_map].
  f_equal. rewrite !isoDatePart_eq.
  assert (Hd : Day (Day t * msPerDay - tz)
               = Day (if 0 <? tz then t - msPerDay else t)).
  { destruct (Z.ltb_spec 0 tz).
    - rewrite Day_local_midnight_east by lia.
      replace (t - msPerDay) with (t + (-1) * msPerDay) by lia.
      rewrite Day_shift. lia.
    - apply Day_local_midnight_west. lia. }
  destruct (fields_of_Day _ _ Hd) as (-> & -> & ->). reflexivity.
Qed.

Lemma toISODate_fromISODate_witness :
  toISODate <$> fromISODate 32400000 (toISODate 1736121600000)
  = Some "2025-01-05"
  /\ toISODate 1736121600000 = "2025-01-06".
Proof.
  assert (Hy : 0 <= getUTCFullYear 1736121600000 <= 9999).
  { assert (E : getUTCFullYear 1736121600000 = 2025) by (vm_compute; reflexivity).
    rewrite E. lia. }
  assert (Htz : - msPerDay < 32400000 < msPerDay) by (unfold msPerDay; lia).
  split; [|vm_compute; reflexivity].
  rewrite (toISODate_fromISODate 32400000 1736121600000 Hy Htz).
  vm_compute. reflexivity.
Defined.

(** ** Further properties of the summaries *)

Import SummaryFacts WeekCard WeekCardFacts.

(** X11. In a time zone less than a day from UTC, for a valid year, a
    week number from 1 to 53 and every configuration and list of entries:
    the summary of the week counts between 0 and 5 office days; a requirement of no office day makes
    every week compliant, and a requirement of more than five makes no
    week compliant. *)
Theorem calculateWeekSummary_officeDays_range (tz year weekNumber : Z)
    (config : ComplianceConfig) (allEntries : list DayEntry) :
  - msPerDay <= tz < msPerDay -> validYear year -> validWeek weekNumber ->
  exists ws,
    calculateWeekSummary tz year weekNumber config allEntries = Some ws
    /\ 0 <= officeDays ws <= 5
    /\ (requiredOfficeDaysPerWeek config <= 0 -> isCompliant ws = true)
    /\ (5 < requiredOfficeDaysPerWeek config -> isCompliant ws = false).
Proof.
  intros Htz _ _.
  destruct (getWeekdays_five tz year weekNumber Htz) as (wds & Hwds & Hlen).
  exists (summaryOf year weekNumber config allEntries wds).
  split; [exact (calculateWeekSummary_summaryOf tz year weekNumber config _ wds Hwds)|].
  destruct (summaryOf_fields year weekNumber config allEntries wds) as (Ho & Hc & Hl).
  cbv zeta in Ho, Hc, Hl.
  pose proof (countOffice_range
                (days (summaryOf year weekNumber config allEntries wds))) as Hr.
  rewrite <- Ho, Hl, Hlen in Hr.
  split; [lia|]. rewrite Hc.
  split; intros Hreq; [apply Z.leb_le|apply Z.leb_gt]; lia.
Qed.

Lemma calculateWeekSummary_officeDays_range_witness :
  - msPerDay <= -18000000 < msPerDay /\ validYear 2025 /\ validWeek 2
  /\ exists ws,
       calculateWeekSummary (-18000000) 2025 2 defaultConfig
         [officeEntry "2025-01-07"] = Some ws
       /\ 0 <= officeDays ws <= 5.
Proof.
  assert (Htz : - msPerDay <= -18000000 < msPerDay) by (unfold msPerDay; lia).
  assert (Hy : validYear 2025) by (unfold validYear; lia).
  assert (Hw : validWeek 2) by (unfold validWeek; lia).
  split; [exact Htz|]. split; [exact Hy|]. split; [exact Hw|].
  destruct (calculateWeekSummary_officeDays_range (-18000000) 2025 2 defaultConfig
              [officeEntry "2025-01-07"] Htz Hy Hw) as (ws & Hc & Hr & _).
  exists ws. split; [exact Hc|exact Hr].
Defined.

(** X12. Logging an office day never hurts. In every time zone, for
    every year, quarter and configuration: when an entry with location
    [office] is added after the others, no week of the quarter loses an
    office day or its compliance, the number of compliant weeks does not
    decrease and the status does not get worse. *)
Theorem calculateQuarterSummary_office_entry (tz year quarter : Z)
    (config : ComplianceConfig) (allEntries : list DayEntry) (e : DayEntry) :
  location e = office ->
  exists qs qs',
    calculateQuarterSummary tz year quarter config allEntries = Some qs
    /\ calculateQuarterSummary tz year quarter config (allEntries ++ [e]) = Some qs'
    /\ Forall2 (fun ws ws' =>
                  officeDays ws <= officeDays ws'
                  /\ (isCompliant ws = true -> isCompliant ws' = true))
         (weeks qs) (weeks qs')
    /\ compliantWeeks qs <= compliantWeeks qs'
    /\ statusRank (status qs) <= statusRank (status qs').
Proof. exact (calculateQuarterSummary_office_mono tz year quarter config allEntries e). Qed.

Lemma calculateQuarterSummary_office_entry_witness :
  exists qs qs',
    calculateQuarterSummary 0 2025 2 defaultConfig (officeWeeks2025 15 7) = Some qs
    /\ calculateQuarterSummary 0 2025 2 defaultConfig
         (officeWeeks2025 15 7 ++ [officeEntry "2025-06-03"]) = Some qs'
    /\ compliantWeeks qs <= compliantWeeks qs'
    /\ statusRank (status qs) <= statusRank (status qs').
Proof.
  destruct (calculateQuarterSummary_office_entry 0 2025 2 defaultConfig
              (officeWeeks2025 15 7) (officeEntry "2025-06-03") eq_refl)
    as (qs & qs' & H1 & H2 & _ & H3 & H4).
  exists qs, qs'. split; [exact H1|]. split; [exact H2|]. split; [exact H3|exact H4].
Defined.

(** X13. The order of the entries does not matter when no two of them
    have the same date: in every time zone, for every year and
    configuration, a list of entries with pairwise different dates and
    any rearrangement of it give the same summary of every week, of every
    quarter and of the year. *)
Theorem calculateYearSummary_entry_order (tz year : Z) (config : ComplianceConfig)
    (entries1 entries2 : list DayEntry) :
  NoDup (List.map date entries1) -> entries1 ≡ₚ entries2 ->
  (forall weekNumber,
     calculateWeekSummary tz year weekNumber config entries1
     = calculateWeekSummary tz year weekNumber config entries2)
  /\ (forall quarter,
        calculateQuarterSummary tz year quarter config entries1
        = calculateQuarterSummary tz year quarter config entries2)
  /\ calculateYearSummary tz year config entries1
     = calculateYearSummary tz year config entries2.
Proof.
  intros Hnd Hp.
  split; [intros w; exact (calculateWeekSummary_Permutation tz year w config _ _ Hnd Hp)|].
  split; [intros q;
          exact (calculateQuarterSummary_Permutation tz year q config _ _ Hnd Hp)|].
  unfold calculateYearSummary. apply mapM_ext. intros q.
  exact (calculateQuarterSummary_Permutation tz year q config _ _ Hnd Hp).
Qed.

Lemma calculateYearSummary_entry_order_witness :
  calculateYearSummary 0 2025 defaultConfig
    [officeEntry "2025-01-06"; homeEntry "2025-01-07"]
  = calculateYearSummary 0 2025 defaultConfig
      [homeEntry "2025-01-07"; officeEntry "2025-01-06"].
Proof.
  assert (Hnd : NoDup (List.map date [officeEntry "2025-01-06"; homeEntry "2025-01-07"])).
  { apply (bool_decide_unpack _). vm_compute. reflexivity. }
  assert (Hp : [officeEntry "2025-01-06"; homeEntry "2025-01-07"]
               ≡ₚ [homeEntry "2025-01-07"; officeEntry "2025-01-06"])
    by apply perm_swap.
  destruct (calculateYearSummary_entry_order 0 2025 defaultConfig _ _ Hnd Hp)
    as (_ & _ & H).
  exact H.
Defined.

(** X14. An entry changes the week of its date only. East of (or at)
    UTC, for a valid year: an entry dated on one of the seven days of week
    [w], wherever it stands in the list, leaves the summary of every
    other week [w'] of the year as it is without the entry. *)
Theorem calculateWeekSummary_other_week (tz year w w' i : Z)
    (config : ComplianceConfig) (pre post : list DayEntry) (e : DayEntry) :
  eastOfUTC tz -> validYear year -> validWeek w -> validWeek w' -> w' <> w ->
  0 <= i <= 6 ->
  date e = toISODate (start (getWeekBounds year w) + i * msPerDay) ->
  calculateWeekSummary tz year w' config (pre ++ e :: post)
  = calculateWeekSummary tz year w' config (pre ++ post).
Proof.
  intros Htz Hy Hw Hw' Hne Hi He.
  apply (calculateWeekSummary_unrelated tz year w' config pre e post Htz Hy Hw').
  intros Hin. apply weekdayStrings_elem in Hin as (j & Hj & E).
  rewrite He in E.
  destruct (week_days_disjoint year w w' i j Hy Hw Hw' Hi ltac:(lia) E) as [Ew _].
  congruence.
Qed.

Lemma calculateWeekSummary_other_week_witness :
  eastOfUTC 0 /\ validYear 2025 /\ validWeek 3 /\ validWeek 2
  /\ calculateWeekSummary 0 2025 2 defaultConfig
       ([officeEntry "2025-01-06"] ++ officeEntry "2025-01-13" :: [])
     = calculateWeekSummary 0 2025 2 defaultConfig ([officeEntry "2025-01-06"] ++ []).
Proof.
  assert (Htz : eastOfUTC 0) by (unfold eastOfUTC, msPerDay; lia).
  assert (Hy : validYear 2025) by (unfold validYear; lia).
  assert (Hw : validWeek 3) by (unfold validWeek; lia).
  assert (Hw' : validWeek 2) by (unfold validWeek; lia).
  assert (Hne : 2 <> 3) by lia.
  assert (Hi : 0 <= 0 <= 6) by lia.
  assert (He : date (officeEntry "2025-01-13")
               = toISODate (start (getWeekBounds 2025 3) + 0 * msPerDay))
    by (vm_compute; reflexivity).
  split; [exact Htz|]. split; [exact Hy|]. split; [exact Hw|]. split; [exact Hw'|].
  exact (calculateWeekSummary_other_week 0 2025 3 2 0 defaultConfig
           [officeEntry "2025-01-06"] [] (officeEntry "2025-01-13")
           Htz Hy Hw Hw' Hne Hi He).
Defined.

(** X15. The summaries of the dashboard. [loadData] calls
    [calculateYearSummary] without entries. In a time zone less than a
    day from UTC and with a configuration that requires at least one
    office day, it gets four summaries, of the quarters 1 to 4 of the
    year in this order, in which every week has no office day, is not
    compliant and has only [home] records; every quarter has no compliant
    week, and the total of compliant weeks that the dashboard shows
    is 0. *)
Theorem Dashboard_quarterSummaries_no_entries (tz year : Z)
    (config : ComplianceConfig) :
  - msPerDay <= tz < msPerDay -> 1 <= requiredOfficeDaysPerWeek config ->
  exists quarters,
    Dashboard.quarterSummaries tz year config = Some quarters
    /\ List.map qs_quarter quarters = [1; 2; 3; 4]
    /\ Forall (fun qs =>
                 qs_year qs = year /\ compliantWeeks qs = 0
                 /\ Forall (fun ws =>
                              officeDays ws = 0 /\ isCompliant ws = false
                              /\ Forall (fun d => location d = home) (days ws))
                      (weeks qs))
         quarters
    /\ Dashboard.totalCompliantWeeks quarters = 0.
Proof.
  intros Htz Hreq.
  destruct (calculateQuarterSummary_no_entries tz year 1 config Htz Hreq)
    as (q1 & E1 & Hq1 & Hy1 & Hc1 & Hw1).
  destruct (calculateQuarterSummary_no_entries tz year 2 config Htz Hreq)
    as (q2 & E2 & Hq2 & Hy2 & Hc2 & Hw2).
  destruct (calculateQuarterSummary_no_entries tz year 3 config Htz Hreq)
    as (q3 & E3 & Hq3 & Hy3 & Hc3 & Hw3).
  destruct (calculateQuarterSummary_no_entries tz year 4 config Htz Hreq)
    as (q4 & E4 & Hq4 & Hy4 & Hc4 & Hw4).
  exists [q1; q2; q3; q4]. split.
  { unfold Dashboard.quarterSummaries, calculateYearSummary. apply mapM_Some.
    repeat (constructor; [assumption|]). constructor. }
  split; [cbn [List.map]; by rewrite Hq1, Hq2, Hq3, Hq4|].
  split; [repeat (constructor; [by repeat split|]); constructor|].
  unfold Dashboard.totalCompliantWeeks. cbn [foldl].
  rewrite Hc1, Hc2, Hc3, Hc4. reflexivity.
Qed.

Lemma Dashboard_quarterSummaries_no_entries_witness :
  exists quarters,
    Dashboard.quarterSummaries 0 2025 defaultConfig = Some quarters
    /\ List.map qs_quarter quarters = [1; 2; 3; 4]
    /\ Dashboard.totalCompliantWeeks quarters = 0.
Proof.
  assert (Htz : - msPerDay <= 0 < msPerDay) by (unfold msPerDay; lia).
  assert (Hreq : 1 <= requiredOfficeDaysPerWeek defaultConfig) by (simpl; lia).
  destruct (Dashboard_quarterSummaries_no_entries 0 2025 defaultConfig Htz Hreq)
    as (qs & H1 & H2 & _ & H3).
  exists qs. split; [exact H1|]. split; [exact H2|exact H3].
Defined.

(** X16. The toggle of a day and the recomputed summary. East of (or at)
    UTC, for a valid (year, week): let [ws] be the summary of the week
    that the card shows. [handleToggle] on a date and a location always
    yields an entry for [setDay] and a new state of the card; the entry
    has the date, the next location of the cycle home, office, vacation,
    sick, and no notes; the day records of the new state show the same
    dates and locations, and the new state the same number of office
    days, as the summary recomputed once that entry is logged after the
    others; week number, year and bounds stay; and [isCompliant] is the
    one of [ws], it is not computed again. *)
Theorem handleToggle_recomputed (tz year weekNumber : Z)
    (config : ComplianceConfig) (allEntries : list DayEntry) (dateStr : string)
    (currentLocation : WorkLocation) :
  eastOfUTC tz -> validYear year -> validWeek weekNumber ->
  exists ws entry localWeek ws',
    calculateWeekSummary tz year weekNumber config allEntries = Some ws
    /\ handleToggle ws dateStr currentLocation = Some (entry, localWeek)
    /\ entry = {| date := dateStr; location := nextLocation currentLocation;
                  notes := None |}
    /\ calculateWeekSummary tz year weekNumber config (allEntries ++ [entry])
       = Some ws'
    /\ List.map dayView (days localWeek) = List.map dayView (days ws')
    /\ officeDays localWeek = officeDays ws'
    /\ (ws_weekNumber localWeek, ws_year localWeek, startDate localWeek,
        endDate localWeek)
       = (ws_weekNumber ws', ws_year ws', startDate ws', endDate ws')
    /\ isCompliant localWeek = isCompliant ws.
Proof.
  intros Htz Hy Hw.
  set (entry := {| date := dateStr; location := nextLocation currentLocation;
                   notes := None |}).
  destruct (calculateWeekSummary_east tz year weekNumber config allEntries Htz Hy Hw)
    as (ws & Hc & Hd & Ho & _ & Hs & He).
  destruct (calculateWeekSummary_east tz year weekNumber config (allEntries ++ [entry])
              Htz Hy Hw) as (ws' & Hc' & Hd' & Ho' & _ & Hs' & He').
  pose proof (handleToggle_eq ws dateStr currentLocation) as Ht.
  eexists ws, entry, _, ws'.
  split; [exact Hc|]. split; [exact Ht|]. split; [reflexivity|].
  split; [exact Hc'|].
  cbn [days officeDays isCompliant ws_weekNumber ws_year startDate endDate].
  assert (Hv : List.map dayView
                 (List.map
                    (fun d => if String.eqb (date d) dateStr
                              then withLocation d (nextLocation currentLocation)
                              else d)
                    (days ws))
               = List.map dayView (days ws')).
  { rewrite Hd, Hd'. apply toggled_days_dayView. }
  split; [exact Hv|].
  split; [rewrite Ho'; exact (countOffice_dayView _ _ Hv)|].
  split; [|reflexivity].
  rewrite Hs, He, Hs', He'.
  assert (E1 : ws_weekNumber ws = ws_weekNumber ws' /\ ws_year ws = ws_year ws').
  { rewrite (calculateWeekSummary_mondayToFriday tz year weekNumber config
               allEntries Htz) in Hc.
    rewrite (calculateWeekSummary_mondayToFriday tz year weekNumber config
               (allEntries ++ [entry]) Htz) in Hc'.
    assert (ws = summaryOf year weekNumber config allEntries
                   (mondayToFriday year weekNumber)) as -> by congruence.
    assert (ws' = summaryOf year weekNumber config (allEntries ++ [entry])
                    (mondayToFriday year weekNumber)) as -> by congruence.
    split; reflexivity. }
  destruct E1 as [-> ->]. reflexivity.
Qed.

Lemma handleToggle_recomputed_witness :
  exists ws entry localWeek ws',
    calculateWeekSummary 0 2025 2 defaultConfig [officeEntry "2025-01-06"] = Some ws
    /\ handleToggle ws "2025-01-07" home = Some (entry, localWeek)
    /\ location entry = office
    /\ calculateWeekSummary 0 2025 2 defaultConfig
         ([officeEntry "2025-01-06"] ++ [entry]) = Some ws'
    /\ officeDays localWeek = officeDays ws'
    /\ isCompliant localWeek = isCompliant ws
    /\ isCompliant ws = false
    /\ isCompliant ws' = true.
Proof.
  assert (Htz : eastOfUTC 0) by (unfold eastOfUTC, msPerDay; lia).
  assert (Hy : validYear 2025) by (unfold validYear; lia).
  assert (Hw : validWeek 2) by (unfold validWeek; lia).
  destruct (handleToggle_recomputed 0 2025 2 defaultConfig [officeEntry "2025-01-06"]
              "2025-01-07" home Htz Hy Hw)
    as (ws & entry & lw & ws' & H1 & H2 & H3 & H4 & _ & H5 & _ & H6).
  exists ws, entry, lw, ws'.
  split; [exact H1|]. split; [exact H2|]. split; [rewrite H3; reflexivity|].
  split; [exact H4|]. split; [exact H5|]. split; [exact H6|].
  split.
  - pose proof H1 as E. vm_compute in E. injection E as E.
    rewrite <- E. reflexivity.
  - pose proof H4 as E. rewrite H3 in E. vm_compute in E. injection E as E.
    rewrite <- E. reflexivity.
Defined.

(** ** The weekdays of a week and the current week, by time zone *)

(** X17. On a host whose offset from UTC is fixed (no daylight-saving
    change) and less than a day, for a valid year and a week number from
    1 to 53: [getWeekdays] returns five UTC midnights, each a weekday in
    local time; at or east of UTC they are the Monday to the Friday of the
    week, and west of UTC, where a UTC midnight is the evening before in
    local time, the Tuesday to the Saturday. *)
Theorem getWeekdays_local_weekdays (tz year weekNumber : Z) :
  - msPerDay <= tz < msPerDay -> validYear year -> validWeek weekNumber ->
  let s := start (getWeekBounds year weekNumber) in
  exists weekdays,
    getWeekdays tz year weekNumber = Some weekdays
    /\ weekdays
       = List.map (fun i => s + i * msPerDay)
           (if 0 <=? tz then [0; 1; 2; 3; 4] else [1; 2; 3; 4; 5])
    /\ List.map getUTCDay weekdays
       = (if 0 <=? tz then [1; 2; 3; 4; 5] else [2; 3; 4; 5; 6])
    /\ Forall (fun d => isWeekday tz d = true /\ 1 <= getDay tz d <= 5) weekdays.
Proof.
  intros Htz _ _ s.
  pose proof (getWeekBounds_start_midnight year weekNumber) as Hm.
  pose proof (getWeekBounds_start_Monday year weekNumber) as Hmon.
  assert (Hu : forall i, getUTCDay (s + i * msPerDay) = (1 + i) mod 7).
  { intros i. unfold getUTCDay, s. by rewrite WeekDay_shift, Hmon. }
  assert (Hwd : forall d, isWeekday tz d = true ->
                  isWeekday tz d = true /\ 1 <= getDay tz d <= 5).
  { intros d H. split; [exact H|]. unfold isWeekday in H. cbv zeta in H.
    apply andb_true_iff in H as [H1 H2]. apply Z.leb_le in H1, H2. lia. }
  destruct (Z.leb_spec 0 tz) as [Hp|Hn].
  - eexists. split; [apply getWeekdays_east; unfold eastOfUTC; lia|].
    split; [reflexivity|]. cbn [List.map]. split.
    + rewrite !Hu. reflexivity.
    + repeat (constructor;
              [apply Hwd; unfold s;
               rewrite (isWeekday_east tz) by (assumption || unfold eastOfUTC; lia);
               reflexivity|]).
      constructor.
  - eexists. split; [apply getWeekdays_west; lia|].
    split; [reflexivity|]. cbn [List.map]. split.
    + rewrite !Hu. reflexivity.
    + repeat (constructor;
              [apply Hwd; unfold s;
               rewrite (isWeekday_west tz) by (assumption || lia);
               reflexivity|]).
      constructor.
Qed.

Lemma getWeekdays_local_weekdays_witness :
  - msPerDay <= -18000000 < msPerDay /\ validYear 2025 /\ validWeek 2
  /\ exists weekdays,
       getWeekdays (-18000000) 2025 2 = Some weekdays
       /\ List.map getUTCDay weekdays = [2; 3; 4; 5; 6].
Proof.
  assert (Htz : - msPerDay <= -18000000 < msPerDay) by (unfold msPerDay; lia).
  assert (Hy : validYear 2025) by (unfold validYear; lia).
  assert (Hw : validWeek 2) by (unfold validWeek; lia).
  split; [exact Htz|]. split; [exact Hy|]. split; [exact Hw|].
  destruct (getWeekdays_local_weekdays (-18000000) 2025 2 Htz Hy Hw)
    as (wds & H1 & _ & H2 & _).
  exists wds. split; [exact H1|exact H2].
Defined.

(** X18. West of UTC, by less than a day, for a valid (year, week): the
    summary of the week holds the day records of the Tuesday to the
    Saturday, each the last entry logged for that date or the [home]
    default; no record has the date of the Monday, so that an entry of
    the Monday is never counted, while the Saturday has a record and its
    entry is counted. *)
Theorem calculateWeekSummary_west_of_UTC (tz year weekNumber : Z)
    (config : ComplianceConfig) (allEntries : list DayEntry) :
  - msPerDay <= tz < 0 -> validYear year -> validWeek weekNumber ->
  let s := start (getWeekBounds year weekNumber) in
  let tuesdayToSaturday :=
    List.map (fun i => toISODate (s + i * msPerDay)) [1; 2; 3; 4; 5] in
  exists ws,
    calculateWeekSummary tz year weekNumber config allEntries = Some ws
    /\ days ws = List.map (lookupDay allEntries) tuesdayToSaturday
    /\ List.map date (days ws) = tuesdayToSaturday
    /\ (toISODate s ∉ List.map date (days ws))
    /\ officeDays ws = countOffice (days ws).
Proof.
  intros Htz Hy Hw s tuesdayToSaturday.
  exists (summaryOf year weekNumber config allEntries
            (List.map (fun i => s + i * msPerDay) [1; 2; 3; 4; 5])).
  split.
  { apply calculateWeekSummary_summaryOf.
    exact (getWeekdays_west tz year weekNumber Htz). }
  assert (Hd : days (summaryOf year weekNumber config allEntries
                       (List.map (fun i => s + i * msPerDay) [1; 2; 3; 4; 5]))
               = List.map (lookupDay allEntries) tuesdayToSaturday).
  { unfold summaryOf, tuesdayToSaturday, s. cbv zeta. cbn [days List.map].
    rewrite !(dayFor_week year weekNumber allEntries) by (assumption || lia).
    reflexivity. }
  split; [exact Hd|].
  assert (Hdates : List.map date
                     (days (summaryOf year weekNumber config allEntries
                              (List.map (fun i => s + i * msPerDay) [1; 2; 3; 4; 5])))
                   = tuesdayToSaturday)
    by (rewrite Hd; apply days_date_weekdayStrings).
  split; [exact Hdates|]. split.
  - rewrite Hdates. unfold tuesdayToSaturday. cbn [List.map]. intros Hin.
    replace s with (s + 0 * msPerDay) in Hin at 1 by lia.
    repeat (apply elem_of_cons in Hin as [Hin|Hin];
            [apply (week_day_distinct year weekNumber) in Hin; (assumption || lia)|]).
    by apply elem_of_nil in Hin.
  - apply (summaryOf_fields year weekNumber config allEntries).
Qed.

Lemma calculateWeekSummary_west_of_UTC_witness :
  - msPerDay <= -18000000 < 0 /\ validYear 2025 /\ validWeek 2
  /\ exists ws,
       calculateWeekSummary (-18000000) 2025 2 defaultConfig
         [officeEntry "2025-01-06"] = Some ws
       /\ (toISODate (start (getWeekBounds 2025 2)) ∉ List.map date (days ws)).
Proof.
  assert (Htz : - msPerDay <= -18000000 < 0) by (unfold msPerDay; lia).
  assert (Hy : validYear 2025) by (unfold validYear; lia).
  assert (Hw : validWeek 2) by (unfold validWeek; lia).
  split; [exact Htz|]. split; [exact Hy|]. split; [exact Hw|].
  destruct (calculateWeekSummary_west_of_UTC (-18000000) 2025 2 defaultConfig
              [officeEntry "2025-01-06"] Htz Hy Hw) as (ws & H1 & _ & _ & H2 & _).
  exists ws. split; [exact H1|exact H2].
Defined.

(** Weeks with the same number in two consecutive years have no day in
    common. *)
Lemma week_other_year_disjoint y Y w D :
  ~ (0 <= y <= 99) -> ~ (0 <= Y <= 99) -> Y = y + 1 \/ Y = y - 1 ->
  Day (start (getWeekBounds Y w)) <= D <= Day (start (getWeekBounds Y w)) + 6 ->
  ~ (Day (start (getWeekBounds y w)) <= D <= Day (start (getWeekBounds y w)) + 6).
Proof.
  intros Hy HY Hc HD.
  destruct (getWeekBounds_start_Day y w) as (wd & Hwd & _ & _ & Hd).
  destruct (getWeekBounds_start_Day Y w) as (wd' & Hwd' & _ & _ & Hd').
  rewrite MakeFullYear_valid in Hd, Hd' by assumption.
  rewrite Hd. rewrite Hd' in HD.
  destruct Hc as [E|E]; rewrite E in HD.
  - rewrite DayFromYear_succ in HD. destruct (DaysInYear_cases y); lia.
  - pose proof (DayFromYear_succ (y - 1)) as Hs.
    replace (y - 1 + 1) with y in Hs by lia.
    destruct (DaysInYear_cases (y - 1)); lia.
Qed.

Lemma getCurrentWeek_contains tz now :
  validYear (getFullYear tz now) ->
  validWeek (getWeekNumber tz now)
  /\ (start (getWeekBounds (getFullYear tz now) (getWeekNumber tz now))
      <= localDay tz now
      <= end_ (getWeekBounds (getFullYear tz now) (getWeekNumber tz now))
      <-> isoWeekYear tz now = getFullYear tz now).
Proof.
  intros Hy.
  pose proof (getWeekNumber_contains tz now Hy) as H. cbv zeta in H.
  destruct H as (Hw & HY & dayNum & Hn & _ & Hd).
  split; [exact Hw|].
  rewrite getWeekBounds_end.
  pose proof (midnight_eq _ (getWeekBounds_start_midnight (getFullYear tz now)
                               (getWeekNumber tz now))) as Hs.
  pose proof (midnight_eq _ (getWeekBounds_start_midnight (isoWeekYear tz now)
                               (getWeekNumber tz now))) as HS.
  unfold validYear in Hy.
  revert Hy HY Hd Hs HS.
  generalize (localDay tz now), (getWeekNumber tz now), (isoWeekYear tz now),
    (getFullYear tz now).
  intros d w Y y Hy HY Hd Hs HS.
  split.
  - intros Hin. destruct (Z.eq_dec Y y) as [E|Hne]; [exact E|exfalso].
    apply (week_other_year_disjoint y Y w
             (Day (start (getWeekBounds Y w)) + (dayNum - 1)));
      [lia|lia|lia|lia|].
    rewrite Hd, <- Hs, <- HS in Hin. unfold msPerDay in Hin. lia.
  - intros E. rewrite <- E. rewrite Hd. unfold msPerDay. lia.
Qed.

(** X19. The current week. In every time zone, at a time [now] of a valid
    local year: [getCurrentWeek] gives the local year, as [getCurrentYear]
    does, and a week number from 1 to 53; the week with that number of
    that year contains today exactly when the Thursday of today's week is
    a day of the local year. In the first and last days of a year whose
    week belongs to the neighbouring year, year and week number together
    name a week that today is not in. *)
Theorem getCurrentWeek_week_of_today (tz now : Z) :
  validYear (getFullYear tz now) ->
  let cw := getCurrentWeek tz now in
  let b := getWeekBounds (cw_year cw) (cw_weekNumber cw) in
  cw_year cw = getCurrentYear tz now
  /\ validWeek (cw_weekNumber cw)
  /\ (start b <= localDay tz now <= end_ b <-> isoWeekYear tz now = cw_year cw).
Proof.
  intros Hy cw b.
  destruct (getCurrentWeek_contains tz now Hy) as [Hw Hiff].
  split; [reflexivity|]. split; [exact Hw|exact Hiff].
Qed.

Lemma getCurrentWeek_week_of_today_witness :
  validYear (getFullYear 0 1735516800000)
  /\ getCurrentWeek 0 1735516800000 = {| cw_year := 2024; cw_weekNumber := 1 |}
  /\ isoWeekYear 0 1735516800000 = 2025
  /\ ~ (start (getWeekBounds (cw_year (getCurrentWeek 0 1735516800000))
                 (cw_weekNumber (getCurrentWeek 0 1735516800000)))
        <= localDay 0 1735516800000
        <= end_ (getWeekBounds (cw_year (getCurrentWeek 0 1735516800000))
                   (cw_weekNumber (getCurrentWeek 0 1735516800000)))).
Proof.
  assert (Ey : getFullYear 0 1735516800000 = 2024) by (vm_compute; reflexivity).
  assert (Ei : isoWeekYear 0 1735516800000 = 2025) by (vm_compute; reflexivity).
  assert (Ec : getCurrentWeek 0 1735516800000
               = {| cw_year := 2024; cw_weekNumber := 1 |})
    by (vm_compute; reflexivity).
  assert (Hy : validYear (getFullYear 0 1735516800000))
    by (rewrite Ey; unfold validYear; lia).
  split; [exact Hy|]. split; [exact Ec|]. split; [exact Ei|].
  destruct (getCurrentWeek_week_of_today 0 1735516800000 Hy) as (_ & _ & H).
  intros Hin. apply H in Hin. rewrite Ei, Ec in Hin. discriminate Hin.
Defined.

(** ** The totals of the dashboard *)

Lemma ownWeeks_total a l :
  -3 <= a <= 3 -> 0 <= l <= 1 ->
  52 <= Z.of_nat (length (ownWeeks a l 1)) + Z.of_nat (length (ownWeeks a l 2))
        + Z.of_nat (length (ownWeeks a l 3)) + Z.of_nat (length (ownWeeks a l 4))
     <= 53.
Proof.
  intros Ha Hl.
  assert (a = -3 \/ a = -2 \/ a = -1 \/ a = 0 \/ a = 1 \/ a = 2 \/ a = 3)
    as [->|[->|[->|[->|[->|[->| ->]]]]]] by lia.
  all: assert (l = 0 \/ l = 1) as [->| ->] by lia.
  all: repeat match goal with
         | |- context [length (ownWeeks ?x ?y ?q)] =>
             let n := eval vm_compute in (length (ownWeeks x y q)) in
             replace (length (ownWeeks x y q)) with n by (vm_compute; reflexivity)
         end.
  all: lia.
Qed.

Lemma getWeeksInQuarter_total tz year :
  eastOfUTC tz -> validYear year ->
  52 <= Z.of_nat (length (getWeeksInQuarter tz year 1))
        + Z.of_nat (length (getWeeksInQuarter tz year 2))
        + Z.of_nat (length (getWeeksInQuarter tz year 3))
        + Z.of_nat (length (getWeeksInQuarter tz year 4))
     <= 54.
Proof.
  intros Htz Hy.
  rewrite !(getWeeksInQuarter_east tz year _ Htz Hy), !sortNum_length.
  destruct (week1Offset_range year) as [Ha _].
  assert (Hl : 0 <= leapFlag year <= 1) by (destruct (leapFlag_cases year); lia).
  pose proof (ownWeeks_total (week1Offset year) (leapFlag year) Ha Hl) as Ht.
  change (2 =? 1) with false. change (3 =? 1) with false. change (4 =? 1) with false.
  change (1 =? 1) with true. cbn [andb app].
  destruct (spills year); cbn [app length]; lia.
Qed.

Lemma calculateQuarterSummary_counts tz year quarter config allEntries :
  exists qs,
    calculateQuarterSummary tz year quarter config allEntries = Some qs
    /\ totalWeeks qs = Z.of_nat (length (getWeeksInQuarter tz year quarter))
    /\ 0 <= compliantWeeks qs <= totalWeeks qs.
Proof.
  destruct (calculateQuarterSummary_fields tz year quarter config allEntries)
    as (qs & Hqs & Hw & Hc & Ht & _).
  exists qs. split; [exact Hqs|].
  apply Forall2_length in Hw.
  split; [rewrite Ht, <- Hw; reflexivity|].
  rewrite Hc, Ht. pose proof (List.filter_length_le isCompliant (weeks qs)). lia.
Qed.

(** X20. The totals of the dashboard for the summaries of a year. East of
    (or at) UTC, for a valid year and whatever the entries:
    [calculateYearSummary] returns four summaries, the sum of their
    [totalWeeks], as the dashboard computes it, is 52, 53 or 54, and the
    sum of their [compliantWeeks] is between 0 and that total. *)
Theorem Dashboard_totals_range (tz year : Z) (config : ComplianceConfig)
    (allEntries : list DayEntry) :
  eastOfUTC tz -> validYear year ->
  exists quarters,
    calculateYearSummary tz year config allEntries = Some quarters
    /\ length quarters = 4%nat
    /\ 52 <= Dashboard.totalWeeks quarters <= 54
    /\ 0 <= Dashboard.totalCompliantWeeks quarters <= Dashboard.totalWeeks quarters.
Proof.
  intros Htz Hy.
  destruct (calculateQuarterSummary_counts tz year 1 config allEntries)
    as (q1 & E1 & Ht1 & Hc1).
  destruct (calculateQuarterSummary_counts tz year 2 config allEntries)
    as (q2 & E2 & Ht2 & Hc2).
  destruct (calculateQuarterSummary_counts tz year 3 config allEntries)
    as (q3 & E3 & Ht3 & Hc3).
  destruct (calculateQuarterSummary_counts tz year 4 config allEntries)
    as (q4 & E4 & Ht4 & Hc4).
  pose proof (getWeeksInQuarter_total tz year Htz Hy) as Ht.
  exists [q1; q2; q3; q4]. split.
  { unfold calculateYearSummary. apply mapM_Some.
    repeat (constructor; [assumption|]). constructor. }
  split; [reflexivity|].
  unfold Dashboard.totalWeeks, Dashboard.totalCompliantWeeks. cbn [foldl].
  rewrite <- Ht1, <- Ht2, <- Ht3, <- Ht4 in Ht. lia.
Qed.

Lemma Dashboard_totals_range_witness :
  eastOfUTC 0 /\ validYear 2024
  /\ exists quarters,
       calculateYearSummary 0 2024 defaultConfig [officeEntry "2024-01-02"]
       = Some quarters
       /\ 52 <= Dashboard.totalWeeks quarters <= 54.
Proof.
  assert (Htz : eastOfUTC 0) by (unfold eastOfUTC, msPerDay; lia).
  assert (Hy : validYear 2024) by (unfold validYear; lia).
  split; [exact Htz|]. split; [exact Hy|].
  destruct (Dashboard_totals_range 0 2024 defaultConfig [officeEntry "2024-01-02"]
              Htz Hy) as (qs & H1 & _ & H2 & _).
  exists qs. split; [exact H1|exact H2].
Defined.
